(** * Verification of the waveform synthesizer [synthesizer/synth.py]

    The synthesizer computes on Python [float]s (IEEE 754 binary64), so the
    embedding works on Rocq's primitive binary64 floats: every [+], [*], [/]
    and comparison below is the hardware operation the interpreter performs.
    What Python adds on top of the hardware (exceptions on a zero divisor,
    [int()] of a float, truthiness, [min]/[max]) is written out in [Py].
    The C library's transcendental functions ([sin], [log], [pow]) are not
    part of the repository; they are parameters of the sections using them. *)

From Stdlib Require Import ZArith List Bool Lia Floats.
Import ListNotations.

Set Warnings "-inexact-float".
Set Implicit Arguments.

(** ** The Python runtime, as far as the synthesizer uses it *)
Module Py.

(** The exceptions the modelled code can raise. *)
Inductive exn : Set :=
| ZeroDivisionError
| ValueError
| OverflowError
| TypeError
| AssertionError
| StopIteration.

(** A Python expression either evaluates or raises. *)
Inductive result (A : Type) : Type :=
| Ok (a : A)
| Raise (e : exn).
Arguments Raise {A} e.

Definition bind {A B : Type} (r : result A) (k : A -> result B) : result B :=
  match r with
  | Ok a => k a
  | Raise e => Raise e
  end.

Definition assert (b : bool) : result unit :=
  if b then Ok tt else Raise AssertionError.

End Py.
Import Py.

Declare Scope py_scope.
Delimit Scope py_scope with py.
Notation "x <- e ;; k" := (Py.bind e (fun x => k))
  (at level 61, e at next level, right associativity) : py_scope.
Notation "' p <- e ;; k" := (Py.bind e (fun p => k))
  (at level 61, p pattern, e at next level, right associativity) : py_scope.
Notation "e ;;; k" := (Py.bind e (fun _ => k))
  (at level 61, right associativity) : py_scope.

Open Scope float_scope.

(** *** Floats *)

(** [sys.float_info.min], [.max] and [.epsilon]. *)
Definition float_info_min : float := 0x1p-1022.
Definition float_info_max : float := 0x1.fffffffffffffp+1023.
Definition float_info_epsilon : float := 0x1p-52.

(** [math.pi]. *)
Definition pi : float := 0x1.921fb54442d18p+1.

(** Conversion of a Python [int] to a float (round to nearest even), as in
    [float * int] or [int / int]. *)
Definition of_Z (z : Z) : float := SF2Prim (binary_normalize prec emax z 0 false).

(** Truthiness of a number: everything but zero (of either sign) is true;
    so is a NaN. *)
Definition truthy (x : float) : bool := negb (x =? 0).

(** [x / y]: a zero divisor raises. *)
Definition truediv (x y : float) : result float :=
  if y =? 0 then Raise ZeroDivisionError else Ok (x / y).

(** [x / n] for an [int] divisor [n]. *)
Definition truediv_int (x : float) (n : Z) : result float :=
  if (n =? 0)%Z then Raise ZeroDivisionError else Ok (x / of_Z n).

(** A Python [int] as the binary number [m * 2^0] that it is, of whatever
    size. *)
Definition sf_of_int (z : Z) : spec_float :=
  match z with
  | Z0 => S754_zero false
  | Zpos m => S754_finite false m 0
  | Zneg m => S754_finite true m 0
  end.

(** [a / b] for two [int]s.  The operands are not converted to floats: the
    exact quotient is rounded once, to the nearest double, ties to even.  A
    zero divisor raises, and so does a quotient that rounds past the largest
    double ("integer division result too large for a float"). *)
Definition int_truediv (a b : Z) : result float :=
  if (b =? 0)%Z then Raise ZeroDivisionError
  else
    let q := SF2Prim (SFdiv prec emax (sf_of_int a) (sf_of_int b)) in
    if is_infinity q then Raise OverflowError else Ok q.

(** [min(a, b)] and [max(a, b)] keep the first argument unless the second
    one is strictly smaller (larger). *)
Definition py_min (a b : float) : float := if b <? a then b else a.
Definition py_max (a b : float) : float := if a <? b then b else a.

(** The exact integer part of a finite float with mantissa [m], exponent [e]
    and sign [s], rounded towards minus infinity: [m * 2^e] is shifted. *)
Definition floor_finite (s : bool) (m : positive) (e : Z) : Z :=
  Z.shiftl (if s then Z.neg m else Z.pos m) e.

(** The same, rounded towards zero. *)
Definition trunc_finite (s : bool) (m : positive) (e : Z) : Z :=
  let a := Z.shiftl (Z.pos m) e in if s then (- a)%Z else a.

(** [int(x)]: truncation towards zero; a NaN and the infinities raise. *)
Definition py_int (x : float) : result Z :=
  match Prim2SF x with
  | S754_nan => Raise ValueError
  | S754_infinity _ => Raise OverflowError
  | S754_zero _ => Ok 0%Z
  | S754_finite s m e => Ok (trunc_finite s m e)
  end.

(** [math.floor(x)]. *)
Definition py_floor (x : float) : result Z :=
  match Prim2SF x with
  | S754_nan => Raise ValueError
  | S754_infinity _ => Raise OverflowError
  | S754_zero _ => Ok 0%Z
  | S754_finite s m e => Ok (floor_finite s m e)
  end.

(** [x < n] for a float [x] and an [int] [n]: Python compares the two
    exactly, without rounding [n] to a float. *)
Definition ltb_float_int (x : float) (n : Z) : bool :=
  match Prim2SF x with
  | S754_nan => false
  | S754_infinity s => s
  | S754_zero _ => (0 <? n)%Z
  | S754_finite s m e =>
      let sm := if s then Z.neg m else Z.pos m in
      if (0 <=? e)%Z then (sm * 2 ^ e <? n)%Z else (sm <? n * 2 ^ (- e))%Z
  end.

(** [x % 1] on floats: the C [fmod], which is exact, moved into [[0, 1)] by
    adding the divisor to a negative remainder; a zero remainder is [+0.0].
    A float of exponent [e >= 0] is an integer. *)
Definition mod1 (x : float) : float :=
  match Prim2SF x with
  | S754_nan | S754_infinity _ => nan
  | S754_zero _ => 0
  | S754_finite s m e =>
      if (0 <=? e)%Z then 0
      else
        let r := x - of_Z (trunc_finite s m e) in
        if r =? 0 then 0 else if r <? 0 then r + 1 else r
  end.

(** [range(start, stop, step)] for a positive step, as the list it runs
    through; [n] bounds its length. *)
Fixpoint range_from (n : nat) (start stop step : Z) : list Z :=
  match n with
  | O => []
  | S n' => if (start <? stop)%Z then start :: range_from n' (start + step) stop step else []
  end.

Definition py_range (start stop step : Z) : list Z :=
  range_from (Z.to_nat (stop - start)) start stop step.

(** *** Iterators

    An iterator is observed through the sequence of results of its
    successive [next()] calls: a value, [StopIteration], or an exception
    that escapes.  Nothing is read past the first result that is not a
    value. *)
Inductive item (A : Type) : Type :=
| Val (a : A)
| Stop
| Fail (e : exn).
Arguments Stop {A}.
Arguments Fail {A} e.

Definition stream (A : Type) : Type := nat -> item A.

(** [next(it)] inside a generator body: the end of [it] surfaces as
    [StopIteration]. *)
Definition next_of {A : Type} (s : stream A) (pos : nat) : result A :=
  match s pos with
  | Val a => Ok a
  | Stop => Raise StopIteration
  | Fail e => Raise e
  end.

(** [itertools.repeat(x)]. *)
Definition repeat_forever {A : Type} (x : A) : stream A := fun _ => Val x.

(** A generator that has raised or returned is finished: every later
    [next()] on it raises [StopIteration].  [finished s k] says that one of
    the [k] first places of [s] holds no value, and [until_finished s] is
    what the successive [next()] calls on a generator return whose turns
    produce [s]. *)
Fixpoint finished {A : Type} (s : stream A) (k : nat) : bool :=
  match k with
  | O => false
  | S k' => finished s k' || match s k' with Val _ => false | _ => true end
  end.

Definition until_finished {A : Type} (s : stream A) : stream A :=
  fun k => if finished s k then Stop else s k.

(** A generator of the shape [<init>; while True: <turn>], where a turn
    yields once.  [init] computes the locals the loop starts with, [turn]
    the value a turn yields and the locals it leaves; both may raise. *)
Section GeneratorLoop.
Variable L : Type.
Variable init : result L.
Variable turn : L -> result (float * L).

Fixpoint locals_at (k : nat) : result L :=
  match k with
  | O => init
  | S k' => (l <- locals_at k' ;; p <- turn l ;; Ok (snd p))%py
  end.

Definition generator_loop : stream float :=
  fun k =>
    match (l <- locals_at k ;; turn l)%py with
    | Ok (v, _) => Val v
    | Raise e => Fail e
    end.
End GeneratorLoop.

(** ** The oscillators *)

(** An oscillator object: its sample rate and what [generator()] returns.
    Oscillators define [__iter__] (which calls [generator()]) but no
    [__next__]. *)
Record OscillatorBase : Type := {
  samplerate : float;
  generator : stream float
}.

Section Oscillators.
(** [Sample.norm_samplerate], a constant of the sample container. *)
Variable norm_samplerate : float.
(** [math.sin]. *)
Variable sin : float -> float.
(** The successive results of [random.random()]. *)
Variable random : nat -> float.

(** [OscillatorBase.__init__]: [samplerate or Sample.norm_samplerate]. *)
Definition base_samplerate (rate : float) : float :=
  if truthy rate then rate else norm_samplerate.

(** [iter(fm_lfo or itertools.repeat(0.0))], for an FM source given by the
    stream it iterates to. *)
Definition fm_source (fm_lfo : option (stream float)) : stream float :=
  match fm_lfo with
  | Some s => s
  | None => repeat_forever 0
  end.

(** The locals of the FM-capable generators; [fm_pos] counts the
    [next(self.fm)] calls made so far. *)
Record fm_locals : Type := {
  phase_correction : float;
  freq_previous : float;
  t : float;
  fm_pos : nat
}.

(** The three lines every FM-capable generator starts a turn with:
    [[
    freq = self.frequency*(1+next(self.fm))
    phase_correction += (freq_previous-freq)*t
    freq_previous = freq
    ]]
    The result is [freq] and the new [phase_correction]. *)
Definition fm_turn (frequency : float) (fm : stream float) (l : fm_locals)
  : result (float * float) :=
  (d <- next_of fm (fm_pos l) ;;
   let freq := frequency * (1 + d) in
   Ok (freq, phase_correction l + (freq_previous l - freq) * t l))%py.

(** The locals after a turn that ends with [t += increment]. *)
Definition fm_advance (l : fm_locals) (freq pc increment : float) : fm_locals :=
  {| phase_correction := pc; freq_previous := freq;
     t := t l + increment; fm_pos := S (fm_pos l) |}.

(** [class Sine]. *)
Definition Sine (frequency amplitude phase bias : float)
    (fm_lfo : option (stream float)) (rate : float) : OscillatorBase :=
  let rate := base_samplerate rate in
  let fm := fm_source fm_lfo in
  {| samplerate := rate;
     generator :=
       generator_loop
         (increment <- truediv (2 * pi) rate ;;
          Ok ({| phase_correction := phase * 2 * pi; freq_previous := frequency;
                 t := 0; fm_pos := O |}, increment))%py
         (fun '(l, increment) =>
            '(freq, pc) <- fm_turn frequency fm l ;;
            Ok (sin (t l * freq + pc) * amplitude + bias,
                (fm_advance l freq pc increment, increment)))%py |}.

(** [class Triangle]. *)
Definition Triangle (frequency amplitude phase bias : float)
    (fm_lfo : option (stream float)) (rate : float) : OscillatorBase :=
  let rate := base_samplerate rate in
  let fm := fm_source fm_lfo in
  {| samplerate := rate;
     generator :=
       generator_loop
         (increment <- truediv 1 rate ;;
          Ok ({| phase_correction := phase; freq_previous := frequency;
                 t := 0; fm_pos := O |}, increment))%py
         (fun '(l, increment) =>
            '(freq, pc) <- fm_turn frequency fm l ;;
            let tt := t l * freq + pc in
            Ok (4 * amplitude * (abs (mod1 (tt + 0.75) - 0.5) - 0.25) + bias,
                (fm_advance l freq pc increment, increment)))%py |}.

(** [-self.amplitude if int(x) % 2 else self.amplitude], the level of the
    square waves. *)
Definition square_level (amplitude x : float) : result float :=
  (n <- py_int x ;;
   Ok (if (n mod 2 =? 0)%Z then amplitude else - amplitude))%py.

(** [class Square]. *)
Definition Square (frequency amplitude phase bias : float)
    (fm_lfo : option (stream float)) (rate : float) : OscillatorBase :=
  let rate := base_samplerate rate in
  let fm := fm_source fm_lfo in
  {| samplerate := rate;
     generator :=
       generator_loop
         (increment <- truediv 1 rate ;;
          Ok ({| phase_correction := phase; freq_previous := frequency;
                 t := 0; fm_pos := O |}, increment))%py
         (fun '(l, increment) =>
            '(freq, pc) <- fm_turn frequency fm l ;;
            let tt := t l * freq + pc in
            a <- square_level amplitude (tt * 2) ;;
            Ok (a + bias, (fm_advance l freq pc increment, increment)))%py |}.

(** [class Sawtooth]. *)
Definition Sawtooth (frequency amplitude phase bias : float)
    (fm_lfo : option (stream float)) (rate : float) : OscillatorBase :=
  let rate := base_samplerate rate in
  let fm := fm_source fm_lfo in
  {| samplerate := rate;
     generator :=
       generator_loop
         (increment <- truediv 1 rate ;;
          Ok ({| phase_correction := phase; freq_previous := frequency;
                 t := 0; fm_pos := O |}, increment))%py
         (fun '(l, increment) =>
            '(freq, pc) <- fm_turn frequency fm l ;;
            let tt := t l * freq + pc in
            n <- py_floor (0.5 + tt) ;;
            Ok (bias + amplitude * 2 * (tt - of_Z n),
                (fm_advance l freq pc increment, increment)))%py |}.

(** The duty factor as the pulse generators correct it:
    [[
    if pw <= 0:
        pw = epsilon
    elif pw >= 1:
        pw = 1.0-epsilon
    ]] *)
Definition clamp_pw (pw : float) : float :=
  if pw <=? 0 then float_info_epsilon
  else if 1 <=? pw then 1 - float_info_epsilon
  else pw.

(** [(self.amplitude if x % 1 < pw else -self.amplitude)+self.bias]. *)
Definition pulse_sample (amplitude bias x pw : float) : float :=
  (if mod1 x <? pw then amplitude else - amplitude) + bias.

(** [iter(pwm_lfo or itertools.repeat(pulsewidth))]. *)
Definition pwm_source (pwm_lfo : option (stream float)) (pulsewidth : float)
  : stream float :=
  match pwm_lfo with
  | Some s => s
  | None => repeat_forever pulsewidth
  end.

(** [class Pulse]; the constructor asserts [0 <= pulsewidth <= 1]. *)
Definition Pulse (frequency amplitude phase bias pulsewidth : float)
    (fm_lfo pwm_lfo : option (stream float)) (rate : float) : result OscillatorBase :=
  let rate := base_samplerate rate in
  (assert ((0 <=? pulsewidth) && (pulsewidth <=? 1)) ;;;
   let fm := fm_source fm_lfo in
   let pwm := pwm_source pwm_lfo pulsewidth in
   Ok {| samplerate := rate;
         generator :=
           generator_loop
             (increment <- truediv 1 rate ;;
              Ok ({| phase_correction := phase; freq_previous := frequency;
                     t := 0; fm_pos := O |}, increment))
             (fun '(l, increment) =>
                (* [fm] and [pwm] are pulled once a turn each, so one
                   counter serves both *)
                pw <- next_of pwm (fm_pos l) ;;
                let pw := clamp_pw pw in
                '(freq, pc) <- fm_turn frequency fm l ;;
                let tt := t l * freq + pc in
                Ok (pulse_sample amplitude bias tt pw,
                    (fm_advance l freq pc increment, increment))) |})%py.

(** The harmonic numbers one turn of [Harmonics.generator] sums, for the
    harmonic limit [n] of that turn: the ranges of its three loops, and
    harmonic 1 ahead of the even ones. *)
Definition harmonics_summed (only_even only_odd : bool) (n : Z) : list Z :=
  if only_odd then py_range 1 (2 * n) 2
  else if only_even then 1%Z :: py_range 2 (2 * n) 2
  else py_range 1 (1 + n) 1.

(** The sum [h] of that turn. *)
Definition harmonic_sum (only_even only_odd : bool) (n : Z) (q : float) : float :=
  if only_odd then
    fold_left (fun h k => h + sin (q * of_Z k) / of_Z k) (py_range 1 (2 * n) 2) 0
  else if only_even then
    fold_left (fun h k => h + sin (q * of_Z k) / of_Z k) (py_range 2 (2 * n) 2)
      (0 + sin q * 0.7)
  else
    fold_left (fun h k => h + sin (q * of_Z k) / of_Z k / 2) (py_range 1 (1 + n) 1) 0.

(** [min(self.num_harmonics, int(self.samplerate/2/self.frequency))]. *)
Definition harmonic_limit (num_harmonics : Z) (rate frequency : float) : result Z :=
  (x <- truediv (rate / 2) frequency ;;
   n <- py_int x ;;
   Ok (Z.min num_harmonics n))%py.

(** [Harmonics.generator]. *)
Definition Harmonics_generator (frequency : float) (num_harmonics : Z)
    (amplitude phase bias : float) (only_even only_odd : bool)
    (fm : stream float) (rate : float) : stream float :=
  generator_loop
    (increment <- truediv (2 * pi) rate ;;
     Ok ({| phase_correction := phase * 2 * pi; freq_previous := frequency;
            t := 0; fm_pos := O |}, increment))%py
    (fun '(l, increment) =>
       n <- harmonic_limit num_harmonics rate frequency ;;
       '(freq, pc) <- fm_turn frequency fm l ;;
       let q := t l * freq + pc in
       Ok (harmonic_sum only_even only_odd n q * amplitude + bias,
           (fm_advance l freq pc increment, increment)))%py.

(** [class Harmonics]. *)
Definition Harmonics (frequency : float) (num_harmonics : Z)
    (amplitude phase bias : float) (only_even only_odd : bool)
    (fm_lfo : option (stream float)) (rate : float) : OscillatorBase :=
  let rate := base_samplerate rate in
  {| samplerate := rate;
     generator :=
       Harmonics_generator frequency num_harmonics amplitude phase bias
         only_even only_odd (fm_source fm_lfo) rate |}.

(** [class SquareH]: the odd harmonics. *)
Definition SquareH (frequency : float) (num_harmonics : Z)
    (amplitude phase bias : float)
    (fm_lfo : option (stream float)) (rate : float) : OscillatorBase :=
  Harmonics frequency num_harmonics amplitude phase bias false true fm_lfo rate.

(** [class SawtoothH]: all harmonics, half a cycle ahead, reflected
    around the bias. *)
Definition SawtoothH (frequency : float) (num_harmonics : Z)
    (amplitude phase bias : float)
    (fm_lfo : option (stream float)) (rate : float) : OscillatorBase :=
  let rate := base_samplerate rate in
  {| samplerate := rate;
     generator := fun k =>
       match Harmonics_generator frequency num_harmonics amplitude (phase + 0.5)
               bias false false (fm_source fm_lfo) rate k with
       | Val y => Val (bias * 2 - y)
       | Stop => Stop
       | Fail e => Fail e
       end |}.

(** [random.uniform(a, b)] at the [k]-th draw. *)
Definition uniform (k : nat) (a b : float) : float := a + (b - a) * random k.

(** [class WhiteNoise]. *)
Definition WhiteNoise (amplitude bias rate : float) : OscillatorBase :=
  {| samplerate := base_samplerate rate;
     generator :=
       generator_loop (Ok O)
         (fun k => Ok (uniform k (- amplitude) amplitude + bias, S k)) |}.

(** [class Linear]; the local is [self.value]. *)
Definition Linear (startlevel increment min_value max_value rate : float)
  : OscillatorBase :=
  {| samplerate := base_samplerate rate;
     generator :=
       generator_loop (Ok startlevel)
         (fun value =>
            Ok (value,
                if truthy increment
                then py_min max_value (py_max min_value (value + increment))
                else value)) |}.

(** [class FastSine]; the local is [t]. *)
Definition FastSine (frequency amplitude phase bias rate : float) : OscillatorBase :=
  let rate := base_samplerate rate in
  {| samplerate := rate;
     generator :=
       generator_loop
         (r <- truediv rate frequency ;;
          increment <- truediv (2 * pi) r ;;
          Ok (phase * 2 * pi, increment))%py
         (fun '(t, increment) =>
            Ok (sin t * amplitude + bias, (t + increment, increment))) |}.

(** The lines the other fast generators start with:
    [[
    freq = self._frequency
    t = self._phase/freq
    increment = 1/self.samplerate
    ]] *)
Definition fast_init (frequency phase rate : float) : result (float * float) :=
  (t <- truediv phase frequency ;;
   increment <- truediv 1 rate ;;
   Ok (t, increment))%py.

(** [class FastTriangle]. *)
Definition FastTriangle (frequency amplitude phase bias rate : float)
  : OscillatorBase :=
  let rate := base_samplerate rate in
  {| samplerate := rate;
     generator :=
       generator_loop (fast_init frequency phase rate)
         (fun '(t, increment) =>
            Ok (4 * amplitude * (abs (mod1 (t * frequency + 0.75) - 0.5) - 0.25) + bias,
                (t + increment, increment))) |}.

(** [class FastSquare]. *)
Definition FastSquare (frequency amplitude phase bias rate : float)
  : OscillatorBase :=
  let rate := base_samplerate rate in
  {| samplerate := rate;
     generator :=
       generator_loop (fast_init frequency phase rate)
         (fun '(t, increment) =>
            a <- square_level amplitude (t * frequency * 2) ;;
            Ok (a + bias, (t + increment, increment)))%py |}.

(** [class FastSawtooth]. *)
Definition FastSawtooth (frequency amplitude phase bias rate : float)
  : OscillatorBase :=
  let rate := base_samplerate rate in
  {| samplerate := rate;
     generator :=
       generator_loop (fast_init frequency phase rate)
         (fun '(t, increment) =>
            let tt := t * frequency in
            n <- py_floor (0.5 + tt) ;;
            Ok (bias + 2 * amplitude * (tt - of_Z n), (t + increment, increment)))%py |}.

(** [class FastPulse]: with a PWM source the duty factor is pulled and
    corrected every turn; without one the turn compares against
    [self._pulsewidth]. *)
Definition FastPulse (frequency amplitude phase bias pulsewidth : float)
    (pwm_lfo : option (stream float)) (rate : float) : result OscillatorBase :=
  let rate := base_samplerate rate in
  (assert ((0 <=? pulsewidth) && (pulsewidth <=? 1)) ;;;
   Ok {| samplerate := rate;
         generator :=
           match pwm_lfo with
           | Some pwm =>
               generator_loop
                 (* the local [k] counts the [next(pwm)] calls *)
                 ('(t, increment) <- fast_init frequency phase rate ;;
                  Ok (t, increment, O))
                 (fun '(t, increment, k) =>
                    pw <- next_of pwm k ;;
                    let pw := clamp_pw pw in
                    Ok (pulse_sample amplitude bias (t * frequency) pw,
                        (t + increment, increment, S k)))
           | None =>
               generator_loop (fast_init frequency phase rate)
                 (fun '(t, increment) =>
                    Ok (pulse_sample amplitude bias (t * frequency) pulsewidth,
                        (t + increment, increment)))
           end |})%py.
End Oscillators.

(** *** Python objects that [iter()] and [next()] are applied to *)

(** The synthesizer hands two kinds of objects around: oscillators, which
    are iterable but are not iterators, and iterators proper (generator
    objects, [itertools] objects), here a stream with the number of items
    already taken from it. *)
Inductive pyobj : Type :=
| Osc (o : OscillatorBase)
| Iter (s : stream float) (pos : nat).

(** [iter(x)]: an oscillator's [__iter__] returns [self.generator()], a fresh
    generator; an iterator returns itself. *)
Definition py_iter (x : pyobj) : pyobj :=
  match x with
  | Osc o => Iter (generator o) O
  | Iter s pos => Iter s pos
  end.

(** [next(x)], with the object as the call leaves it: an oscillator has no
    [__next__], so the call raises [TypeError]. *)
Definition py_next (x : pyobj) : result float * pyobj :=
  match x with
  | Osc _ => (Raise TypeError, x)
  | Iter s pos => (next_of s pos, Iter s (S pos))
  end.

(** ** The sample container *)

(** Modelled from the spec: the [Sample] class is not among the sources; the
    spec describes it as a fixed bit-width PCM container of which only
    "allocate an integer sample container for bit width W" and
    "finalize(container, sample_rate, channel_count=1)" are used.  The
    container is the list of the integers appended to it. *)
Record Sample : Type := {
  sample_frames : list Z;
  sample_rate : float;
  sample_width : Z;
  nchannels : Z
}.

(** ** The synthesis facade, [class WaveSynth] *)
Module WaveSynth.

Record t : Type := {
  samplerate : float;
  samplewidth : Z
}.

(** [WaveSynth.__init__]. *)
Definition __init__ (samplerate : float) (samplewidth : Z) : result t :=
  if (samplewidth =? 2)%Z || (samplewidth =? 4)%Z
  then Ok {| samplerate := samplerate; samplewidth := samplewidth |}
  else Raise ValueError.

(** [WaveSynth.__check_and_get_scale]. *)
Definition __check_and_get_scale (self : t) (freq amplitude bias : float) : result Z :=
  (assert (freq <=? samplerate self / 2) ;;;
   assert ((0 <=? amplitude) && (amplitude <=? 1)) ;;;
   assert ((-1 <=? bias) && (bias <=? 1)) ;;;
   Ok (2 ^ (samplewidth self * 8 - 1) - 1)%Z)%py.

(** The loop of [__render_sample]:
    [[
    for _ in range(n):
        samples.append(int(next(wave)))
    ]]
    [pos] items have been taken from [wave] before. *)
Fixpoint pull_ints (n : nat) (wave : stream float) (pos : nat) : result (list Z) :=
  match n with
  | O => Ok []
  | S n' =>
      (v <- next_of wave pos ;;
       i <- py_int v ;;
       rest <- pull_ints n' wave (S pos) ;;
       Ok (i :: rest))%py
  end.

(** [WaveSynth.__render_sample]; [range] of a negative number is empty. *)
Definition __render_sample (self : t) (duration : float) (wave : OscillatorBase)
  : result Sample :=
  let wave := generator wave in
  (n <- py_int (duration * samplerate self) ;;
   samples <- pull_ints (Z.to_nat n) wave O ;;
   Ok {| sample_frames := samples; sample_rate := samplerate self;
         sample_width := samplewidth self; nchannels := 1 |})%py.

Section Facade.
Variable norm_samplerate : float.
Variable sin : float -> float.
Variable random : nat -> float.

Definition __sine (self : t) (frequency amplitude phase bias : float)
    (fm_lfo : option (stream float)) : result OscillatorBase :=
  (scale <- __check_and_get_scale self frequency amplitude bias ;;
   Ok match fm_lfo with
      | Some _ => Sine norm_samplerate sin frequency (amplitude * of_Z scale) phase
                    (bias * of_Z scale) fm_lfo (samplerate self)
      | None => FastSine norm_samplerate sin frequency (amplitude * of_Z scale) phase
                  (bias * of_Z scale) (samplerate self)
      end)%py.

Definition __square (self : t) (frequency amplitude phase bias : float)
    (fm_lfo : option (stream float)) : result OscillatorBase :=
  (scale <- __check_and_get_scale self frequency amplitude bias ;;
   Ok match fm_lfo with
      | Some _ => Square norm_samplerate frequency (amplitude * of_Z scale) phase
                    (bias * of_Z scale) fm_lfo (samplerate self)
      | None => FastSquare norm_samplerate frequency (amplitude * of_Z scale) phase
                  (bias * of_Z scale) (samplerate self)
      end)%py.

Definition __square_h (self : t) (frequency : float) (num_harmonics : Z)
    (amplitude phase bias : float) (fm_lfo : option (stream float))
  : result OscillatorBase :=
  (scale <- __check_and_get_scale self frequency amplitude bias ;;
   Ok (SquareH norm_samplerate sin frequency num_harmonics (amplitude * of_Z scale)
         phase (bias * of_Z scale) fm_lfo (samplerate self)))%py.

Definition __triangle (self : t) (frequency amplitude phase bias : float)
    (fm_lfo : option (stream float)) : result OscillatorBase :=
  (scale <- __check_and_get_scale self frequency amplitude bias ;;
   Ok match fm_lfo with
      | Some _ => Triangle norm_samplerate frequency (amplitude * of_Z scale) phase
                    (bias * of_Z scale) fm_lfo (samplerate self)
      | None => FastTriangle norm_samplerate frequency (amplitude * of_Z scale) phase
                  (bias * of_Z scale) (samplerate self)
      end)%py.

Definition __sawtooth (self : t) (frequency amplitude phase bias : float)
    (fm_lfo : option (stream float)) : result OscillatorBase :=
  (scale <- __check_and_get_scale self frequency amplitude bias ;;
   Ok match fm_lfo with
      | Some _ => Sawtooth norm_samplerate frequency (amplitude * of_Z scale) phase
                    (bias * of_Z scale) fm_lfo (samplerate self)
      | None => FastSawtooth norm_samplerate frequency (amplitude * of_Z scale) phase
                  (bias * of_Z scale) (samplerate self)
      end)%py.

Definition __sawtooth_h (self : t) (frequency : float) (num_harmonics : Z)
    (amplitude phase bias : float) (fm_lfo : option (stream float))
  : result OscillatorBase :=
  (scale <- __check_and_get_scale self frequency amplitude bias ;;
   Ok (SawtoothH norm_samplerate sin frequency num_harmonics (amplitude * of_Z scale)
         phase (bias * of_Z scale) fm_lfo (samplerate self)))%py.

Definition __pulse (self : t) (frequency amplitude phase bias pulsewidth : float)
    (fm_lfo pwm_lfo : option (stream float)) : result OscillatorBase :=
  (assert ((0 <=? pulsewidth) && (pulsewidth <=? 1)) ;;;
   scale <- __check_and_get_scale self frequency amplitude bias ;;
   match fm_lfo with
   | Some _ => Pulse norm_samplerate frequency (amplitude * of_Z scale) phase
                 (bias * of_Z scale) pulsewidth fm_lfo pwm_lfo (samplerate self)
   | None => FastPulse norm_samplerate frequency (amplitude * of_Z scale) phase
               (bias * of_Z scale) pulsewidth pwm_lfo (samplerate self)
   end)%py.

Definition __harmonics (self : t) (frequency : float) (num_harmonics : Z)
    (amplitude phase bias : float) (only_even only_odd : bool)
    (fm_lfo : option (stream float)) : result OscillatorBase :=
  (scale <- __check_and_get_scale self frequency amplitude bias ;;
   Ok (Harmonics norm_samplerate sin frequency num_harmonics (amplitude * of_Z scale)
         phase (bias * of_Z scale) only_even only_odd fm_lfo (samplerate self)))%py.

Definition __white_noise (self : t) (amplitude bias : float) : result OscillatorBase :=
  (scale <- __check_and_get_scale self 1 amplitude bias ;;
   Ok (WhiteNoise norm_samplerate random (amplitude * of_Z scale) (bias * of_Z scale)
         (samplerate self)))%py.

(** [[
    num_samples = int(duration*self.samplerate)
    increment = (finish_amp - start_amp) / (num_samples - 1)
    return Linear(start_amp, increment, samplerate=self.samplerate)
    ]]
    [Linear]'s bounds keep their defaults -1.0 and 1.0. *)
Definition __linear (self : t) (duration start_amp finish_amp : float)
  : result OscillatorBase :=
  (num_samples <- py_int (duration * samplerate self) ;;
   increment <- truediv_int (finish_amp - start_amp) (num_samples - 1) ;;
   Ok (Linear norm_samplerate start_amp increment (-1) 1 (samplerate self)))%py.

(** The finite-duration render operations. *)
Definition sine (self : t) (frequency duration amplitude phase bias : float)
    (fm_lfo : option (stream float)) : result Sample :=
  (wave <- __sine self frequency amplitude phase bias fm_lfo ;;
   __render_sample self duration wave)%py.

Definition square (self : t) (frequency duration amplitude phase bias : float)
    (fm_lfo : option (stream float)) : result Sample :=
  (wave <- __square self frequency amplitude phase bias fm_lfo ;;
   __render_sample self duration wave)%py.

Definition square_h (self : t) (frequency duration : float) (num_harmonics : Z)
    (amplitude phase bias : float) (fm_lfo : option (stream float)) : result Sample :=
  (wave <- __square_h self frequency num_harmonics amplitude phase bias fm_lfo ;;
   __render_sample self duration wave)%py.

Definition triangle (self : t) (frequency duration amplitude phase bias : float)
    (fm_lfo : option (stream float)) : result Sample :=
  (wave <- __triangle self frequency amplitude phase bias fm_lfo ;;
   __render_sample self duration wave)%py.

Definition sawtooth (self : t) (frequency duration amplitude phase bias : float)
    (fm_lfo : option (stream float)) : result Sample :=
  (wave <- __sawtooth self frequency amplitude phase bias fm_lfo ;;
   __render_sample self duration wave)%py.

Definition sawtooth_h (self : t) (frequency duration : float) (num_harmonics : Z)
    (amplitude phase bias : float) (fm_lfo : option (stream float)) : result Sample :=
  (wave <- __sawtooth_h self frequency num_harmonics amplitude phase bias fm_lfo ;;
   __render_sample self duration wave)%py.

Definition pulse (self : t) (frequency duration amplitude phase bias pulsewidth : float)
    (fm_lfo pwm_lfo : option (stream float)) : result Sample :=
  (wave <- __pulse self frequency amplitude phase bias pulsewidth fm_lfo pwm_lfo ;;
   __render_sample self duration wave)%py.

Definition harmonics (self : t) (frequency duration : float) (num_harmonics : Z)
    (amplitude phase bias : float) (only_even only_odd : bool)
    (fm_lfo : option (stream float)) : result Sample :=
  (wave <- __harmonics self frequency num_harmonics amplitude phase bias
             only_even only_odd fm_lfo ;;
   __render_sample self duration wave)%py.

Definition white_noise (self : t) (duration amplitude bias : float) : result Sample :=
  (wave <- __white_noise self amplitude bias ;;
   __render_sample self duration wave)%py.

Definition linear (self : t) (duration start_amp finish_amp : float) : result Sample :=
  (wave <- __linear self duration start_amp finish_amp ;;
   __render_sample self duration wave)%py.

(** [linear_gen], a generator function: its body starts to run at the first
    [next()].
    [[
    wave = self.__linear(duration, startamp, finishamp)
    for _ in range(int(duration*self.samplerate)):
        yield int(next(wave))
    ]]
    [wave] is the oscillator itself, not [iter(wave)]. *)
Definition linear_gen (self : t) (duration startamp finishamp : float) : stream Z :=
  fun k =>
    match (wave <- __linear self duration startamp finishamp ;;
           n <- py_int (duration * samplerate self) ;;
           Ok (wave, n))%py with
    | Raise e => Fail e
    | Ok (wave, n) =>
        if (Z.of_nat k <? n)%Z then
          match (v <- fst (py_next (Osc wave)) ;; py_int v)%py with
          | Ok i => Val i
          | Raise e => Fail e
          end
        else Stop
    end.
(** The unbounded sample streams.  Each is a generator function of the
    shape
    [[
    wave = self.__sine(frequency, amplitude, phase, bias, fm_lfo)
    while True:
        yield int(next(wave))
    ]]
    whose body starts to run at the first [next()]; [wave] is the
    oscillator itself, not [iter(wave)].  A turn of the loop is
    [int(next(wave))]; the first turn comes after the oscillator is built. *)
Definition gen_ints (wave : result OscillatorBase) : stream Z :=
  until_finished
    (fun _ =>
       match (w <- wave ;; v <- fst (py_next (Osc w)) ;; py_int v)%py with
       | Ok i => Val i
       | Raise e => Fail e
       end).

Definition sine_gen (self : t) (frequency amplitude phase bias : float)
    (fm_lfo : option (stream float)) : stream Z :=
  gen_ints (__sine self frequency amplitude phase bias fm_lfo).

Definition square_gen (self : t) (frequency amplitude phase bias : float)
    (fm_lfo : option (stream float)) : stream Z :=
  gen_ints (__square self frequency amplitude phase bias fm_lfo).

Definition square_h_gen (self : t) (frequency : float) (num_harmonics : Z)
    (amplitude phase bias : float) (fm_lfo : option (stream float)) : stream Z :=
  gen_ints (__square_h self frequency num_harmonics amplitude phase bias fm_lfo).

Definition triangle_gen (self : t) (frequency amplitude phase bias : float)
    (fm_lfo : option (stream float)) : stream Z :=
  gen_ints (__triangle self frequency amplitude phase bias fm_lfo).

Definition sawtooth_gen (self : t) (frequency amplitude phase bias : float)
    (fm_lfo : option (stream float)) : stream Z :=
  gen_ints (__sawtooth self frequency amplitude phase bias fm_lfo).

Definition sawtooth_h_gen (self : t) (frequency : float) (num_harmonics : Z)
    (amplitude phase bias : float) (fm_lfo : option (stream float)) : stream Z :=
  gen_ints (__sawtooth_h self frequency num_harmonics amplitude phase bias fm_lfo).

Definition pulse_gen (self : t) (frequency amplitude phase bias pulsewidth : float)
    (fm_lfo pwm_lfo : option (stream float)) : stream Z :=
  gen_ints (__pulse self frequency amplitude phase bias pulsewidth fm_lfo pwm_lfo).

Definition harmonics_gen (self : t) (frequency : float) (num_harmonics : Z)
    (amplitude phase bias : float) (only_even only_odd : bool)
    (fm_lfo : option (stream float)) : stream Z :=
  gen_ints (__harmonics self frequency num_harmonics amplitude phase bias
              only_even only_odd fm_lfo).

Definition white_noise_gen (self : t) (amplitude bias : float) : stream Z :=
  gen_ints (__white_noise self amplitude bias).
End Facade.

End WaveSynth.

(** ** The frequency helper *)

Section KeyFreq.
(** The C library's [pow]. *)
Variable pow : float -> float -> float.

(** [x ** y] on floats whose mathematical result is defined: a result out
    of range raises. *)
Definition float_pow (x y : float) : result float :=
  let r := pow x y in
  if is_infinity r && negb (is_infinity x) && negb (is_infinity y)
  then Raise OverflowError else Ok r.

(** [key_freq]; the key number is an [int], so [(key_number-49)/12] is the
    true division of two [int]s, and [2**...] is the float power of 2.0. *)
Definition key_freq (key_number : Z) (a4 : float) : result float :=
  (q <- int_truediv (key_number - 49) 12 ;;
   p <- float_pow 2 q ;;
   Ok (p * a4))%py.
End KeyFreq.

(** ** The stream combinators of [OscillatorBase] *)

(** The stream [for v in x] runs through. *)
Definition stream_of (x : pyobj) : stream float :=
  match py_iter x with
  | Iter s pos => fun k => s (pos + k)%nat
  | Osc o => generator o
  end.

(** [for v in osc: yield f(v)]. *)
Definition for_each (f : float -> float) (osc : pyobj) : stream float :=
  fun k =>
    match stream_of osc k with
    | Val v => Val (f v)
    | Stop => Stop
    | Fail e => Fail e
    end.

(** [class FilteredOscillator], for a wrapper that is given: the sample rate
    is the wrapped oscillator's, and [generator()] is the wrapper applied to
    the wrapped oscillator object. *)
Definition FilteredOscillator (norm_samplerate : float) (oscillator : OscillatorBase)
    (wrapper : pyobj -> stream float) : OscillatorBase :=
  {| samplerate := base_samplerate norm_samplerate (samplerate oscillator);
     generator := wrapper (Osc oscillator) |}.

(** [OscillatorBase.abs]. *)
Definition abs_ (norm_samplerate : float) (self : OscillatorBase) : OscillatorBase :=
  FilteredOscillator norm_samplerate self (for_each abs).

(** The value [clip] yields for a source value [v]:
    [max(min(v, maximum), minimum)]. *)
Definition clip_value (minimum maximum v : float) : float :=
  py_max (py_min v maximum) minimum.

(** [OscillatorBase.clip]; [None] is an argument left out. *)
Definition clip (norm_samplerate : float) (self : OscillatorBase)
    (minimum maximum : option float) : result OscillatorBase :=
  (assert (negb (match minimum, maximum with None, None => true | _, _ => false end)) ;;;
   let minimum := match minimum with None => float_info_min | Some m => m end in
   let maximum := match maximum with None => float_info_max | Some m => m end in
   Ok (FilteredOscillator norm_samplerate self (for_each (clip_value minimum maximum))))%py.

(** *** Generator bodies with several loops

    [delay] and [envelope] wrap the source in generator functions whose bodies
    are sequences of loops.  Such a body is run as a program over the object
    bound to its parameter [oscillator] and the values yielded so far.  Loops
    that Python runs without bound take fuel: [Starved] says the fuel ran out,
    and what was yielded until then is a prefix of what the generator
    yields. *)
Module Gen.

Record state : Type := {
  src : pyobj;
  out : list float
}.

Inductive status (A : Type) : Type :=
| Done (a : A)
| Throw (e : exn)
| Starved.
Arguments Throw {A} e.
Arguments Starved {A}.

Definition gen (A : Type) : Type := state -> status A * state.

Definition ret {A : Type} (a : A) : gen A := fun st => (Done a, st).

Definition bind {A B : Type} (g : gen A) (k : A -> gen B) : gen B :=
  fun st =>
    match g st with
    | (Done a, st') => k a st'
    | (Throw e, st') => (Throw e, st')
    | (Starved, st') => (Starved, st')
    end.

Definition starved {A : Type} : gen A := fun st => (Starved, st).

(** An expression that may raise. *)
Definition lift {A : Type} (r : result A) : gen A :=
  fun st =>
    match r with
    | Ok a => (Done a, st)
    | Raise e => (Throw e, st)
    end.

(** [yield v]. *)
Definition yield (v : float) : gen unit :=
  fun st => (Done tt, {| src := src st; out := out st ++ [v] |}).

(** [next(oscillator)]. *)
Definition next_src : gen float :=
  fun st =>
    let '(r, o) := py_next (src st) in
    lift r {| src := o; out := out st |}.

(** [oscillator = iter(oscillator)]. *)
Definition rebind_iter : gen unit :=
  fun st => (Done tt, {| src := py_iter (src st); out := out st |}).

(** Running a body on the object passed for [oscillator]. *)
Definition run {A : Type} (g : gen A) (oscillator : pyobj) : status A * state :=
  g {| src := oscillator; out := [] |}.

End Gen.

Declare Scope gen_scope.
Delimit Scope gen_scope with gen.
Notation "x <- e ;; k" := (Gen.bind e (fun x => k))
  (at level 61, e at next level, right associativity) : gen_scope.
Notation "' p <- e ;; k" := (Gen.bind e (fun p => k))
  (at level 61, p pattern, e at next level, right associativity) : gen_scope.
Notation "e ;;; k" := (Gen.bind e (fun _ => k))
  (at level 61, right associativity) : gen_scope.

(** [for _ in range(n): body]. *)
Fixpoint for_range (n : nat) (body : Gen.gen unit) : Gen.gen unit :=
  match n with
  | O => Gen.ret tt
  | S n' => (body ;;; for_range n' body)%gen
  end.

(** The loop of [yield from it], for the iterator [it]: it ends when [it]
    does. *)
Fixpoint relay (fuel : nat) (it : pyobj) : Gen.gen unit :=
  match fuel with
  | O => Gen.starved
  | S fuel' =>
      match py_next it with
      | (Ok v, it') => (Gen.yield v ;;; relay fuel' it')%gen
      | (Raise StopIteration, _) => Gen.ret tt
      | (Raise e, _) => Gen.lift (Raise e)
      end
  end.

(** [yield from oscillator]: the iterator is [iter(oscillator)]. *)
Definition yield_from (fuel : nat) : Gen.gen unit :=
  fun st => relay fuel (py_iter (Gen.src st)) st.

(** [delayfunc] of [OscillatorBase.delay], the wrapper that
    [FilteredOscillator(self, delayfunc)] applies to [self]. *)
Definition delayfunc (self_samplerate seconds : float) (fuel : nat) : Gen.gen unit :=
  ((if seconds <? 0 then
      n <- Gen.lift (py_int (- self_samplerate * seconds)) ;;
      for_range (Z.to_nat n) (_ <- Gen.next_src ;; Gen.ret tt)
    else
      n <- Gen.lift (py_int (self_samplerate * seconds)) ;;
      for_range (Z.to_nat n) (Gen.yield 0)) ;;;
   yield_from fuel)%gen.

(** What [iter(self.delay(seconds))] yields, observed with [fuel]. *)
Definition delay (self : OscillatorBase) (seconds : float) (fuel : nat)
  : Gen.status unit * Gen.state :=
  Gen.run (delayfunc (samplerate self) seconds fuel) (Osc self).

(** *** The ADSR envelope, [OscillatorBase.envelope] *)
Section Envelope.
(** [self.samplerate] of the oscillator the envelope is applied to. *)
Variable self_samplerate : float.
Variables attack decay sustain sustain_level release : float.
Variables stop_at_end cycle : bool.

(** [yield next(oscillator)*amp]. *)
Definition emit (amp : float) : Gen.gen unit :=
  (v <- Gen.next_src ;; Gen.yield (v * amp))%gen.

(** The loop of the attack, decay and release segments, which differ in
    the bound, the step of the gain and the gain they start from:
    [[
    while time < limit:
        yield next(oscillator)*amp
        amp += amp_change
        time += increment
    ]]
    It leaves [amp] and [time]. *)
Fixpoint ramp_while (fuel : nat) (limit amp_change increment amp time : float)
  : Gen.gen (float * float) :=
  if time <? limit then
    match fuel with
    | O => Gen.starved
    | S fuel' =>
        (emit amp ;;;
         ramp_while fuel' limit amp_change increment (amp + amp_change) (time + increment))%gen
    end
  else Gen.ret (amp, time).

(** The loop of the sustain segment:
    [[
    while time < end_time_sustain:
        yield next(oscillator)*sustain_level
        time += increment
    ]] *)
Fixpoint hold_while (fuel : nat) (limit level increment time : float) : Gen.gen float :=
  if time <? limit then
    match fuel with
    | O => Gen.starved
    | S fuel' => (emit level ;;; hold_while fuel' limit level increment (time + increment))%gen
    end
  else Gen.ret time.

Definition end_time_decay : float := attack + decay.
Definition end_time_sustain : float := end_time_decay + sustain.
Definition end_time_release : float := end_time_sustain + release.

(** The four segments of one pass; each takes and leaves [time]. *)
Definition attack_segment (fuel : nat) (increment time : float) : Gen.gen float :=
  if truthy attack then
    (q <- Gen.lift (truediv 1 attack) ;;
     '(_, time) <- ramp_while fuel attack (q * increment) increment 0 time ;;
     Gen.ret time)%gen
  else Gen.ret time.

Definition decay_segment (fuel : nat) (increment time : float) : Gen.gen float :=
  if truthy decay then
    (q <- Gen.lift (truediv (sustain_level - 1) decay) ;;
     '(_, time) <- ramp_while fuel end_time_decay (q * increment) increment 1 time ;;
     Gen.ret time)%gen
  else Gen.ret time.

Definition sustain_segment (fuel : nat) (increment time : float) : Gen.gen float :=
  hold_while fuel end_time_sustain sustain_level increment time.

Definition release_segment (fuel : nat) (increment time : float) : Gen.gen float :=
  if truthy release then
    (q <- Gen.lift (truediv (- sustain_level) release) ;;
     '(amp, time) <- ramp_while fuel end_time_release (q * increment) increment
                       sustain_level time ;;
     (if 0 <? amp then emit amp else Gen.ret tt) ;;;
     Gen.ret time)%gen
  else Gen.ret time.

(** One turn of the wrapper's outer [while True], up to [if not cycle]. *)
Definition adsr_pass (fuel : nat) : Gen.gen unit :=
  (increment <- Gen.lift (truediv 1 self_samplerate) ;;
   time <- attack_segment fuel increment 0 ;;
   time <- decay_segment fuel increment time ;;
   time <- sustain_segment fuel increment time ;;
   _ <- release_segment fuel increment time ;;
   Gen.ret tt)%gen.

(** The outer loop, left by [break] unless the envelope cycles. *)
Fixpoint passes (fuel n : nat) : Gen.gen unit :=
  match n with
  | O => Gen.starved
  | S n' => (adsr_pass fuel ;;; if cycle then passes fuel n' else Gen.ret tt)%gen
  end.

(** [while True: yield 0.0]. *)
Fixpoint silence (fuel : nat) : Gen.gen unit :=
  match fuel with
  | O => Gen.starved
  | S fuel' => (Gen.yield 0 ;;; silence fuel')%gen
  end.

(** [wrapper] of [OscillatorBase.envelope]. *)
Definition envelope_wrapper (fuel : nat) : Gen.gen unit :=
  (Gen.rebind_iter ;;;
   passes fuel fuel ;;;
   if stop_at_end then Gen.ret tt else silence fuel)%gen.

(** [OscillatorBase.envelope]: the two assertions, then the wrapper that
    [FilteredOscillator(self, wrapper)] applies to [self]. *)
Definition envelope : result (nat -> Gen.gen unit) :=
  (assert ((0 <=? attack) && (0 <=? decay) && (0 <=? sustain) && (0 <=? release)) ;;;
   assert ((0 <=? sustain_level) && (sustain_level <=? 1)) ;;;
   Ok envelope_wrapper)%py.
End Envelope.

(** *** The echo, [class EchoingOscillator] *)
Section Echo.
(** The C library's natural logarithm. *)
Variable ln : float -> float.

(** [math.log] of one argument: a NaN passes through, anything else that
    is not positive is a domain error. *)
Definition m_log (x : float) : result float :=
  if is_nan x then Ok x
  else if 0 <? x then Ok (ln x)
  else Raise ValueError.

(** [math.log(x, base)]: the quotient of the two logarithms. *)
Definition math_log (x base : float) : result float :=
  (num <- m_log x ;;
   den <- m_log base ;;
   truediv num den)%py.

Record EchoingOscillator : Type := {
  echo_samplerate : float;
  _oscillator : OscillatorBase;
  _after : float;
  _amount : Z;
  _delay : float;
  _decay : float
}.

(** [int(min(amount, log(0.000001, decay)))] for a tap count [amount],
    an [int]: [min] keeps [amount] unless the logarithm is smaller. *)
Definition audible_amount (amount : Z) (decay : float) : result Z :=
  (l <- math_log 0.000001 decay ;;
   if ltb_float_int l amount then py_int l else Ok amount)%py.

(** [EchoingOscillator.__init__]. *)
Definition EchoingOscillator_init (norm_samplerate : float) (oscillator : OscillatorBase)
    (after : float) (amount : Z) (delay decay : float) : result EchoingOscillator :=
  (amount <- (if decay <? 1 then audible_amount amount decay else Ok amount) ;;
   Ok {| echo_samplerate := base_samplerate norm_samplerate (samplerate oscillator);
         _oscillator := oscillator;
         _after := after;
         _amount := amount;
         _delay := delay;
         _decay := decay |})%py.
End Echo.

(** A stand-in for the C library's [pow] that knows the two powers of two
    the checks of [key_freq] at keys 49 and 40 need: [2 ** 0.0] and the
    double nearest to [2 ** -0.75]. *)
Definition pow_at_keys (x y : float) : float :=
  if y =? 0 then 1 else if y =? -0.75 then 0x1.306fe0a31b715p-1 else nan.

(** A stand-in for the C library's [sin], used where a property that holds
    for every [sin] is run on an example: the Taylor polynomial of degree 5. *)
Definition sin_poly (x : float) : float :=
  x - x * x * x / 6 + x * x * x * x * x / 120.

(** The term one turn of [Harmonics.generator] adds for harmonic [k]. *)
Definition harmonic_term (sin : float -> float) (only_even only_odd : bool)
    (q : float) (k : Z) : float :=
  if only_odd then sin (q * of_Z k) / of_Z k
  else if only_even then
    if (k =? 1)%Z then sin q * 0.7 else sin (q * of_Z k) / of_Z k
  else sin (q * of_Z k) / of_Z k / 2.

(** A stand-in for the C library's [log] that knows, correctly rounded, the
    two logarithms an echo with [decay = 0.5] needs. *)
Definition ln_at_echo (x : float) : float :=
  if x =? 0.000001 then -0x1.ba18a998fffa0p+3
  else if x =? 0.5 then -0x1.62e42fefa39efp-1
  else nan.

(** The values at the [n] positions of a stream that follow [pos]. *)
Definition stream_values (s : stream float) (pos n : nat) : list float :=
  map (fun i => match s i with Val v => v | _ => 0 end) (seq pos n).

(** *** The gains of the envelope

    The loops of the envelope decide on [time] alone, so the gains a segment
    steps through do not depend on the source.  They are listed here, by the
    same loops, to state what a segment yields. *)

(** The values of [amp] in the turns of the ramp loop, as far as the fuel
    goes. *)
Fixpoint ramp_gains (fuel : nat) (limit amp_change increment amp time : float)
  : list float :=
  if time <? limit then
    match fuel with
    | O => []
    | S fuel' =>
        amp :: ramp_gains fuel' limit amp_change increment (amp + amp_change) (time + increment)
    end
  else [].

(** [amp] and [time] when the ramp loop is left; [None] when the fuel does
    not reach that far. *)
Fixpoint ramp_end (fuel : nat) (limit amp_change increment amp time : float)
  : option (float * float) :=
  if time <? limit then
    match fuel with
    | O => None
    | S fuel' => ramp_end fuel' limit amp_change increment (amp + amp_change) (time + increment)
    end
  else Some (amp, time).

(** The number of turns of the sustain loop, as far as the fuel goes, and
    [time] when it is left. *)
Fixpoint hold_count (fuel : nat) (limit increment time : float) : nat :=
  if time <? limit then
    match fuel with
    | O => O
    | S fuel' => S (hold_count fuel' limit increment (time + increment))
    end
  else O.

Fixpoint hold_end (fuel : nat) (limit increment time : float) : option float :=
  if time <? limit then
    match fuel with
    | O => None
    | S fuel' => hold_end fuel' limit increment (time + increment)
    end
  else Some time.

Section EnvelopeGains.
Variables attack decay sustain sustain_level release : float.

Definition attack_gains (fuel : nat) (increment time : float) : list float :=
  if truthy attack
  then ramp_gains fuel attack (1 / attack * increment) increment 0 time
  else [].

Definition decay_gains (fuel : nat) (increment time : float) : list float :=
  if truthy decay
  then ramp_gains fuel (end_time_decay attack decay)
         ((sustain_level - 1) / decay * increment) increment 1 time
  else [].

Definition sustain_gains (fuel : nat) (increment time : float) : list float :=
  repeat sustain_level
    (hold_count fuel (end_time_sustain attack decay sustain) increment time).

(** The release ramp, and the one more value at the gain the ramp ended
    with when that is still positive. *)
Definition release_gains (fuel : nat) (increment time : float) : list float :=
  if truthy release then
    let amp_change := - sustain_level / release * increment in
    let limit := end_time_release attack decay sustain release in
    ramp_gains fuel limit amp_change increment sustain_level time
    ++ match ramp_end fuel limit amp_change increment sustain_level time with
       | Some (amp, _) => if 0 <? amp then [amp] else []
       | None => []
       end
  else [].
End EnvelopeGains.

(** The values of a stream from [pos] on, each times the gain at its place
    in [gains]. *)
Fixpoint scaled (s : stream float) (pos : nat) (gains : list float) : list float :=
  match gains with
  | [] => []
  | g :: gains' =>
      match s pos with Val v => v | _ => 0 end * g :: scaled s (S pos) gains'
  end.

(** What it is for a generator body to end with the status [r] after it has
    pulled [length gains] values from the iterator [s], one for each value
    it yields, and has yielded each pulled value times the gain at its
    place in [gains], wherever it starts. *)
Definition runs_as (s : stream float) (A : Type) (g : Gen.gen A)
    (r : Gen.status A) (gains : list float) : Prop :=
  forall (pos : nat) (out : list float),
    g {| Gen.src := Iter s pos; Gen.out := out |}
    = (r, {| Gen.src := Iter s (pos + length gains);
             Gen.out := out ++ scaled s pos gains |}).

(** *** One pass of the envelope, and the whole of it

    The gains of a pass follow from the durations alone.  A pass starts at
    time 0, and each segment starts at the time at which the segment before
    it is left. *)
Section EnvelopePass.
Variables attack decay sustain sustain_level release : float.

(** [time] when a segment is left; [None] when the fuel does not reach that
    far. *)
Definition attack_end (fuel : nat) (increment time : float) : option float :=
  if truthy attack
  then option_map snd (ramp_end fuel attack (1 / attack * increment) increment 0 time)
  else Some time.

Definition decay_end (fuel : nat) (increment time : float) : option float :=
  if truthy decay
  then option_map snd
         (ramp_end fuel (end_time_decay attack decay)
            ((sustain_level - 1) / decay * increment) increment 1 time)
  else Some time.

Definition sustain_end (fuel : nat) (increment time : float) : option float :=
  hold_end fuel (end_time_sustain attack decay sustain) increment time.

Definition release_end (fuel : nat) (increment time : float) : option float :=
  if truthy release
  then option_map snd
         (ramp_end fuel (end_time_release attack decay sustain release)
            (- sustain_level / release * increment) increment sustain_level time)
  else Some time.

(** The gains of the four segments of a pass; a segment that the fuel does
    not reach has none. *)
Definition pass_segments (fuel : nat) (increment : float)
  : list float * list float * list float * list float :=
  let g1 := attack_gains attack fuel increment 0 in
  match attack_end fuel increment 0 with
  | None => (g1, [], [], [])
  | Some t1 =>
      let g2 := decay_gains attack decay sustain_level fuel increment t1 in
      match decay_end fuel increment t1 with
      | None => (g1, g2, [], [])
      | Some t2 =>
          let g3 := sustain_gains attack decay sustain sustain_level fuel increment t2 in
          match sustain_end fuel increment t2 with
          | None => (g1, g2, g3, [])
          | Some t3 =>
              (g1, g2, g3,
               release_gains attack decay sustain sustain_level release fuel increment t3)
          end
      end
  end.

Definition pass_gains (fuel : nat) (increment : float) : list float :=
  let '(g1, g2, g3, g4) := pass_segments fuel increment in g1 ++ g2 ++ g3 ++ g4.

(** Whether the fuel reaches the end of the pass. *)
Definition pass_done (fuel : nat) (increment : float) : bool :=
  match attack_end fuel increment 0 with
  | None => false
  | Some t1 =>
      match decay_end fuel increment t1 with
      | None => false
      | Some t2 =>
          match sustain_end fuel increment t2 with
          | None => false
          | Some t3 =>
              match release_end fuel increment t3 with
              | None => false
              | Some _ => true
              end
          end
      end
  end.

(** The gains of the outer loop when it is given [n] turns: one pass, and
    the next one after it when the envelope cycles. *)
Fixpoint passes_gains (cycle : bool) (fuel : nat) (increment : float) (n : nat)
  : list float :=
  match n with
  | O => []
  | S n' =>
      pass_gains fuel increment
      ++ (if pass_done fuel increment && cycle
          then passes_gains cycle fuel increment n' else [])
  end.

(** Whether the outer loop is left: after one pass, unless the envelope
    cycles. *)
Definition passes_done (cycle : bool) (fuel : nat) (increment : float) (n : nat) : bool :=
  match n with
  | O => false
  | S _ => pass_done fuel increment && negb cycle
  end.
End EnvelopePass.

(** *** [mix] and [modulate_amp]

    Both are generator functions over the oscillator and a second object,
    [[
    for v in self:
        yield v+next(oscillator)
    ]]
    with [*] and [modulator] in [modulate_amp]. *)

(** The object after [k] [next()] calls on it. *)
Fixpoint after_nexts (x : pyobj) (k : nat) : pyobj :=
  match k with
  | O => x
  | S k' => snd (py_next (after_nexts x k'))
  end.

(** Turn [k] takes item [k] of [iter(self)] and then makes the next
    [next()] call on the second object, on which [k] calls were made
    before; the generator is finished with the first turn that does not
    yield. *)
Definition combine_with (op : float -> float -> float) (self : OscillatorBase)
    (other : pyobj) : stream float :=
  until_finished
    (fun k =>
       match generator self k with
       | Val v =>
           match fst (py_next (after_nexts other k)) with
           | Ok w => Val (op v w)
           | Raise e => Fail e
           end
       | Stop => Stop
       | Fail e => Fail e
       end).

(** [OscillatorBase.mix]. *)
Definition mix (self : OscillatorBase) (oscillator : pyobj) : stream float :=
  combine_with PrimFloat.add self oscillator.

(** [OscillatorBase.modulate_amp]. *)
Definition modulate_amp (self : OscillatorBase) (modulator : pyobj) : stream float :=
  combine_with PrimFloat.mul self modulator.

(** *** A frequency of a third of the sample rate

    [third_rate_limit r] is the harmonic limit
    [int(samplerate/2/frequency)] for the whole sample rate [r] and the
    frequency [r/3], and [third_rates_checked n r] says that it is 1 for
    the [n] sample rates from [r] on, none of which is zero. *)
Definition third_rate_limit (r : Z) : result Z :=
  (x <- truediv (of_Z r / 2) (of_Z r / 3) ;; py_int x)%py.

Fixpoint third_rates_checked (n : nat) (r : Z) : bool :=
  match n with
  | O => true
  | S n' =>
      truthy (of_Z r)
      && match third_rate_limit r with Ok 1%Z => true | _ => false end
      && third_rates_checked n' (r + 1)
  end.

(** *** The phase of the pulse generators

    What the pulse generators compare the duty factor against, written out
    turn by turn for the values [fm 0], [fm 1], ... that the FM source has:
    the locals before turn [k], and the phase [tt] of turn [k]. *)
Fixpoint fm_locals_at (frequency phase increment : float) (fm : nat -> float) (k : nat)
  : fm_locals :=
  match k with
  | O => {| phase_correction := phase; freq_previous := frequency; t := 0; fm_pos := O |}
  | S k' =>
      let l := fm_locals_at frequency phase increment fm k' in
      let freq := frequency * (1 + fm k') in
      fm_advance l freq (phase_correction l + (freq_previous l - freq) * t l) increment
  end.

Definition fm_phase_at (frequency phase increment : float) (fm : nat -> float) (k : nat)
  : float :=
  let l := fm_locals_at frequency phase increment fm k in
  let freq := frequency * (1 + fm k) in
  t l * freq + (phase_correction l + (freq_previous l - freq) * t l).

(** The time [t] of the fast generators before turn [k]: [increment] added
    [k] times to where they start. *)
Fixpoint fast_time_at (start increment : float) (k : nat) : float :=
  match k with
  | O => start
  | S k' => fast_time_at start increment k' + increment
  end.

(** What it is for a generator to raise at its first [next()]: that call
    raises, and the generator is finished. *)
Definition raises_at_once {A : Type} (g : stream A) (e : exn) : Prop :=
  g O = Fail e /\ forall k : nat, g (S k) = Stop.

(** * Properties *)

(** ** The runtime model on examples *)

Example mod1_examples :
  (mod1 2.75, mod1 (-0.25), mod1 (-3), mod1 0x1p60) = (0.75, 0.75, 0, 0).
Proof. vm_compute. reflexivity. Qed.

Example py_int_examples :
  (py_int 1.323, py_int (-1.5), py_floor (-1.5), py_int infinity)
  = (Ok 1%Z, Ok (-1)%Z, Ok (-2)%Z, Raise OverflowError).
Proof. vm_compute. reflexivity. Qed.

Example py_range_examples :
  (py_range 1 6 2, py_range 2 2 2, py_range 1 (1 + 3) 1) = ([1; 3; 5], [], [1; 2; 3])%Z.
Proof. vm_compute. reflexivity. Qed.

Example ltb_float_int_examples :
  (ltb_float_int 2.5 3, ltb_float_int 3 3, ltb_float_int (-0.5) 0, ltb_float_int nan 1)
  = (true, false, true, false).
Proof. vm_compute. reflexivity. Qed.

(** ** The frequency helper *)

(** The double [0x1.306fe0a31b715p-1] is the one nearest to [2 ** -0.75]:
    with [m] its 53-bit mantissa, [2 ** -0.75] lies strictly between
    [(2m-1)/2^54] and [(2m+1)/2^54], because its fourth power is [2^-3]. *)
Lemma pow_at_keys_nearest :
  exists m : positive,
    Prim2SF (pow_at_keys 2 (-0.75)) = S754_finite false m (-53)
    /\ ((2 * Z.pos m - 1) ^ 4 < 2 ^ 213 < (2 * Z.pos m + 1) ^ 4)%Z.
Proof.
  eexists. split.
  - vm_compute. reflexivity.
  - split; vm_compute; reflexivity.
Qed.

(** The keys of a piano, 1 to 88: for them the quotient [(k-49)/12] is the
    float quotient of the two numbers, and lies between -4 and 3.25. *)
Lemma piano_key_exponent (k : Z) :
  (1 <= k <= 88)%Z ->
  int_truediv (k - 49) 12 = Ok (of_Z (k - 49) / 12)
  /\ (-4 <=? of_Z (k - 49) / 12) = true
  /\ (of_Z (k - 49) / 12 <=? 3.25) = true.
Proof.
  intros Hk.
  assert (H : forallb
                (fun k : Z =>
                   match int_truediv (k - 49) 12 with
                   | Ok q => (q =? of_Z (k - 49) / 12) && negb (q =? 0) || (k =? 49)%Z
                   | Raise _ => false
                   end
                   && (-4 <=? of_Z (k - 49) / 12) && (of_Z (k - 49) / 12 <=? 3.25))
                (map Z.of_nat (seq 1 88)) = true) by (vm_compute; reflexivity).
  rewrite forallb_forall in H. specialize (H k).
  assert (Hin : In k (map Z.of_nat (seq 1 88))).
  { apply in_map_iff. exists (Z.to_nat k). split; [lia |]. apply in_seq. lia. }
  specialize (H Hin). apply andb_prop in H. destruct H as [H H3].
  apply andb_prop in H. destruct H as [H1 H2].
  split; [| split; assumption].
  destruct (int_truediv (k - 49) 12) as [q |] eqn:Hq; [| discriminate].
  f_equal. apply orb_prop in H1. destruct H1 as [H1 | H1].
  - apply andb_prop in H1. destruct H1 as [Heq Hnz].
    rewrite eqb_spec in Heq. apply Prim2SF_inj.
    unfold truthy in *. rewrite eqb_spec in Hnz.
    unfold SFeqb in Heq, Hnz. change (Prim2SF 0) with (S754_zero false) in Hnz.
    destruct (Prim2SF q) as [sq | sq | | sq mq xq],
             (Prim2SF (of_Z (k - 49) / 12)) as [sr | sr | | sr mr xr];
      cbn [SFcompare] in Heq, Hnz; try discriminate;
      destruct sq, sr; try discriminate; try reflexivity.
    all: destruct (xq ?= xr)%Z eqn:Ee; try discriminate;
      apply Z.compare_eq in Ee; subst xr;
      change (PosDef.Pos.compare_cont Eq mq mr) with (Pos.compare mq mr) in Heq;
      destruct (Pos.compare mq mr) eqn:Em; try discriminate;
      apply Pos.compare_eq in Em; subst mr; reflexivity.
  - apply Z.eqb_eq in H1. subst k. revert Hq. vm_compute. intros Hq.
    injection Hq as <-. reflexivity.
Qed.

Section KeyFreqFacts.
Variable pow : float -> float -> float.

Lemma float_pow_finite (x y : float) :
  is_infinity (pow x y) = false -> float_pow pow x y = Ok (pow x y).
Proof.
  intros H. unfold float_pow. rewrite H. reflexivity.
Qed.

(** The division of two [int]s by 12 can only fail by overflow, and what
    it returns is finite. *)
Lemma int_truediv_12 (a : Z) :
  match int_truediv a 12 with
  | Ok q => is_infinity q = false
  | Raise e => e = OverflowError
  end.
Proof.
  unfold int_truediv. change (12 =? 0)%Z with false. cbv iota zeta.
  destruct (is_infinity (SF2Prim (SFdiv prec emax (sf_of_int a) (sf_of_int 12)))) eqn:E;
    [reflexivity | exact E].
Qed.

(** C9, as the code has it.  With [q] the quotient [(key_number-49)/12],
    [key_freq] returns [2.0 ** q * a4] when [q] and the power of two are in
    the range of a double, and raises [OverflowError] when one of them is
    not; it raises nothing else.  For the keys of a piano [q] is the float
    quotient, between -4 and 3.25.  With a [pow] that is exact at
    [2 ** 0.0] and correctly rounded at [2 ** -0.75], [key_freq(49)] is 440.0
    exactly and [key_freq(40)] is within 1e-3 of 261.626. *)
Theorem key_freq_spec :
  pow 2 0 = 1 ->
  pow 2 (-0.75) = 0x1.306fe0a31b715p-1 ->
  (forall (k : Z) (a4 : float),
      match int_truediv (k - 49) 12 with
      | Raise _ => key_freq pow k a4 = Raise OverflowError
      | Ok q =>
          is_infinity q = false
          /\ key_freq pow k a4
             = if is_infinity (pow 2 q) then Raise OverflowError else Ok (pow 2 q * a4)
      end)
  /\ (forall (k : Z) (a4 : float),
        (1 <= k <= 88)%Z ->
        let q := of_Z (k - 49) / 12 in
        (-4 <=? q) = true /\ (q <=? 3.25) = true
        /\ key_freq pow k a4
           = if is_infinity (pow 2 q) then Raise OverflowError else Ok (pow 2 q * a4))
  /\ key_freq pow 49 440 = Ok 440
  /\ exists f : float,
       key_freq pow 40 440 = Ok f /\ (abs (f - 261.626) <? 0.001) = true.
Proof.
  intros H0 H40.
  assert (Hgen : forall (k : Z) (a4 : float),
             match int_truediv (k - 49) 12 with
             | Raise _ => key_freq pow k a4 = Raise OverflowError
             | Ok q =>
                 is_infinity q = false
                 /\ key_freq pow k a4
                    = if is_infinity (pow 2 q) then Raise OverflowError
                      else Ok (pow 2 q * a4)
             end).
  { intros k a4. unfold key_freq. assert (Hq := int_truediv_12 (k - 49)).
    destruct (int_truediv (k - 49) 12) as [q | e]; cbn [Py.bind].
    - split; [exact Hq |]. unfold float_pow. rewrite Hq.
      change (is_infinity 2) with false. cbn [negb].
      rewrite !andb_true_r. destruct (is_infinity (pow 2 q)); reflexivity.
    - now subst e. }
  assert (Hkey : forall (k : Z) (a4 : float),
             (1 <= k <= 88)%Z ->
             key_freq pow k a4
             = if is_infinity (pow 2 (of_Z (k - 49) / 12)) then Raise OverflowError
               else Ok (pow 2 (of_Z (k - 49) / 12) * a4)).
  { intros k a4 Hk. specialize (Hgen k a4).
    destruct (piano_key_exponent Hk) as [Eq _]. rewrite Eq in Hgen. apply Hgen. }
  split; [exact Hgen |]. split; [| split].
  - intros k a4 Hk q. destruct (piano_key_exponent Hk) as [_ [Hlo Hhi]].
    split; [exact Hlo |]. split; [exact Hhi |]. now apply Hkey.
  - rewrite Hkey by lia.
    replace (of_Z (49 - 49) / 12) with 0 by (vm_compute; reflexivity).
    rewrite H0. reflexivity.
  - rewrite Hkey by lia.
    replace (of_Z (40 - 49) / 12) with (-0.75) by (vm_compute; reflexivity).
    rewrite H40. eexists. split; [reflexivity |]. vm_compute. reflexivity.
Qed.
End KeyFreqFacts.

Lemma key_freq_spec_witness :
  key_freq pow_at_keys 49 440 = Ok 440
  /\ exists f : float,
       key_freq pow_at_keys 40 440 = Ok f /\ (abs (f - 261.626) <? 0.001) = true.
Proof.
  apply (key_freq_spec pow_at_keys); vm_compute; reflexivity.
Defined.

(** C9 as stated fails: not every key number has a frequency.  For the key
    number [-10^400] the quotient [(k-49)/12] is too large for a double,
    and the division raises, whatever [pow] is; for key 12337 the quotient
    is 1024.0, and [2.0 ** 1024.0] is out of range for every [pow] that
    overflows there, as the C library's does. *)
Lemma key_freq_counterexample :
  (forall (pow : float -> float -> float) (a4 : float),
      key_freq pow (- 10 ^ 400) a4 = Raise OverflowError)
  /\ (forall (pow : float -> float -> float) (a4 : float),
        pow 2 1024 = infinity ->
        key_freq pow 12337 a4 = Raise OverflowError).
Proof.
  split.
  - intros pow a4. unfold key_freq.
    replace (int_truediv (- 10 ^ 400 - 49) 12) with (@Raise float OverflowError)
      by (vm_compute; reflexivity).
    reflexivity.
  - intros pow a4 H. unfold key_freq.
    replace (int_truediv (12337 - 49) 12) with (Ok 1024)
      by (vm_compute; reflexivity).
    cbn [Py.bind]. unfold float_pow. rewrite H. reflexivity.
Qed.

(** Inversion of [x <- e ;; k = Ok r]: [e] evaluated. *)
Ltac bind_inv H :=
  repeat match type of H with
         | Py.bind ?e _ = Ok _ =>
             let x := fresh "x" in
             let E := fresh "E" in
             destruct e as [x |] eqn:E; cbn [Py.bind] in H; [| discriminate H]
         | (let '(_, _) := ?p in _) = Ok _ => destruct p
         end.

(** ** The facade: rendering *)

(** The rendering loop takes the [n] values that follow [pos] from the wave
    and converts each with [int()]. *)
Lemma pull_ints_spec (wave : stream float) :
  forall (n pos : nat) (frames : list Z),
    WaveSynth.pull_ints n wave pos = Ok frames ->
    length frames = n
    /\ forall i : nat, (i < n)%nat ->
         exists v : float,
           wave (pos + i)%nat = Val v /\ py_int v = Ok (nth i frames 0%Z).
Proof.
  induction n as [| n IH]; intros pos frames H; cbn in H.
  - injection H as <-. split; [reflexivity | intros i Hi; lia].
  - unfold next_of in H.
    destruct (wave pos) as [v | |] eqn:Ev; cbn in H; try discriminate.
    destruct (py_int v) as [i0 |] eqn:Ei; cbn in H; try discriminate.
    destruct (WaveSynth.pull_ints n wave (S pos)) as [rest |] eqn:Er;
      cbn in H; try discriminate.
    injection H as <-. destruct (IH _ _ Er) as [Hlen Hnth].
    split; [cbn; now rewrite Hlen |].
    intros [| i] Hi.
    + exists v. rewrite Nat.add_0_r. now split.
    + destruct (Hnth i ltac:(lia)) as [w [Hw Hiw]].
      exists w. rewrite Nat.add_succ_r. now split.
Qed.

(** The loop succeeds when the wave has [n] more values that [int()]
    accepts. *)
Lemma pull_ints_total (wave : stream float) :
  forall n pos : nat,
    (forall i : nat, (i < n)%nat ->
       exists (v : float) (z : Z), wave (pos + i)%nat = Val v /\ py_int v = Ok z) ->
    exists frames : list Z, WaveSynth.pull_ints n wave pos = Ok frames.
Proof.
  induction n as [| n IH]; intros pos H; cbn.
  - now eexists.
  - destruct (H O ltac:(lia)) as [v [z [Hv Hz]]].
    rewrite Nat.add_0_r in Hv. unfold next_of. rewrite Hv. cbn. rewrite Hz. cbn.
    destruct (IH (S pos)) as [rest Hrest].
    + intros i Hi. destruct (H (S i) ltac:(lia)) as [w [y [Hw Hy]]].
      exists w, y. rewrite Nat.add_succ_r in Hw. now split.
    + rewrite Hrest. cbn. now eexists.
Qed.

(** A finite render of a wave whose values [int()] accepts is a buffer of
    [int(duration*samplerate)] frames, frame [i] being [int()] of the
    [i]-th value pulled from the wave. *)
Lemma render_sample_spec (self : WaveSynth.t) (duration : float)
    (wave : OscillatorBase) (n : Z) :
  py_int (duration * WaveSynth.samplerate self) = Ok n ->
  (forall i : nat, (i < Z.to_nat n)%nat ->
     exists (v : float) (z : Z), generator wave i = Val v /\ py_int v = Ok z) ->
  exists smp : Sample,
    WaveSynth.__render_sample self duration wave = Ok smp
    /\ length (sample_frames smp) = Z.to_nat n
    /\ nchannels smp = 1%Z
    /\ forall i : nat, (i < Z.to_nat n)%nat ->
         exists v : float,
           generator wave i = Val v /\ py_int v = Ok (nth i (sample_frames smp) 0%Z).
Proof.
  intros Hn Hvals. unfold WaveSynth.__render_sample. rewrite Hn. cbn.
  destruct (@pull_ints_total (generator wave) (Z.to_nat n) O Hvals) as [frames Hf].
  rewrite Hf. cbn. eexists. split; [reflexivity |]. cbn.
  destruct (pull_ints_spec _ _ _ Hf) as [Hlen Hnth].
  repeat split; trivial.
Qed.

(** Whatever oscillator is rendered, a buffer that is returned has
    [int(duration*samplerate)] frames, frame [i] being [int()] of the [i]-th
    value of the oscillator. *)
Lemma render_sample_ok (self : WaveSynth.t) (duration : float)
    (wave : OscillatorBase) (smp : Sample) :
  WaveSynth.__render_sample self duration wave = Ok smp ->
  exists n : Z,
    py_int (duration * WaveSynth.samplerate self) = Ok n
    /\ length (sample_frames smp) = Z.to_nat n
    /\ forall i : nat, (i < Z.to_nat n)%nat ->
         exists v : float,
           generator wave i = Val v /\ py_int v = Ok (nth i (sample_frames smp) 0%Z).
Proof.
  unfold WaveSynth.__render_sample. intros H. bind_inv H. injection H as <-.
  exists x. cbn [sample_frames]. split; [reflexivity |].
  exact (pull_ints_spec _ _ _ E0).
Qed.

(** ** The facade: [linear] and [linear_gen] *)

(** C10.  When [int(duration*samplerate)] is 1, [__linear] divides by
    [num_samples - 1 = 0]: [linear] raises [ZeroDivisionError] instead of
    returning a sample, and the first [next()] on [linear_gen] raises it
    before anything is yielded. *)
Theorem linear_single_sample_zero_division
    (norm_samplerate : float) (self : WaveSynth.t) (duration start_amp finish_amp : float) :
  py_int (duration * WaveSynth.samplerate self) = Ok 1%Z ->
  WaveSynth.__linear norm_samplerate self duration start_amp finish_amp
    = Raise ZeroDivisionError
  /\ WaveSynth.linear norm_samplerate self duration start_amp finish_amp
    = Raise ZeroDivisionError
  /\ WaveSynth.linear_gen norm_samplerate self duration start_amp finish_amp O
    = Fail ZeroDivisionError.
Proof.
  intros H.
  assert (E : WaveSynth.__linear norm_samplerate self duration start_amp finish_amp
              = Raise ZeroDivisionError).
  { unfold WaveSynth.__linear. rewrite H. reflexivity. }
  split; [exact E | split].
  - unfold WaveSynth.linear. rewrite E. reflexivity.
  - unfold WaveSynth.linear_gen. rewrite E. reflexivity.
Qed.

Lemma linear_single_sample_zero_division_witness :
  let self := {| WaveSynth.samplerate := 44100; WaveSynth.samplewidth := 2 |} in
  WaveSynth.__linear 44100 self 0.00003 0 1 = Raise ZeroDivisionError
  /\ WaveSynth.linear 44100 self 0.00003 0 1 = Raise ZeroDivisionError
  /\ WaveSynth.linear_gen 44100 self 0.00003 0 1 O = Fail ZeroDivisionError.
Proof.
  apply (@linear_single_sample_zero_division 44100
           {| WaveSynth.samplerate := 44100; WaveSynth.samplewidth := 2 |} 0.00003 0 1).
  vm_compute. reflexivity.
Defined.

(** With any other sample count the slope is computed: a two-sample ramp
    from 0 to 1 at 44100 Hz renders to the two frames 0 and 1. *)
Example linear_two_samples :
  let self := {| WaveSynth.samplerate := 44100; WaveSynth.samplewidth := 2 |} in
  WaveSynth.linear 44100 self 0.00005 0 1
  = Ok {| sample_frames := [0; 1]%Z; sample_rate := 44100;
          sample_width := 2; nchannels := 1 |}.
Proof. vm_compute. reflexivity. Qed.

(** C1, at the input where the code departs from it.  A duration of
    0.00003 s at 44100 Hz is [int(1.323) = 1] sample, and the ramp from 0 to 1
    is a valid request; [linear] raises [ZeroDivisionError] where the claim
    has a buffer of one frame. *)
Theorem linear_render_one_sample_raises :
  let self := {| WaveSynth.samplerate := 44100; WaveSynth.samplewidth := 2 |} in
  py_int (0.00003 * WaveSynth.samplerate self) = Ok 1%Z
  /\ WaveSynth.linear 44100 self 0.00003 0 1 = Raise ZeroDivisionError.
Proof. split; vm_compute; reflexivity. Qed.

(** The other nine render operations build their oscillator and hand it to
    [__render_sample], whose buffer [render_sample_spec] describes; for
    instance half a second of a 2 Hz perfect square wave at 8 Hz is 4
    frames. *)
Example square_half_second :
  let self := {| WaveSynth.samplerate := 8; WaveSynth.samplewidth := 2 |} in
  WaveSynth.square 8 self 2 0.5 0.75 0 0 None
  = Ok {| sample_frames := [24575; 24575; -24575; -24575]%Z; sample_rate := 8;
          sample_width := 2; nchannels := 1 |}.
Proof. vm_compute. reflexivity. Qed.

(** ** [clip] *)

(** A bound that is given is applied; a value within both bounds passes. *)
Lemma clip_value_within (minimum maximum v : float) :
  (maximum <? v) = false -> (v <? minimum) = false ->
  clip_value minimum maximum v = v.
Proof.
  intros Hmax Hmin. unfold clip_value, py_min, py_max. rewrite Hmax, Hmin. reflexivity.
Qed.

(** C7, at the input where the code departs from it.  With only a maximum
    given, the minimum defaults to [sys.float_info.min], the smallest positive
    normal double and not the most negative one: the source value -0.5, which
    is below the maximum 1.0, comes out as 2.2250738585072014e-308. *)
Theorem clip_maximum_only_raises_negatives :
  clip_value float_info_min 1 (-0.5) = 0x1p-1022
  /\ exists osc : OscillatorBase,
       clip 44100 (Linear 44100 (-0.5) 0 (-1) 1 44100) None (Some 1) = Ok osc
       /\ generator (Linear 44100 (-0.5) 0 (-1) 1 44100) O = Val (-0.5)
       /\ generator osc O = Val 0x1p-1022.
Proof.
  split; [vm_compute; reflexivity |].
  eexists. split; [reflexivity |]. split; vm_compute; reflexivity.
Qed.

(** ** Generators of the shape [generator_loop] *)

(** A division by a number that is not zero does not raise. *)
Lemma truediv_truthy (x y : float) : truthy y = true -> truediv x y = Ok (x / y).
Proof.
  unfold truthy, truediv. intros H. apply negb_true_iff in H. now rewrite H.
Qed.

Lemma locals_at_S (L : Type) (init : result L)
    (turn : L -> result (float * L)) (k : nat) :
  locals_at init turn (S k)
  = (l <- locals_at init turn k ;; p <- turn l ;; Ok (snd p))%py.
Proof. reflexivity. Qed.

(** A value such a generator yields is the value of a turn. *)
Lemma generator_loop_val (L : Type) (init : result L)
    (turn : L -> result (float * L)) (k : nat) (v : float) :
  generator_loop init turn k = Val v ->
  exists l l' : L, locals_at init turn k = Ok l /\ turn l = Ok (v, l').
Proof.
  unfold generator_loop. intros H.
  destruct (locals_at init turn k) as [l |]; cbn in H; [| discriminate].
  destruct (turn l) as [[w l'] |] eqn:Et; [| discriminate].
  injection H as ->. now exists l, l'.
Qed.

(** ** The perfect square wave *)

Lemma square_level_cases (amplitude x a : float) :
  square_level amplitude x = Ok a -> a = amplitude \/ a = - amplitude.
Proof.
  unfold square_level. destruct (py_int x) as [n |]; cbn; [| discriminate].
  destruct (n mod 2 =? 0)%Z; intros H; injection H as <-; auto.
Qed.

(** Every value of [FastSquare] is one of the two levels. *)
Lemma FastSquare_levels (norm_samplerate frequency amplitude phase bias rate : float)
    (k : nat) (v : float) :
  generator (FastSquare norm_samplerate frequency amplitude phase bias rate) k = Val v ->
  v = amplitude + bias \/ v = - amplitude + bias.
Proof.
  cbn. intros H. apply generator_loop_val in H.
  destruct H as [[t increment] [l' [_ Hturn]]].
  destruct (square_level amplitude (t * frequency * 2)) as [a |] eqn:Ea;
    cbn in Hturn; [| discriminate].
  injection Hturn as <- _.
  destruct (square_level_cases _ _ Ea) as [-> | ->]; auto.
Qed.

(** C8.  A sample a perfect square wave (no FM source) renders to holds only
    [int(amplitude*scale + bias*scale)] and [int(-(amplitude*scale) + bias*scale)],
    the quantized high and low level, [scale] being [2^(8*samplewidth-1) - 1]. *)
Theorem square_render_two_levels
    (norm_samplerate : float) (self : WaveSynth.t)
    (frequency duration amplitude phase bias : float) (smp : Sample) :
  WaveSynth.square norm_samplerate self frequency duration amplitude phase bias None
    = Ok smp ->
  let scale := (2 ^ (WaveSynth.samplewidth self * 8 - 1) - 1)%Z in
  Forall (fun frame : Z =>
            py_int (amplitude * of_Z scale + bias * of_Z scale) = Ok frame
            \/ py_int (- (amplitude * of_Z scale) + bias * of_Z scale) = Ok frame)
         (sample_frames smp).
Proof.
  intros H scale. unfold WaveSynth.square, WaveSynth.__square in H.
  destruct (WaveSynth.__check_and_get_scale self frequency amplitude bias)
    as [sc |] eqn:Hsc; cbn in H; [| discriminate].
  assert (sc = scale) as ->.
  { unfold WaveSynth.__check_and_get_scale in Hsc.
    repeat match type of Hsc with
           | context [assert ?b] => destruct b; cbn in Hsc; [| discriminate]
           end.
    now injection Hsc. }
  unfold WaveSynth.__render_sample in H.
  destruct (py_int (duration * WaveSynth.samplerate self)) as [n |];
    cbn in H; [| discriminate].
  match type of H with
  | context [WaveSynth.pull_ints ?m ?w ?p] =>
      destruct (WaveSynth.pull_ints m w p) as [frames |] eqn:Hf
  end; cbn in H; [| discriminate].
  injection H as <-. cbn.
  destruct (pull_ints_spec _ _ _ Hf) as [Hlen Hnth].
  apply Forall_forall. intros frame Hin.
  destruct (In_nth _ _ 0%Z Hin) as [i [Hi <-]].
  rewrite Hlen in Hi. destruct (Hnth i Hi) as [v [Hv Hint]].
  apply FastSquare_levels in Hv. destruct Hv as [-> | ->]; auto.
Qed.

Lemma square_render_two_levels_witness :
  Forall (fun frame : Z =>
            py_int (0.75 * of_Z 32767 + 0 * of_Z 32767) = Ok frame
            \/ py_int (- (0.75 * of_Z 32767) + 0 * of_Z 32767) = Ok frame)
         [24575; 24575; -24575; -24575]%Z.
Proof.
  apply (@square_render_two_levels 8
           {| WaveSynth.samplerate := 8; WaveSynth.samplewidth := 2 |}
           2 0.5 0.75 0 0
           {| sample_frames := [24575; 24575; -24575; -24575]%Z; sample_rate := 8;
              sample_width := 2; nchannels := 1 |}).
  vm_compute. reflexivity.
Defined.

(** An invariant of the locals of a generator loop: it holds for the locals
    the loop starts with and every turn keeps it. *)
Lemma locals_at_invariant (L : Type) (init : result L)
    (turn : L -> result (float * L)) (P : nat -> L -> Prop) :
  (forall l : L, init = Ok l -> P O l) ->
  (forall (k : nat) (l l' : L) (v : float), P k l -> turn l = Ok (v, l') -> P (S k) l') ->
  forall (k : nat) (l : L), locals_at init turn k = Ok l -> P k l.
Proof.
  intros H0 HS. induction k as [| k IH]; intros l H; cbn in H.
  - now apply H0.
  - destruct (locals_at init turn k) as [l0 |]; cbn in H; [| discriminate].
    destruct (turn l0) as [[v l1] |] eqn:Et; cbn in H; [| discriminate].
    injection H as <-. eapply HS; [apply IH; reflexivity | exact Et].
Qed.

(** ** The pulse waves *)

(** The corrected duty factor is never [<= 0] and never [>= 1], whatever was
    pulled, and a factor that already is neither is left as it is. *)
Lemma clamp_pw_range (pw : float) :
  (clamp_pw pw <=? 0) = false /\ (1 <=? clamp_pw pw) = false.
Proof.
  unfold clamp_pw.
  destruct (pw <=? 0) eqn:E0; [split; vm_compute; reflexivity |].
  destruct (1 <=? pw) eqn:E1; [split; vm_compute; reflexivity |].
  now split.
Qed.

Lemma clamp_pw_cases (pw : float) :
  ((pw <=? 0) = true -> clamp_pw pw = float_info_epsilon)
  /\ ((pw <=? 0) = false -> (1 <=? pw) = true -> clamp_pw pw = 1 - float_info_epsilon)
  /\ ((pw <=? 0) = false -> (1 <=? pw) = false -> clamp_pw pw = pw).
Proof.
  unfold clamp_pw. repeat split; intros H; try intros H'; rewrite H; try rewrite H';
    reflexivity.
Qed.

(** In the FM-capable pulse generator, turn [k] pulls item [k] of the duty
    source and compares against its corrected value. *)
Lemma Pulse_threshold
    (norm_samplerate frequency amplitude phase bias pulsewidth : float)
    (fm_lfo pwm_lfo : option (stream float)) (rate : float)
    (osc : OscillatorBase) (k : nat) (v : float) :
  Pulse norm_samplerate frequency amplitude phase bias pulsewidth fm_lfo pwm_lfo rate
    = Ok osc ->
  generator osc k = Val v ->
  exists pw x : float,
    pwm_source pwm_lfo pulsewidth k = Val pw
    /\ v = pulse_sample amplitude bias x (clamp_pw pw).
Proof.
  unfold Pulse. destruct (assert _); cbn; [| discriminate].
  intros H. injection H as <-. cbn [generator]. intros H.
  apply generator_loop_val in H. destruct H as [[l increment] [l' [Hl Hturn]]].
  assert (Hpos : fm_pos l = k).
  { clear Hturn. revert Hl.
    apply (@locals_at_invariant _ _ _ (fun k (p : fm_locals * float) => fm_pos (fst p) = k)).
    - intros [l0 i0] E. bind_inv E. now injection E as <- _.
    - intros k0 [l0 i0] [l1 i1] w Hk E. cbn in Hk. bind_inv E.
      injection E as _ <- _. cbn. now rewrite Hk. }
  rewrite Hpos in Hturn. bind_inv Hturn. injection Hturn as <- _.
  unfold next_of in E.
  destruct (pwm_source pwm_lfo pulsewidth k) as [pw | |]; try discriminate.
  injection E as <-. eexists pw, _. split; reflexivity.
Qed.

(** The same in the fast pulse generator with a PWM source. *)
Lemma FastPulse_pwm_threshold
    (norm_samplerate frequency amplitude phase bias pulsewidth : float)
    (pwm : stream float) (rate : float)
    (osc : OscillatorBase) (k : nat) (v : float) :
  FastPulse norm_samplerate frequency amplitude phase bias pulsewidth (Some pwm) rate
    = Ok osc ->
  generator osc k = Val v ->
  exists pw x : float,
    pwm k = Val pw /\ v = pulse_sample amplitude bias x (clamp_pw pw).
Proof.
  unfold FastPulse. destruct (assert _); cbn; [| discriminate].
  intros H. injection H as <-. cbn [generator]. intros H.
  apply generator_loop_val in H. destruct H as [[[t increment] j] [l' [Hl Hturn]]].
  assert (Hpos : j = k).
  { clear Hturn. revert Hl.
    apply (@locals_at_invariant _ _ _ (fun k (p : float * float * nat) => snd p = k)).
    - intros [[t0 i0] j0] E. bind_inv E. now injection E as _ _ <-.
    - intros k0 [[t0 i0] j0] [[t1 i1] j1] w Hk E. cbn in Hk. bind_inv E.
      injection E as _ _ _ <-. cbn. now rewrite Hk. }
  subst j. bind_inv Hturn. injection Hturn as <- _.
  unfold next_of in E. destruct (pwm k) as [pw | |]; try discriminate.
  injection E as <-. now exists pw, (t * frequency).
Qed.

(** Without a PWM source the fast pulse generator compares against
    [pulsewidth] as it was given. *)
Lemma FastPulse_fixed_threshold
    (norm_samplerate frequency amplitude phase bias pulsewidth rate : float)
    (osc : OscillatorBase) (k : nat) (v : float) :
  FastPulse norm_samplerate frequency amplitude phase bias pulsewidth None rate = Ok osc ->
  generator osc k = Val v ->
  exists x : float, v = pulse_sample amplitude bias x pulsewidth.
Proof.
  unfold FastPulse. destruct (assert _); cbn; [| discriminate].
  intros H. injection H as <-. cbn [generator]. intros H.
  apply generator_loop_val in H. destruct H as [[t increment] [l' [_ Hturn]]].
  injection Hturn as <- _. now exists (t * frequency).
Qed.

Lemma fm_locals_at_pos (frequency phase increment : float) (fm : nat -> float) (k : nat) :
  fm_pos (fm_locals_at frequency phase increment fm k) = k.
Proof. induction k as [| k IH]; cbn; [reflexivity | now rewrite IH]. Qed.

(** The locals of the FM-capable pulse generator before turn [k], as long
    as both of its sources have had values. *)
Lemma Pulse_locals
    (frequency amplitude phase bias rate : float) (fm pwm : stream float)
    (d w : nat -> float) (k : nat) :
  truthy rate = true ->
  (forall j : nat, (j < k)%nat -> fm j = Val (d j) /\ pwm j = Val (w j)) ->
  locals_at
    (increment <- truediv 1 rate ;;
     Ok ({| phase_correction := phase; freq_previous := frequency;
            t := 0; fm_pos := O |}, increment))%py
    (fun '(l, increment) =>
       pw <- next_of pwm (fm_pos l) ;;
       '(freq, pc) <- fm_turn frequency fm l ;;
       Ok (pulse_sample amplitude bias (t l * freq + pc) (clamp_pw pw),
           (fm_advance l freq pc increment, increment)))%py
    k
  = Ok (fm_locals_at frequency phase (1 / rate) d k, 1 / rate).
Proof.
  intros Hrate. induction k as [| k IH]; intros H.
  - cbn [locals_at]. now rewrite (@truediv_truthy _ _ Hrate).
  - rewrite locals_at_S, IH by (intros j Hj; apply H; lia). cbn [Py.bind].
    destruct (H k (Nat.lt_succ_diag_r k)) as [Hd Hw].
    unfold fm_turn, next_of. rewrite fm_locals_at_pos, Hw, Hd. reflexivity.
Qed.

(** The same for the fast pulse generator with a PWM source. *)
Lemma FastPulse_locals
    (frequency amplitude phase bias rate : float) (pwm : stream float)
    (w : nat -> float) (k : nat) :
  truthy frequency = true ->
  truthy rate = true ->
  (forall j : nat, (j < k)%nat -> pwm j = Val (w j)) ->
  locals_at
    ('(t, increment) <- fast_init frequency phase rate ;;
     Ok (t, increment, O))%py
    (fun '(t, increment, k) =>
       pw <- next_of pwm k ;;
       Ok (pulse_sample amplitude bias (t * frequency) (clamp_pw pw),
           (t + increment, increment, S k)))%py
    k
  = Ok (fast_time_at (phase / frequency) (1 / rate) k, 1 / rate, k).
Proof.
  intros Hfreq Hrate. induction k as [| k IH]; intros H.
  - cbn [locals_at]. unfold fast_init.
    now rewrite (@truediv_truthy _ _ Hfreq), (@truediv_truthy _ _ Hrate).
  - rewrite locals_at_S, IH by (intros j Hj; apply H; lia). cbn [Py.bind].
    unfold next_of. rewrite (H k (Nat.lt_succ_diag_r k)). reflexivity.
Qed.

(** C6, as the code has it.  In [Pulse] (duty factor from a PWM source or
    from [pulsewidth], which it feeds through the same loop) and in
    [FastPulse] with a PWM source, the duty factor pulled in a turn is
    replaced by epsilon when it is [<= 0], by [1 - epsilon] when it is
    [>= 1], and kept otherwise, so that it is never [<= 0] and never
    [>= 1]; and the value of turn [k] is high exactly when the phase of
    that turn, modulo 1, is below the duty factor of that turn so
    corrected.  The phase is [fm_phase_at] for [Pulse] and
    [fast_time_at * frequency] for [FastPulse]; [d] and [w] are the values
    the FM source and the source of duty factors have. *)
Theorem pulse_duty_factor_corrected
    (norm_samplerate frequency amplitude phase bias pulsewidth : float)
    (fm_lfo pwm_lfo : option (stream float)) (rate : float) :
  truthy (base_samplerate norm_samplerate rate) = true ->
  let increment := 1 / base_samplerate norm_samplerate rate in
  (forall pw : float,
      ((clamp_pw pw <=? 0) = false /\ (1 <=? clamp_pw pw) = false)
      /\ ((pw <=? 0) = true -> clamp_pw pw = float_info_epsilon)
      /\ ((pw <=? 0) = false -> (1 <=? pw) = true -> clamp_pw pw = 1 - float_info_epsilon)
      /\ ((pw <=? 0) = false -> (1 <=? pw) = false -> clamp_pw pw = pw))
  /\ (forall (osc : OscillatorBase) (d w : nat -> float) (k : nat),
        Pulse norm_samplerate frequency amplitude phase bias pulsewidth fm_lfo pwm_lfo rate
          = Ok osc ->
        (forall j : nat, (j <= k)%nat ->
           fm_source fm_lfo j = Val (d j) /\ pwm_source pwm_lfo pulsewidth j = Val (w j)) ->
        generator osc k
        = Val ((if mod1 (fm_phase_at frequency phase increment d k) <? clamp_pw (w k)
                then amplitude else - amplitude) + bias))
  /\ (forall (pwm : stream float) (osc : OscillatorBase) (w : nat -> float) (k : nat),
        FastPulse norm_samplerate frequency amplitude phase bias pulsewidth (Some pwm) rate
          = Ok osc ->
        truthy frequency = true ->
        (forall j : nat, (j <= k)%nat -> pwm j = Val (w j)) ->
        generator osc k
        = Val ((if mod1 (fast_time_at (phase / frequency) increment k * frequency)
                     <? clamp_pw (w k)
                then amplitude else - amplitude) + bias)).
Proof.
  intros Hrate increment. subst increment. split; [| split].
  - intros pw. split; [apply clamp_pw_range | apply clamp_pw_cases].
  - intros osc d w k Hosc Hsrc. unfold Pulse in Hosc.
    destruct (assert _); cbn [Py.bind] in Hosc; [| discriminate].
    injection Hosc as <-. cbn [generator]. unfold generator_loop.
    rewrite (@Pulse_locals frequency amplitude phase bias
               (base_samplerate norm_samplerate rate) (fm_source fm_lfo)
               (pwm_source pwm_lfo pulsewidth) d w k Hrate)
      by (intros j Hj; apply Hsrc; lia).
    cbn [Py.bind]. destruct (Hsrc k (le_n k)) as [Hd Hw].
    unfold fm_turn, next_of. rewrite fm_locals_at_pos, Hw, Hd. reflexivity.
  - intros pwm osc w k Hosc Hfreq Hsrc. unfold FastPulse in Hosc.
    destruct (assert _); cbn [Py.bind] in Hosc; [| discriminate].
    injection Hosc as <-. cbn [generator]. unfold generator_loop.
    rewrite (@FastPulse_locals frequency amplitude phase bias
               (base_samplerate norm_samplerate rate) pwm w k Hfreq Hrate)
      by (intros j Hj; apply Hsrc; lia).
    cbn [Py.bind]. unfold next_of. rewrite (Hsrc k (le_n k)). reflexivity.
Qed.

(** A 1 Hz pulse at 8 Hz whose duty factor is 0: the factor is corrected to
    epsilon, the phase of the first turn is 0, and the value is high. *)
Lemma pulse_duty_factor_corrected_witness :
  exists osc : OscillatorBase,
    Pulse 44100 1 1 0 0 0 None None 8 = Ok osc
    /\ clamp_pw 0 = float_info_epsilon
    /\ generator osc O
       = Val ((if mod1 (fm_phase_at 1 0 (1 / base_samplerate 44100 8) (fun _ => 0) O)
                    <? clamp_pw 0
               then 1 else - (1)) + 0).
Proof.
  assert (Hrate : truthy (base_samplerate 44100 8) = true) by (vm_compute; reflexivity).
  destruct (@pulse_duty_factor_corrected 44100 1 1 0 0 0 None None 8 Hrate)
    as [Hclamp [Hpulse _]].
  eexists. split; [reflexivity |]. split.
  - apply Hclamp. vm_compute. reflexivity.
  - apply (Hpulse _ (fun _ => 0) (fun _ => 0) O); [reflexivity |].
    intros j _. split; reflexivity.
Defined.

(** C6 as stated fails.  A duty factor of 0 is corrected to epsilon itself,
    which is not inside the open interval, and a duty factor below epsilon
    is not corrected at all.  [FastPulse] without a PWM source compares
    against [pulsewidth] uncorrected: with [pulsewidth = 0] the threshold is
    exactly 0, and two full periods of a 1 Hz pulse at 8 Hz are low
    throughout, while [Pulse] with the same parameters is high at the start
    of each period. *)
Lemma pulse_duty_factor_counterexample :
  (clamp_pw 0 = float_info_epsilon /\ (float_info_epsilon <? clamp_pw 0) = false)
  /\ (clamp_pw 0x1p-60 = 0x1p-60 /\ (float_info_epsilon <? clamp_pw 0x1p-60) = false)
  /\ (exists osc : OscillatorBase,
        FastPulse 44100 1 1 0 0 0 None 8 = Ok osc
        /\ map (generator osc) (seq 0 16) = repeat (Val (-1)) 16)
  /\ (exists osc : OscillatorBase,
        Pulse 44100 1 1 0 0 0 None None 8 = Ok osc
        /\ map (generator osc) (seq 0 16)
           = [Val 1; Val (-1); Val (-1); Val (-1); Val (-1); Val (-1); Val (-1); Val (-1);
              Val 1; Val (-1); Val (-1); Val (-1); Val (-1); Val (-1); Val (-1); Val (-1)]).
Proof.
  split; [split; vm_compute; reflexivity |].
  split; [split; vm_compute; reflexivity |].
  split; eexists; (split; [reflexivity | vm_compute; reflexivity]).
Qed.

(** ** The harmonics oscillator *)

Lemma range_from_length (step : Z) :
  (0 < step)%Z ->
  forall (c m : nat) (start stop : Z),
    (c <= m)%nat ->
    (stop <= start + step * Z.of_nat c)%Z ->
    (c = O \/ start + step * (Z.of_nat c - 1) < stop)%Z ->
    length (range_from m start stop step) = c.
Proof.
  intros Hstep. induction c as [| c IH]; intros m start stop Hm Hhi Hlo.
  - destruct m as [| m]; cbn; [reflexivity |].
    destruct (start <? stop)%Z eqn:E; [apply Z.ltb_lt in E; lia | reflexivity].
  - destruct m as [| m]; [lia |]. cbn.
    destruct Hlo as [Hlo | Hlo]; [discriminate |].
    destruct (start <? stop)%Z eqn:E; [| apply Z.ltb_ge in E; nia].
    cbn. f_equal. apply IH; [lia | nia |].
    destruct c as [| c]; [now left | right; nia].
Qed.

(** The three loops of a turn run through [n], [n] and [n - 1] harmonic
    numbers, none when that is negative. *)
Lemma py_range_odd_length (n : Z) : length (py_range 1 (2 * n) 2) = Z.to_nat n.
Proof.
  unfold py_range. apply range_from_length; lia.
Qed.

Lemma py_range_all_length (n : Z) : length (py_range 1 (1 + n) 1) = Z.to_nat n.
Proof.
  unfold py_range. apply range_from_length; lia.
Qed.

Lemma py_range_even_length (n : Z) : length (py_range 2 (2 * n) 2) = Z.to_nat (n - 1).
Proof.
  unfold py_range. apply range_from_length; lia.
Qed.

Section HarmonicsFacts.
Variable norm_samplerate : float.
Variable sin : float -> float.

(** The sum of a turn adds one term for each harmonic number of
    [harmonics_summed], in that order. *)
Lemma harmonic_sum_terms (only_even only_odd : bool) (n : Z) (q : float) :
  harmonic_sum sin only_even only_odd n q
  = fold_left (fun h k => h + harmonic_term sin only_even only_odd q k)
      (harmonics_summed only_even only_odd n) 0.
Proof.
  unfold harmonic_sum, harmonics_summed, harmonic_term.
  destruct only_odd; [reflexivity |]. destruct only_even; [| reflexivity].
  cbn [fold_left]. change (1 =? 1)%Z with true. cbv iota.
  generalize (0 + sin q * 0.7).
  assert (H : forall k : Z, In k (py_range 2 (2 * n) 2) -> (k =? 1)%Z = false).
  { unfold py_range. generalize (Z.to_nat (2 * n - 2)).
    assert (G : forall (m : nat) (start k : Z),
               (2 <= start)%Z -> In k (range_from m start (2 * n) 2) -> (k =? 1)%Z = false).
    { induction m as [| m IH]; intros start k Hs; cbn [range_from In]; [intros [] |].
      destruct (start <? 2 * n)%Z; cbn [In]; [| intros []].
      intros [<- | Hin]; [apply Z.eqb_neq; lia | eapply IH; [| exact Hin]; lia]. }
    intros m k. apply G. lia. }
  revert H. induction (py_range 2 (2 * n) 2) as [| k l IH]; intros H h; cbn;
    [reflexivity |].
  rewrite (H k) by now left. apply IH. intros k' Hk'. apply H. now right.
Qed.

(** How many harmonics a turn sums, for its harmonic limit [n]. *)
Lemma harmonics_summed_length (only_even only_odd : bool) (n : Z) :
  length (harmonics_summed only_even only_odd n)
  = if only_odd then Z.to_nat n
    else if only_even then S (Z.to_nat (n - 1))
    else Z.to_nat n.
Proof.
  unfold harmonics_summed. destruct only_odd; [apply py_range_odd_length |].
  destruct only_even; [cbn; f_equal; apply py_range_even_length |].
  apply py_range_all_length.
Qed.
End HarmonicsFacts.

Section HarmonicsTurns.
Variable norm_samplerate : float.
Variable sin : float -> float.
Variables frequency amplitude phase bias : float.
Variable num_harmonics : Z.
Variable fm_lfo : option (stream float).
Variable rate : float.

Let rate' : float := base_samplerate norm_samplerate rate.

(** The harmonic limit is the smaller of [num_harmonics] and
    [int(samplerate/2/frequency)]. *)
Lemma harmonic_limit_min (n : Z) :
  harmonic_limit num_harmonics rate' frequency = Ok n ->
  exists i : Z, py_int (rate' / 2 / frequency) = Ok i /\ n = Z.min num_harmonics i.
Proof.
  unfold harmonic_limit, truediv. intros H.
  destruct (frequency =? 0); cbn [Py.bind] in H; [discriminate |].
  bind_inv H. injection H as <-. now exists x.
Qed.

(** A value of the harmonics oscillator is the sum of the turn, taken up to
    the harmonic limit, times the amplitude, plus the bias. *)
Lemma Harmonics_turn (only_even only_odd : bool) (k : nat) (v : float) :
  generator (Harmonics norm_samplerate sin frequency num_harmonics amplitude phase bias
               only_even only_odd fm_lfo rate) k = Val v ->
  exists (n : Z) (q : float),
    harmonic_limit num_harmonics rate' frequency = Ok n
    /\ v = harmonic_sum sin only_even only_odd n q * amplitude + bias.
Proof.
  cbn [generator Harmonics]. unfold Harmonics_generator. intros H.
  apply generator_loop_val in H. destruct H as [[l increment] [l' [_ Hturn]]].
  bind_inv Hturn. injection Hturn as <- _. now exists x, (t l * f + f0).
Qed.

(** While the harmonic limit can be computed, the harmonics generator and
    the sine generator go through the same locals: the same time, the same
    phase correction, the same position in the FM source. *)
Lemma Harmonics_Sine_locals (only_even only_odd : bool) (n : Z) :
  harmonic_limit num_harmonics rate' frequency = Ok n ->
  forall k : nat,
    locals_at
      (increment <- truediv (2 * pi) rate' ;;
       Ok ({| phase_correction := phase * 2 * pi; freq_previous := frequency;
              t := 0; fm_pos := O |}, increment))%py
      (fun '(l, increment) =>
         n <- harmonic_limit num_harmonics rate' frequency ;;
         '(freq, pc) <- fm_turn frequency (fm_source fm_lfo) l ;;
         let q := t l * freq + pc in
         Ok (harmonic_sum sin only_even only_odd n q * amplitude + bias,
             (fm_advance l freq pc increment, increment)))%py
      k
    = locals_at
        (increment <- truediv (2 * pi) rate' ;;
         Ok ({| phase_correction := phase * 2 * pi; freq_previous := frequency;
                t := 0; fm_pos := O |}, increment))%py
        (fun '(l, increment) =>
           '(freq, pc) <- fm_turn frequency (fm_source fm_lfo) l ;;
           Ok (sin (t l * freq + pc) * amplitude + bias,
               (fm_advance l freq pc increment, increment)))%py
        k.
Proof.
  intros Hn. induction k as [| k IH]; [reflexivity |].
  rewrite !locals_at_S, IH.
  match goal with |- Py.bind ?e _ = _ => destruct e as [[l increment] |] end;
    [| reflexivity].
  cbn [Py.bind]. rewrite Hn. cbn [Py.bind].
  destruct (fm_turn frequency (fm_source fm_lfo) l) as [[freq pc] |]; reflexivity.
Qed.

(** With a harmonic limit of 1 every mode sums a single term, the
    fundamental, at the argument [q] the sine oscillator of the same
    parameters takes the sine of: the odd-only mode yields
    [(0 + sin(q*1)/1)*amplitude + bias], the default mode half of that sine,
    the even-only mode 0.7 times it. *)
Lemma Harmonics_single_term (k : nat) (sv : float) :
  harmonic_limit num_harmonics rate' frequency = Ok 1%Z ->
  generator (Sine norm_samplerate sin frequency amplitude phase bias fm_lfo rate) k
    = Val sv ->
  exists q : float,
    sv = sin q * amplitude + bias
    /\ generator (Harmonics norm_samplerate sin frequency num_harmonics amplitude phase
                    bias false true fm_lfo rate) k
       = Val ((0 + sin (q * 1) / 1) * amplitude + bias)
    /\ generator (Harmonics norm_samplerate sin frequency num_harmonics amplitude phase
                    bias false false fm_lfo rate) k
       = Val ((0 + sin (q * 1) / 1 / 2) * amplitude + bias)
    /\ generator (Harmonics norm_samplerate sin frequency num_harmonics amplitude phase
                    bias true false fm_lfo rate) k
       = Val ((0 + sin q * 0.7) * amplitude + bias).
Proof.
  intros Hn H. cbn [generator Sine] in H.
  apply generator_loop_val in H. destruct H as [[l increment] [l' [Hl Hturn]]].
  fold rate' in Hl.
  bind_inv Hturn. injection Hturn as <- _.
  exists (t l * f + f0). split; [reflexivity |].
  cbn [generator Harmonics]. unfold Harmonics_generator, generator_loop. fold rate'.
  repeat split.
  all: rewrite (Harmonics_Sine_locals _ _ Hn), Hl; cbn [Py.bind];
    rewrite Hn; cbn [Py.bind]; rewrite E; reflexivity.
Qed.
End HarmonicsTurns.

(** The default mode sums the harmonics 1, 2, ..., [n] and no others. *)
Lemma range_from_seq (m : nat) :
  forall (start stop : Z),
    (stop = start + Z.of_nat m)%Z ->
    range_from m start stop 1 = map (fun i => start + Z.of_nat i)%Z (seq 0 m).
Proof.
  induction m as [| m IH]; intros start stop Hstop; [reflexivity |].
  cbn [range_from].
  replace (start <? stop)%Z with true by (symmetry; apply Z.ltb_lt; lia).
  cbn [seq map]. f_equal; [lia |].
  rewrite (IH (start + 1)%Z stop) by lia.
  rewrite <- seq_shift, map_map. apply map_ext. intros i. lia.
Qed.

Lemma harmonics_summed_default (n : Z) :
  harmonics_summed false false n = map Z.of_nat (seq 1 (Z.to_nat n)).
Proof.
  unfold harmonics_summed, py_range.
  replace (1 + n - 1)%Z with n by lia.
  destruct (Z.le_gt_cases n 0) as [H | H].
  - replace (Z.to_nat n) with O by lia. reflexivity.
  - rewrite range_from_seq by lia.
    rewrite <- seq_shift, map_map. apply map_ext. intros i. lia.
Qed.

(** The sample rates from 1 Hz to 200000 Hz: a third of each is a frequency
    whose harmonic limit is 1. *)
Lemma third_rates_checked_spec (n : nat) :
  forall r : Z,
    third_rates_checked n r = true ->
    forall z : Z, (r <= z < r + Z.of_nat n)%Z ->
      truthy (of_Z z) = true /\ third_rate_limit z = Ok 1%Z.
Proof.
  induction n as [| n IH]; intros r H z Hz; [lia |].
  cbn [third_rates_checked] in H.
  apply andb_prop in H. destruct H as [H Hrest].
  apply andb_prop in H. destruct H as [Ht Hl].
  destruct (Z.eq_dec z r) as [-> | Hne].
  - split; [exact Ht |].
    destruct (third_rate_limit r) as [[| [p | p |] | p] |]; try discriminate. reflexivity.
  - apply (IH (r + 1)%Z Hrest). lia.
Qed.

Lemma third_rate_limit_one (r : Z) :
  (1 <= r <= 200000)%Z ->
  truthy (of_Z r) = true /\ third_rate_limit r = Ok 1%Z.
Proof.
  intros Hr.
  apply (@third_rates_checked_spec (Z.to_nat 200000) 1%Z); [| lia].
  vm_compute. reflexivity.
Qed.

(** C3, as the code has it.  Every value of the harmonics oscillator is a
    sum over the harmonic numbers of [harmonics_summed] for the limit
    [n = min(num_harmonics, int(samplerate/2/frequency))] of that turn.  In
    the default mode these are the harmonics 1 to [n] and no others, so
    the harmonic numbers above the limit are dropped; the even-only mode
    sums the fundamental also when [n] is 0.  For a frequency of a third of
    the sample rate, a whole number of Hz up to 200000, and at least one
    harmonic asked for, the limit is 1 and only the fundamental is summed,
    at the argument [q] of the sine oscillator with the same parameters: the
    default mode yields [sin(q)/2] in place of that oscillator's [sin(q)],
    the odd-only mode [sin(q)], the even-only mode [0.7 sin(q)]. *)
Theorem harmonics_limit_and_single_term
    (norm_samplerate : float) (sin : float -> float)
    (frequency amplitude phase bias : float) (num_harmonics : Z)
    (fm_lfo : option (stream float)) (rate : float) :
  let rate' := base_samplerate norm_samplerate rate in
  (forall (only_even only_odd : bool) (k : nat) (v : float),
      generator (Harmonics norm_samplerate sin frequency num_harmonics amplitude phase
                   bias only_even only_odd fm_lfo rate) k = Val v ->
      exists (i : Z) (q : float),
        py_int (rate' / 2 / frequency) = Ok i
        /\ v = fold_left (fun h j => h + harmonic_term sin only_even only_odd q j)
                 (harmonics_summed only_even only_odd (Z.min num_harmonics i)) 0
               * amplitude + bias
        /\ length (harmonics_summed only_even only_odd (Z.min num_harmonics i))
           = if only_odd then Z.to_nat (Z.min num_harmonics i)
             else if only_even then S (Z.to_nat (Z.min num_harmonics i - 1))
             else Z.to_nat (Z.min num_harmonics i))
  /\ (forall n : Z, harmonics_summed false false n = map Z.of_nat (seq 1 (Z.to_nat n)))
  /\ (forall r : Z,
        (1 <= r <= 200000)%Z ->
        rate = of_Z r ->
        frequency = of_Z r / 3 ->
        (1 <= num_harmonics)%Z ->
        harmonic_limit num_harmonics rate' frequency = Ok 1%Z
        /\ (forall only_even only_odd : bool, harmonics_summed only_even only_odd 1 = [1%Z])
        /\ forall (k : nat) (sv : float),
             generator (Sine norm_samplerate sin frequency amplitude phase bias fm_lfo rate) k
               = Val sv ->
             exists q : float,
               sv = sin q * amplitude + bias
               /\ generator (Harmonics norm_samplerate sin frequency num_harmonics amplitude
                               phase bias false true fm_lfo rate) k
                  = Val ((0 + sin (q * 1) / 1) * amplitude + bias)
               /\ generator (Harmonics norm_samplerate sin frequency num_harmonics amplitude
                               phase bias false false fm_lfo rate) k
                  = Val ((0 + sin (q * 1) / 1 / 2) * amplitude + bias)
               /\ generator (Harmonics norm_samplerate sin frequency num_harmonics amplitude
                               phase bias true false fm_lfo rate) k
                  = Val ((0 + sin q * 0.7) * amplitude + bias)).
Proof.
  intros rate'. split; [| split].
  - intros only_even only_odd k v Hv.
    destruct (Harmonics_turn _ _ _ _ _ _ _ _ _ _ _ _ Hv) as [n [q [Hn ->]]].
    destruct (harmonic_limit_min _ _ _ _ Hn) as [i [Hi ->]].
    exists i, q. split; [exact Hi |]. split.
    + now rewrite harmonic_sum_terms.
    + apply harmonics_summed_length.
  - apply harmonics_summed_default.
  - intros r Hr Hrate Hfreq Hnum.
    destruct (third_rate_limit_one Hr) as [Ht Hl].
    assert (Hn : harmonic_limit num_harmonics rate' frequency = Ok 1%Z).
    { unfold rate', base_samplerate. rewrite Hrate, Ht, Hfreq.
      unfold harmonic_limit. unfold third_rate_limit in Hl.
      destruct (truediv (of_Z r / 2) (of_Z r / 3)) as [x |]; cbn [Py.bind] in *;
        [| discriminate].
      rewrite Hl. cbn [Py.bind]. f_equal. lia. }
    split; [exact Hn |]. split.
    + intros [] []; reflexivity.
    + intros k sv Hsv. eapply Harmonics_single_term; eassumption.
Qed.

(** At 44100 Hz and 14700 Hz, with ten harmonics asked for. *)
Lemma harmonics_limit_and_single_term_witness :
  harmonic_limit 10 (base_samplerate 44100 44100) 14700 = Ok 1%Z
  /\ exists sv q : float,
       generator (Sine 44100 sin_poly 14700 1 0.25 0 None 44100) O = Val sv
       /\ sv = sin_poly q * 1 + 0
       /\ generator (Harmonics 44100 sin_poly 14700 10 1 0.25 0 false false None 44100) O
          = Val ((0 + sin_poly (q * 1) / 1 / 2) * 1 + 0).
Proof.
  destruct (@harmonics_limit_and_single_term 44100 sin_poly 14700 1 0.25 0 10 None 44100)
    as [_ [_ Hthird]].
  destruct (Hthird 44100%Z) as [Hn [_ Hsine]];
    [lia | vm_compute; reflexivity | vm_compute; reflexivity | lia |].
  split; [exact Hn |].
  destruct (Hsine O (sin_poly 0x1.921fb54442d18p+0 * 1 + 0)) as [q [Hq [_ [Hh _]]]].
  - vm_compute. reflexivity.
  - exists (sin_poly 0x1.921fb54442d18p+0 * 1 + 0), q.
    split; [vm_compute; reflexivity |]. split; [exact Hq | exact Hh].
Defined.

(** At 44100 Hz and a frequency of a third of that, ten harmonics are cut
    down to one; whatever the sine function, the first values of the
    default harmonics oscillator and of the sine oscillator are built from
    the same sine, halved in the former. *)
Lemma harmonics_third_of_rate (sin : float -> float) :
  harmonic_limit 10 44100 14700 = Ok 1%Z
  /\ generator (Harmonics 44100 sin 14700 10 1 0.25 0 false false None 44100) O
     = Val ((0 + sin 0x1.921fb54442d18p+0 / 1 / 2) * 1 + 0)
  /\ generator (Sine 44100 sin 14700 1 0.25 0 None 44100) O
     = Val (sin 0x1.921fb54442d18p+0 * 1 + 0).
Proof.
  split; [vm_compute; reflexivity |]. split.
  - cbn [generator Harmonics]. unfold Harmonics_generator, generator_loop.
    cbn [locals_at].
    replace (base_samplerate 44100 44100) with 44100 by (vm_compute; reflexivity).
    replace (truediv (2 * pi) 44100) with (Ok (2 * pi / 44100))
      by (vm_compute; reflexivity).
    cbn [Py.bind].
    replace (harmonic_limit 10 44100 14700) with (Ok 1%Z) by (vm_compute; reflexivity).
    cbn [Py.bind fm_turn fm_source fm_pos next_of repeat_forever t phase_correction
         freq_previous].
    cbn [harmonic_sum py_range].
    replace (py_range 1 (1 + 1) 1) with [1%Z] by reflexivity.
    cbn [fold_left].
    replace (of_Z 1) with 1 by (vm_compute; reflexivity).
    replace ((0 * (14700 * (1 + 0)) + (0.25 * 2 * pi + (14700 - 14700 * (1 + 0)) * 0)) * 1)
      with 0x1.921fb54442d18p+0 by (vm_compute; reflexivity).
    reflexivity.
  - cbn [generator Sine]. unfold generator_loop. cbn [locals_at].
    replace (base_samplerate 44100 44100) with 44100 by (vm_compute; reflexivity).
    replace (truediv (2 * pi) 44100) with (Ok (2 * pi / 44100))
      by (vm_compute; reflexivity).
    cbn [Py.bind fm_turn fm_source fm_pos next_of repeat_forever t phase_correction
         freq_previous].
    replace (0 * (14700 * (1 + 0)) + (0.25 * 2 * pi + (14700 - 14700 * (1 + 0)) * 0))
      with 0x1.921fb54442d18p+0 by (vm_compute; reflexivity).
    reflexivity.
Qed.

(** C3 as stated fails.  In the even-only mode with [num_harmonics = 0] the
    limit is 0 and one harmonic, the fundamental, is summed.  And for
    [frequency = samplerate/3] and [num_harmonics = 10] the first value of
    the harmonics oscillator differs from that of the sine oscillator with
    the same parameters as soon as the sine function is 1 at the double
    nearest to pi/2, as the C library's is: a quarter of a cycle in, the
    sine oscillator is at 1.0 and the harmonics oscillator at 0.5. *)
Lemma harmonics_counterexample :
  (harmonic_limit 0 44100 14700 = Ok 0%Z
   /\ harmonics_summed true false 0 = [1%Z])
  /\ ~ (forall sin : float -> float,
          sin 0x1.921fb54442d18p+0 = 1 ->
          generator (Harmonics 44100 sin 14700 10 1 0.25 0 false false None 44100) O
          = generator (Sine 44100 sin 14700 1 0.25 0 None 44100) O).
Proof.
  split; [split; vm_compute; reflexivity |].
  intros H. specialize (H (fun _ => 1) eq_refl).
  vm_compute in H. discriminate H.
Qed.

(** ** Comparing and converting floats *)

(** A float that is [>= 0] is a zero, plus infinity, or finite and
    positive. *)
Lemma leb_zero_nonneg (x : float) :
  (0 <=? x) = true ->
  match Prim2SF x with
  | S754_zero _ => True
  | S754_infinity s | S754_finite s _ _ => s = false
  | S754_nan => False
  end.
Proof.
  rewrite leb_spec. change (Prim2SF 0) with (S754_zero false).
  unfold SFleb, SFcompare. destruct (Prim2SF x) as [s | s | | s m e]; trivial;
    try (destruct s; trivial); discriminate.
Qed.

(** For a float that [math.floor] accepts, being below an integer and
    having the floor below that integer are the same. *)
Lemma ltb_float_int_floor (x : float) (k n : Z) :
  py_floor x = Ok k -> ltb_float_int x n = (k <? n)%Z.
Proof.
  unfold py_floor, ltb_float_int, floor_finite.
  destruct (Prim2SF x) as [s | s | | s m e]; try discriminate.
  - intros H. now injection H as <-.
  - intros H. injection H as <-.
    set (sm := if s then Z.neg m else Z.pos m).
    destruct (0 <=? e)%Z eqn:Ee.
    + apply Z.leb_le in Ee. now rewrite Z.shiftl_mul_pow2.
    + apply Z.leb_gt in Ee. rewrite Z.shiftl_div_pow2 by lia.
      assert (Hd : (0 < 2 ^ (- e))%Z) by (apply Z.pow_pos_nonneg; lia).
      destruct (sm <? n * 2 ^ (- e))%Z eqn:E1; symmetry.
      * apply Z.ltb_lt in E1. apply Z.ltb_lt.
        apply Z.div_lt_upper_bound; lia.
      * apply Z.ltb_ge in E1. apply Z.ltb_ge.
        apply Z.div_le_lower_bound; lia.
Qed.

(** On a float that is [>= 0], [int()] is [math.floor]. *)
Lemma py_int_floor_nonneg (x : float) :
  (0 <=? x) = true -> py_int x = py_floor x.
Proof.
  intros H. apply leb_zero_nonneg in H. unfold py_int, py_floor.
  destruct (Prim2SF x) as [s | s | | s m e]; trivial.
  subst s. reflexivity.
Qed.

(** ** The echo *)

Section EchoFacts.
Variable ln : float -> float.

(** [int(min(amount, l))] is [min(amount, floor(l))] for a logarithm
    [l >= 0]. *)
Lemma audible_amount_min (amount : Z) (decay l : float) (k : Z) :
  math_log ln 0.000001 decay = Ok l ->
  (0 <=? l) = true ->
  py_floor l = Ok k ->
  audible_amount ln amount decay = Ok (Z.min amount k).
Proof.
  intros Hl Hpos Hk. unfold audible_amount. rewrite Hl. cbn [Py.bind].
  rewrite (@ltb_float_int_floor l k amount Hk), (@py_int_floor_nonneg l Hpos), Hk.
  destruct (k <? amount)%Z eqn:E.
  - apply Z.ltb_lt in E. f_equal. lia.
  - apply Z.ltb_ge in E. f_equal. lia.
Qed.

(** C4.  For [decay < 1] whose logarithm [log(0.000001, decay)] is computed
    and is not negative, as it is for [0 < decay < 1], the echo is built with
    [min(amount, floor(log(0.000001, decay)))] taps; for a decay that is not
    below 1 it is built with [amount] taps. *)
Theorem echo_amount_capped
    (norm_samplerate : float) (oscillator : OscillatorBase)
    (after : float) (amount : Z) (delay decay : float) :
  (forall (l : float) (k : Z),
      (decay <? 1) = true ->
      math_log ln 0.000001 decay = Ok l ->
      (0 <=? l) = true ->
      py_floor l = Ok k ->
      exists echo : EchoingOscillator,
        EchoingOscillator_init ln norm_samplerate oscillator after amount delay decay
          = Ok echo
        /\ _amount echo = Z.min amount k
        /\ _decay echo = decay /\ _delay echo = delay /\ _after echo = after)
  /\ ((decay <? 1) = false ->
      exists echo : EchoingOscillator,
        EchoingOscillator_init ln norm_samplerate oscillator after amount delay decay
          = Ok echo
        /\ _amount echo = amount
        /\ _decay echo = decay /\ _delay echo = delay /\ _after echo = after).
Proof.
  split.
  - intros l k Hd Hl Hpos Hk. unfold EchoingOscillator_init. rewrite Hd.
    rewrite (@audible_amount_min amount decay l k Hl Hpos Hk). cbn [Py.bind].
    eexists. split; [reflexivity |]. cbn. repeat split.
  - intros Hd. unfold EchoingOscillator_init. rewrite Hd. cbn [Py.bind].
    eexists. split; [reflexivity |]. cbn. repeat split.
Qed.
End EchoFacts.

Lemma echo_amount_capped_witness :
  exists echo : EchoingOscillator,
    EchoingOscillator_init ln_at_echo 44100 (Linear 44100 0 0 (-1) 1 44100) 0 100 0.1 0.5
      = Ok echo
    /\ _amount echo = Z.min 100 19
    /\ _decay echo = 0.5 /\ _delay echo = 0.1 /\ _after echo = 0.
Proof.
  destruct (@echo_amount_capped ln_at_echo 44100 (Linear 44100 0 0 (-1) 1 44100)
              0 100%Z 0.1 0.5) as [Hcap _].
  apply (Hcap 0x1.3ee7b471b3a95p+4 19%Z); vm_compute; reflexivity.
Defined.

(** With [decay = 0.5] the logarithm is 19.93...: a hundred taps are cut
    down to 19, ten taps stay ten; a decay of 2 leaves a hundred taps;
    a negative decay is a domain error of the logarithm. *)
Example echo_amount_examples :
  let osc := Linear 44100 0 0 (-1) 1 44100 in
  (math_log ln_at_echo 0.000001 0.5,
   audible_amount ln_at_echo 100 0.5,
   audible_amount ln_at_echo 10 0.5)
  = (Ok 0x1.3ee7b471b3a95p+4, Ok 19%Z, Ok 10%Z)
  /\ (exists echo, EchoingOscillator_init ln_at_echo 44100 osc 0 100 0.1 2 = Ok echo
                   /\ _amount echo = 100%Z)
  /\ EchoingOscillator_init ln_at_echo 44100 osc 0 100 0.1 (-0.5) = Raise ValueError.
Proof.
  split; [vm_compute; reflexivity |].
  split; [eexists; split; [vm_compute; reflexivity | reflexivity] |].
  vm_compute. reflexivity.
Qed.

(** ** [delay] *)

Lemma for_range_yield (v : float) (n : nat) (st : Gen.state) :
  for_range n (Gen.yield v) st
  = (Gen.Done tt, {| Gen.src := Gen.src st; Gen.out := Gen.out st ++ repeat v n |}).
Proof.
  revert st. induction n as [| n IH]; intros st; cbn [for_range repeat].
  - unfold Gen.ret. rewrite app_nil_r. now destruct st.
  - unfold Gen.bind at 1. unfold Gen.yield at 1. rewrite IH. cbn [Gen.src Gen.out].
    now rewrite <- app_assoc.
Qed.

(** Relaying an iterator that has [fuel] more values yields them, in order
    and unchanged. *)
Lemma relay_values (s : stream float) :
  forall (fuel pos : nat) (st : Gen.state),
    (forall i : nat, (i < fuel)%nat -> exists v : float, s (pos + i)%nat = Val v) ->
    relay fuel (Iter s pos) st
    = (Gen.Starved,
       {| Gen.src := Gen.src st; Gen.out := Gen.out st ++ stream_values s pos fuel |}).
Proof.
  induction fuel as [| fuel IH]; intros pos st H; cbn [relay].
  - unfold Gen.starved, stream_values. cbn. rewrite app_nil_r. now destruct st.
  - destruct (H O ltac:(lia)) as [v Hv]. rewrite Nat.add_0_r in Hv.
    cbn [py_next]. unfold next_of. rewrite Hv.
    unfold Gen.bind, Gen.yield. rewrite IH.
    + cbn [Gen.src Gen.out]. unfold stream_values. cbn [seq map]. rewrite Hv.
      now rewrite <- app_assoc.
    + intros i Hi. destruct (H (S i) ltac:(lia)) as [w Hw].
      exists w. now rewrite Nat.add_succ_r in Hw.
Qed.

(** Relaying an iterator that ends after [m] values yields these and
    returns. *)
Lemma relay_finite (s : stream float) :
  forall (m fuel pos : nat) (st : Gen.state),
    (m < fuel)%nat ->
    (forall i : nat, (i < m)%nat -> exists v : float, s (pos + i)%nat = Val v) ->
    s (pos + m)%nat = Stop ->
    relay fuel (Iter s pos) st
    = (Gen.Done tt,
       {| Gen.src := Gen.src st; Gen.out := Gen.out st ++ stream_values s pos m |}).
Proof.
  induction m as [| m IH]; intros fuel pos st Hf H Hstop;
    (destruct fuel as [| fuel]; [lia |]); cbn [relay py_next]; unfold next_of.
  - rewrite Nat.add_0_r in Hstop. rewrite Hstop. unfold Gen.ret, stream_values. cbn.
    rewrite app_nil_r. now destruct st.
  - destruct (H O ltac:(lia)) as [v Hv]. rewrite Nat.add_0_r in Hv. rewrite Hv.
    unfold Gen.bind, Gen.yield. rewrite IH.
    + cbn [Gen.src Gen.out]. unfold stream_values. cbn [seq map]. rewrite Hv.
      now rewrite <- app_assoc.
    + lia.
    + intros i Hi. destruct (H (S i) ltac:(lia)) as [w Hw].
      exists w. now rewrite Nat.add_succ_r in Hw.
    + now rewrite Nat.add_succ_r in Hstop.
Qed.

(** A delay that is not negative: [int(samplerate*seconds)] zeros, then the
    values of the oscillator from its first one on. *)
Lemma delay_nonnegative (self : OscillatorBase) (seconds : float) (n : Z) (fuel : nat) :
  (seconds <? 0) = false ->
  py_int (samplerate self * seconds) = Ok n ->
  (forall i : nat, (i < fuel)%nat -> exists v : float, generator self i = Val v) ->
  delay self seconds fuel
  = (Gen.Starved,
     {| Gen.src := Osc self;
        Gen.out := repeat 0 (Z.to_nat n) ++ stream_values (generator self) O fuel |}).
Proof.
  intros Hs Hn Hvals. unfold delay, Gen.run, delayfunc. rewrite Hs.
  unfold Gen.bind at 1. unfold Gen.bind at 1. rewrite Hn. cbn [Gen.lift].
  rewrite for_range_yield. cbn [Gen.src Gen.out app].
  unfold yield_from. cbn [Gen.src py_iter]. now rewrite relay_values.
Qed.

(** A negative delay whose length rounds to no sample relays the
    oscillator as it is. *)
Lemma delay_negative_short (self : OscillatorBase) (seconds : float) (n : Z) (fuel : nat) :
  (seconds <? 0) = true ->
  py_int (- samplerate self * seconds) = Ok n ->
  (n <= 0)%Z ->
  (forall i : nat, (i < fuel)%nat -> exists v : float, generator self i = Val v) ->
  delay self seconds fuel
  = (Gen.Starved,
     {| Gen.src := Osc self; Gen.out := stream_values (generator self) O fuel |}).
Proof.
  intros Hs Hn Hle Hvals. unfold delay, Gen.run, delayfunc. rewrite Hs.
  unfold Gen.bind at 1. unfold Gen.bind at 1. rewrite Hn. cbn [Gen.lift].
  replace (Z.to_nat n) with O by lia. cbn [for_range]. unfold Gen.ret.
  unfold yield_from. cbn [Gen.src py_iter]. now rewrite relay_values.
Qed.

(** A negative delay of at least one sample: the first [next(oscillator)]
    is applied to the oscillator object, which is no iterator, and raises
    [TypeError] before anything is yielded. *)
Lemma delay_negative_type_error (self : OscillatorBase) (seconds : float) (n : Z)
    (fuel : nat) :
  (seconds <? 0) = true ->
  py_int (- samplerate self * seconds) = Ok n ->
  (0 < n)%Z ->
  delay self seconds fuel
  = (Gen.Throw TypeError, {| Gen.src := Osc self; Gen.out := [] |}).
Proof.
  intros Hs Hn Hlt. unfold delay, Gen.run, delayfunc. rewrite Hs.
  unfold Gen.bind at 1. unfold Gen.bind at 1. rewrite Hn. cbn [Gen.lift].
  destruct (Z.to_nat n) as [| m] eqn:E; [lia |]. reflexivity.
Qed.

(** C5, at the input where the code departs from it.  The 8 Hz ramp 0,
    0.125, 0.25, ... delayed by half a second starts with 4 zeros and goes on
    with the ramp; skipped ahead by half a second it should go on from 0.5,
    but the first [next()] raises [TypeError]. *)
Theorem delay_skip_ahead_raises :
  let ramp := Linear 44100 0 0.125 (-1) 1 8 in
  delay ramp 0.5 6
  = (Gen.Starved,
     {| Gen.src := Osc ramp;
        Gen.out := [0; 0; 0; 0; 0; 0.125; 0.25; 0.375; 0.5; 0.625] |})
  /\ py_int (- samplerate ramp * -0.5) = Ok 4%Z
  /\ delay ramp (-0.5) 6 = (Gen.Throw TypeError, {| Gen.src := Osc ramp; Gen.out := [] |}).
Proof.
  split; [vm_compute; reflexivity |]. split; vm_compute; reflexivity.
Qed.

(** ** The envelope *)

(** A number that is false is a zero. *)
Lemma falsy_zero (z : float) :
  truthy z = false -> exists s : bool, Prim2SF z = S754_zero s.
Proof.
  unfold truthy. rewrite eqb_spec. change (Prim2SF 0) with (S754_zero false).
  unfold SFeqb, SFcompare.
  destruct (Prim2SF z) as [s | s | | s m e]; try (destruct s); try discriminate;
    intros _; eexists; reflexivity.
Qed.

(** Adding a zero to the bound of a comparison does not change it. *)
Lemma ltb_add_falsy (x y z : float) :
  truthy z = false -> (x <? y + z) = (x <? y).
Proof.
  intros Hz. destruct (falsy_zero _ Hz) as [s Es].
  rewrite !ltb_spec, add_spec, Es. unfold SF64add, SFadd, SFltb.
  destruct (Prim2SF y) as [sy | sy | | sy my ey]; trivial.
  destruct sy, s; destruct (Prim2SF x) as [sx | sx | | sx mx ex]; reflexivity.
Qed.

(** Nothing is below a zero that is not below zero: 0 is not. *)
Lemma ltb_zero_falsy (z : float) : truthy z = false -> (0 <? z) = false.
Proof.
  intros Hz. destruct (falsy_zero _ Hz) as [s Es].
  rewrite ltb_spec, Es. reflexivity.
Qed.

(** The ramp loop and the sustain loop are left only with [time] at or
    past their bound, whatever the source does. *)
Lemma ramp_while_done (limit amp_change increment : float) :
  forall (fuel : nat) (amp time : float) (st st' : Gen.state) (a t' : float),
    ramp_while fuel limit amp_change increment amp time st = (Gen.Done (a, t'), st') ->
    (t' <? limit) = false.
Proof.
  induction fuel as [| fuel IH]; intros amp time st st' a t'; cbn [ramp_while];
    destruct (time <? limit) eqn:E; unfold Gen.ret, Gen.starved;
    try discriminate; try (intros H; injection H as _ <- _; exact E).
  unfold Gen.bind. destruct (emit amp st) as [[[] | e |] st1]; try discriminate.
  apply IH.
Qed.

Lemma hold_while_done (limit level increment : float) :
  forall (fuel : nat) (time : float) (st st' : Gen.state) (t' : float),
    hold_while fuel limit level increment time st = (Gen.Done t', st') ->
    (t' <? limit) = false.
Proof.
  induction fuel as [| fuel IH]; intros time st st' t'; cbn [hold_while];
    destruct (time <? limit) eqn:E; unfold Gen.ret, Gen.starved;
    try discriminate; try (intros H; injection H as <- _; exact E).
  unfold Gen.bind. destruct (emit level st) as [[[] | e |] st1]; try discriminate.
  apply IH.
Qed.

(** A loop entered with [time] at or past its bound does nothing. *)
Lemma hold_while_skip (fuel : nat) (limit level increment time : float)
    (st : Gen.state) :
  (time <? limit) = false ->
  hold_while fuel limit level increment time st = (Gen.Done time, st).
Proof.
  intros H. destruct fuel; cbn [hold_while]; rewrite H; reflexivity.
Qed.

(** What follows the release when the envelope does not stop at its end:
    zeros, for as long as the generator is asked, and nothing is pulled. *)
Lemma silence_zeros (fuel : nat) :
  forall st : Gen.state,
    silence fuel st
    = (Gen.Starved, {| Gen.src := Gen.src st; Gen.out := Gen.out st ++ repeat 0 fuel |}).
Proof.
  induction fuel as [| fuel IH]; intros [src out]; cbn [silence repeat Gen.src Gen.out].
  - unfold Gen.starved. now rewrite app_nil_r.
  - unfold Gen.bind, Gen.yield. cbn [Gen.src Gen.out]. rewrite IH.
    cbn [Gen.src Gen.out]. now rewrite <- app_assoc.
Qed.

(** The time that [ramp_end] gives is at or past the bound of the loop, and
    the sustain loop has no turns when it is entered there. *)
Lemma ramp_end_done (limit amp_change increment : float) :
  forall (fuel : nat) (amp time a t' : float),
    ramp_end fuel limit amp_change increment amp time = Some (a, t') ->
    (t' <? limit) = false.
Proof.
  induction fuel as [| fuel IH]; intros amp time a t'; cbn [ramp_end];
    destruct (time <? limit) eqn:E;
    try discriminate; try (intros H; injection H as _ <-; exact E).
  apply IH.
Qed.

Lemma hold_count_skip (fuel : nat) (limit increment time : float) :
  (time <? limit) = false -> hold_count fuel limit increment time = O.
Proof. intros H. destruct fuel; cbn [hold_count]; rewrite H; reflexivity. Qed.

(** In a pass, a segment whose duration is zero has no gains: the attack,
    the decay and the release by their [if], the sustain because [time] has
    reached the end of the decay when the decay segment is left. *)
Lemma pass_segments_skipped (attack decay sustain sustain_level release : float)
    (fuel : nat) (increment : float) (g1 g2 g3 g4 : list float) :
  pass_segments attack decay sustain sustain_level release fuel increment
  = (g1, g2, g3, g4) ->
  (truthy attack = false -> g1 = [])
  /\ (truthy decay = false -> g2 = [])
  /\ (truthy sustain = false -> g3 = [])
  /\ (truthy release = false -> g4 = []).
Proof.
  unfold pass_segments.
  assert (H1 : truthy attack = false -> attack_gains attack fuel increment 0 = [])
    by (intros H; unfold attack_gains; now rewrite H).
  assert (H2 : forall t : float,
             truthy decay = false ->
             decay_gains attack decay sustain_level fuel increment t = [])
    by (intros t H; unfold decay_gains; now rewrite H).
  assert (H4 : forall t : float,
             truthy release = false ->
             release_gains attack decay sustain sustain_level release fuel increment t = [])
    by (intros t H; unfold release_gains; now rewrite H).
  destruct (attack_end attack fuel increment 0) as [t1 |] eqn:E1.
  2: { intros H. injection H as <- <- <- <-. repeat split; auto. }
  destruct (decay_end attack decay sustain_level fuel increment t1) as [t2 |] eqn:E2.
  2: { intros H. injection H as <- <- <- <-. repeat split; auto. }
  assert (H3 : truthy sustain = false ->
               sustain_gains attack decay sustain sustain_level fuel increment t2 = []).
  { intros Hs. unfold sustain_gains. rewrite hold_count_skip; [reflexivity |].
    unfold end_time_sustain. rewrite (@ltb_add_falsy _ _ _ Hs).
    assert (Ha : (t1 <? attack) = false).
    { revert E1. unfold attack_end. destruct (truthy attack) eqn:Ha.
      - destruct (ramp_end fuel attack (1 / attack * increment) increment 0 0)
          as [[a t] |] eqn:Er; cbn [option_map snd]; try discriminate.
        intros H. injection H as <-. eapply ramp_end_done; exact Er.
      - intros H. injection H as <-. now apply ltb_zero_falsy. }
    revert E2. unfold decay_end. destruct (truthy decay) eqn:Hd.
    - destruct (ramp_end fuel (end_time_decay attack decay)
                  ((sustain_level - 1) / decay * increment) increment 1 t1)
        as [[a t] |] eqn:Er; cbn [option_map snd]; try discriminate.
      intros H. injection H as <-. eapply ramp_end_done; exact Er.
    - intros H. injection H as <-. unfold end_time_decay.
      now rewrite (@ltb_add_falsy _ _ _ Hd). }
  destruct (sustain_end attack decay sustain fuel increment t2) as [t3 |];
    intros H; injection H as <- <- <- <-; repeat split; auto.
Qed.

Section EnvelopeFacts.
Variables self_samplerate attack decay sustain sustain_level release : float.

Local Abbreviation attack_seg := (attack_segment attack).
Local Abbreviation decay_seg := (decay_segment attack decay sustain_level).
Local Abbreviation sustain_seg := (sustain_segment attack decay sustain sustain_level).
Local Abbreviation release_seg := (release_segment attack decay sustain sustain_level release).
Local Abbreviation etd := (end_time_decay attack decay).
Local Abbreviation ets := (end_time_sustain attack decay sustain).

(** *** Segments of zero duration *)

Lemma attack_skipped (fuel : nat) (increment time : float) (st : Gen.state) :
  truthy attack = false -> attack_seg fuel increment time st = (Gen.Done time, st).
Proof. intros H. unfold attack_segment. now rewrite H. Qed.

Lemma decay_skipped (fuel : nat) (increment time : float) (st : Gen.state) :
  truthy decay = false -> decay_seg fuel increment time st = (Gen.Done time, st).
Proof. intros H. unfold decay_segment. now rewrite H. Qed.

Lemma release_skipped (fuel : nat) (increment time : float) (st : Gen.state) :
  truthy release = false -> release_seg fuel increment time st = (Gen.Done time, st).
Proof. intros H. unfold release_segment. now rewrite H. Qed.

(** When the attack segment is left, [time] is at or past [attack], or
    still 0 when the segment was skipped. *)
Lemma attack_done (fuel : nat) (increment : float) (st st' : Gen.state) (t' : float) :
  attack_seg fuel increment 0 st = (Gen.Done t', st') ->
  (t' <? attack) = false.
Proof.
  unfold attack_segment. destruct (truthy attack) eqn:Ha.
  - rewrite (@truediv_truthy _ _ Ha). unfold Gen.bind, Gen.lift.
    match goal with
    | |- context [ramp_while ?f ?l ?c ?i ?a ?t st] =>
        destruct (ramp_while f l c i a t st) as [[[a1 t1] | e |] st1] eqn:Er
    end; try discriminate.
    unfold Gen.ret. intros H. injection H as <- _.
    eapply ramp_while_done; exact Er.
  - unfold Gen.ret. intros H. injection H as <- _. now apply ltb_zero_falsy.
Qed.

(** When the decay segment is left after the attack segment, [time] is at or
    past the end of the decay. *)
Lemma decay_done (fuel : nat) (increment : float) (st st' : Gen.state) (t' : float) :
  (time <- attack_seg fuel increment 0 ;; decay_seg fuel increment time)%gen st
    = (Gen.Done t', st') ->
  (t' <? etd) = false.
Proof.
  unfold Gen.bind at 1.
  destruct (attack_seg fuel increment 0 st) as [[ta | e |] st1] eqn:Ea; try discriminate.
  unfold decay_segment. destruct (truthy decay) eqn:Hd.
  - rewrite (@truediv_truthy _ _ Hd). unfold Gen.bind, Gen.lift.
    match goal with
    | |- context [ramp_while ?f ?l ?c ?i ?a ?t st1] =>
        destruct (ramp_while f l c i a t st1) as [[[a1 t1] | e |] st2] eqn:Er
    end; try discriminate.
    unfold Gen.ret. intros H. injection H as <- _.
    eapply ramp_while_done; exact Er.
  - unfold Gen.ret. intros H. injection H as <- _.
    unfold end_time_decay. rewrite (@ltb_add_falsy _ _ _ Hd).
    eapply attack_done; exact Ea.
Qed.

(** A sustain of zero duration is skipped: where the pass has got to after
    the attack and the decay segment, the sustain segment yields nothing
    and pulls nothing. *)
Lemma sustain_skipped (fuel : nat) (increment : float) (st st' : Gen.state) (t' : float) :
  truthy sustain = false ->
  (time <- attack_seg fuel increment 0 ;; decay_seg fuel increment time)%gen st
    = (Gen.Done t', st') ->
  sustain_seg fuel increment t' st' = (Gen.Done t', st').
Proof.
  intros Hs H. unfold sustain_segment. apply hold_while_skip.
  unfold end_time_sustain. rewrite (@ltb_add_falsy _ _ _ Hs).
  eapply decay_done; exact H.
Qed.
(** *** Segments on a source that always has a next value *)

Variable s : stream float.
Hypothesis s_total : forall i : nat, exists v : float, s i = Val v.

Local Abbreviation value pos := (match s pos with Val v => v | _ => 0 end).

Lemma emit_total (amp : float) (pos : nat) (out : list float) :
  emit amp {| Gen.src := Iter s pos; Gen.out := out |}
  = (Gen.Done tt, {| Gen.src := Iter s (S pos); Gen.out := out ++ [value pos * amp] |}).
Proof.
  unfold emit, Gen.bind, Gen.next_src. cbn [Gen.src Gen.out py_next]. unfold next_of.
  destruct (s_total pos) as [v Hv]. rewrite Hv. reflexivity.
Qed.

Lemma scaled_app (gains gains' : list float) :
  forall pos : nat,
    scaled s pos (gains ++ gains')
    = scaled s pos gains ++ scaled s (pos + length gains) gains'.
Proof.
  induction gains as [| g gains IH]; intros pos; cbn [scaled app length].
  - now rewrite Nat.add_0_r.
  - rewrite IH. now rewrite Nat.add_succ_r.
Qed.

Lemma scaled_length (gains : list float) :
  forall pos : nat, length (scaled s pos gains) = length gains.
Proof.
  induction gains as [| g gains IH]; intros pos; cbn [scaled length];
    [reflexivity | now rewrite IH].
Qed.

(** The ramp loop pulls one value a turn and yields it times the gain of
    the turn. *)
Lemma ramp_while_total (limit amp_change increment : float) :
  forall (fuel : nat) (amp time : float) (pos : nat) (out : list float),
    let gains := ramp_gains fuel limit amp_change increment amp time in
    ramp_while fuel limit amp_change increment amp time
      {| Gen.src := Iter s pos; Gen.out := out |}
    = (match ramp_end fuel limit amp_change increment amp time with
       | Some r => Gen.Done r
       | None => Gen.Starved
       end,
       {| Gen.src := Iter s (pos + length gains); Gen.out := out ++ scaled s pos gains |}).
Proof.
  induction fuel as [| fuel IH]; intros amp time pos out;
    cbn [ramp_while ramp_gains ramp_end]; destruct (time <? limit);
    cbn zeta; cbn [length scaled]; unfold Gen.ret, Gen.starved;
    rewrite ?Nat.add_0_r, ?app_nil_r; try reflexivity.
  unfold Gen.bind. rewrite emit_total, IH. cbn zeta.
  rewrite <- app_assoc, Nat.add_succ_r. reflexivity.
Qed.

(** So does the sustain loop, at the gain [level]. *)
Lemma hold_while_total (limit level increment : float) :
  forall (fuel : nat) (time : float) (pos : nat) (out : list float),
    let gains := repeat level (hold_count fuel limit increment time) in
    hold_while fuel limit level increment time
      {| Gen.src := Iter s pos; Gen.out := out |}
    = (match hold_end fuel limit increment time with
       | Some t' => Gen.Done t'
       | None => Gen.Starved
       end,
       {| Gen.src := Iter s (pos + length gains); Gen.out := out ++ scaled s pos gains |}).
Proof.
  induction fuel as [| fuel IH]; intros time pos out;
    cbn [hold_while hold_count hold_end]; destruct (time <? limit);
    cbn zeta; cbn [repeat length scaled]; unfold Gen.ret, Gen.starved;
    rewrite ?Nat.add_0_r, ?app_nil_r; try reflexivity.
  unfold Gen.bind. rewrite emit_total, IH. cbn zeta.
  rewrite <- app_assoc, Nat.add_succ_r. reflexivity.
Qed.

(** *** A pass, and the outer loop, on such a source *)

Lemma runs_ret (A : Type) (a : A) : runs_as s (Gen.ret a) (Gen.Done a) [].
Proof.
  intros pos out. unfold Gen.ret. cbn [length scaled].
  now rewrite Nat.add_0_r, app_nil_r.
Qed.

Lemma runs_bind (A B : Type) (g : Gen.gen A) (k : A -> Gen.gen B) (o : option A)
    (gains : list float) (r : A -> Gen.status B) (gains' : A -> list float) :
  runs_as s g (match o with Some a => Gen.Done a | None => Gen.Starved end) gains ->
  (forall a : A, o = Some a -> runs_as s (k a) (r a) (gains' a)) ->
  runs_as s (Gen.bind g k)
    (match o with Some a => r a | None => Gen.Starved end)
    (gains ++ match o with Some a => gains' a | None => [] end).
Proof.
  intros Hg Hk pos out. unfold Gen.bind. rewrite Hg. destruct o as [a |].
  - rewrite (Hk a eq_refl). now rewrite scaled_app, length_app, Nat.add_assoc, app_assoc.
  - now rewrite app_nil_r.
Qed.

Lemma attack_runs (fuel : nat) (increment time : float) :
  runs_as s (attack_seg fuel increment time)
    (match attack_end attack fuel increment time with
     | Some t' => Gen.Done t'
     | None => Gen.Starved
     end)
    (attack_gains attack fuel increment time).
Proof.
  unfold attack_segment, attack_end, attack_gains. destruct (truthy attack) eqn:Ha;
    [| apply runs_ret].
  rewrite (@truediv_truthy _ _ Ha). intros pos out. unfold Gen.bind, Gen.lift.
  rewrite ramp_while_total. cbn zeta.
  destruct (ramp_end fuel attack (1 / attack * increment) increment 0 time) as [[a t'] |];
    reflexivity.
Qed.

Lemma decay_runs (fuel : nat) (increment time : float) :
  runs_as s (decay_seg fuel increment time)
    (match decay_end attack decay sustain_level fuel increment time with
     | Some t' => Gen.Done t'
     | None => Gen.Starved
     end)
    (decay_gains attack decay sustain_level fuel increment time).
Proof.
  unfold decay_segment, decay_end, decay_gains. destruct (truthy decay) eqn:Hd;
    [| apply runs_ret].
  rewrite (@truediv_truthy _ _ Hd). intros pos out. unfold Gen.bind, Gen.lift.
  rewrite ramp_while_total. cbn zeta.
  destruct (ramp_end fuel etd ((sustain_level - 1) / decay * increment) increment 1 time)
    as [[a t'] |]; reflexivity.
Qed.

Lemma sustain_runs (fuel : nat) (increment time : float) :
  runs_as s (sustain_seg fuel increment time)
    (match sustain_end attack decay sustain fuel increment time with
     | Some t' => Gen.Done t'
     | None => Gen.Starved
     end)
    (sustain_gains attack decay sustain sustain_level fuel increment time).
Proof.
  unfold sustain_segment, sustain_end, sustain_gains. intros pos out.
  now rewrite hold_while_total.
Qed.

Lemma release_runs (fuel : nat) (increment time : float) :
  runs_as s (release_seg fuel increment time)
    (match release_end attack decay sustain sustain_level release fuel increment time with
     | Some t' => Gen.Done t'
     | None => Gen.Starved
     end)
    (release_gains attack decay sustain sustain_level release fuel increment time).
Proof.
  unfold release_segment, release_end, release_gains. destruct (truthy release) eqn:Hr;
    [| apply runs_ret].
  rewrite (@truediv_truthy _ _ Hr). intros pos out. unfold Gen.bind, Gen.lift.
  rewrite ramp_while_total. cbn zeta.
  rewrite scaled_app, length_app, Nat.add_assoc, app_assoc.
  match goal with
  | |- context [ramp_end ?f ?l ?c ?i ?a ?t] =>
      destruct (ramp_end f l c i a t) as [[a1 t1] |]
  end; cbn [option_map snd].
  - destruct (0 <? a1).
    + rewrite emit_total. unfold Gen.ret. cbn [length scaled].
      now rewrite Nat.add_1_r.
    + unfold Gen.ret. cbn [length scaled]. now rewrite Nat.add_0_r, app_nil_r.
  - cbn [length scaled]. now rewrite Nat.add_0_r, app_nil_r.
Qed.

(** A pass yields the values it pulls times the gains of its four segments,
    one after the other, and ends when the last of them does; it does not
    raise: the divisions by [attack], [decay] and [release] are made only
    when these are not zero, and [self.samplerate] is not zero. *)
Lemma adsr_pass_runs (fuel : nat) :
  truthy self_samplerate = true ->
  runs_as s (adsr_pass self_samplerate attack decay sustain sustain_level release fuel)
    (if pass_done attack decay sustain sustain_level release fuel (1 / self_samplerate)
     then Gen.Done tt else Gen.Starved)
    (pass_gains attack decay sustain sustain_level release fuel (1 / self_samplerate)).
Proof.
  intros Hrate pos out. unfold adsr_pass. rewrite (@truediv_truthy _ _ Hrate).
  unfold Gen.bind at 1, Gen.lift.
  unfold pass_done, pass_gains, pass_segments.
  unfold Gen.bind at 1. rewrite attack_runs.
  destruct (attack_end attack fuel (1 / self_samplerate) 0) as [t1 |];
    [| now rewrite !app_nil_r].
  unfold Gen.bind at 1. rewrite decay_runs.
  destruct (decay_end attack decay sustain_level fuel (1 / self_samplerate) t1) as [t2 |];
    [| now rewrite !app_nil_r, scaled_app, length_app, Nat.add_assoc, app_assoc].
  unfold Gen.bind at 1. rewrite sustain_runs.
  destruct (sustain_end attack decay sustain fuel (1 / self_samplerate) t2) as [t3 |];
    [| now rewrite !app_nil_r, !scaled_app, !length_app, !Nat.add_assoc, !app_assoc].
  unfold Gen.bind at 1. rewrite release_runs.
  rewrite !scaled_app, !length_app, !Nat.add_assoc, !app_assoc.
  destruct (release_end attack decay sustain sustain_level release fuel
              (1 / self_samplerate) t3); reflexivity.
Qed.

(** The outer loop makes one pass after the other for as long as the
    envelope cycles, and one pass when it does not. *)
Lemma passes_runs (cycle : bool) (fuel : nat) :
  truthy self_samplerate = true ->
  forall n : nat,
    runs_as s (passes self_samplerate attack decay sustain sustain_level release cycle fuel n)
      (if passes_done attack decay sustain sustain_level release cycle fuel
            (1 / self_samplerate) n
       then Gen.Done tt else Gen.Starved)
      (passes_gains attack decay sustain sustain_level release cycle fuel
         (1 / self_samplerate) n).
Proof.
  intros Hrate. induction n as [| n IH]; intros pos out;
    cbn [passes passes_gains passes_done].
  - unfold Gen.starved. cbn [length scaled]. now rewrite Nat.add_0_r, app_nil_r.
  - unfold Gen.bind. rewrite (@adsr_pass_runs fuel Hrate).
    destruct (pass_done attack decay sustain sustain_level release fuel
                (1 / self_samplerate)); cbn [andb negb];
      [| now rewrite app_nil_r].
    destruct cycle; cbn [negb].
    + rewrite IH. rewrite scaled_app, length_app, Nat.add_assoc, app_assoc.
      destruct n; cbn [passes_done]; [reflexivity |].
      now rewrite Bool.andb_false_r.
    + unfold Gen.ret. now rewrite app_nil_r.
Qed.

(** The wrapper: it takes the iterator of what it is given, makes the
    passes, and then stops or yields zeros. *)
Lemma envelope_wrapper_runs (stop_at_end cycle : bool) (oscillator : pyobj)
    (pos fuel : nat) :
  truthy self_samplerate = true ->
  py_iter oscillator = Iter s pos ->
  Gen.run (envelope_wrapper self_samplerate attack decay sustain sustain_level release
             stop_at_end cycle fuel) oscillator
  = (if passes_done attack decay sustain sustain_level release cycle fuel
          (1 / self_samplerate) fuel && stop_at_end
     then Gen.Done tt else Gen.Starved,
     {| Gen.src :=
          Iter s (pos + length (passes_gains attack decay sustain sustain_level release
                                  cycle fuel (1 / self_samplerate) fuel));
        Gen.out :=
          scaled s pos (passes_gains attack decay sustain sustain_level release
                          cycle fuel (1 / self_samplerate) fuel)
          ++ (if passes_done attack decay sustain sustain_level release cycle fuel
                   (1 / self_samplerate) fuel && negb stop_at_end
              then repeat 0 fuel else []) |}).
Proof.
  intros Hrate Hiter. unfold Gen.run, envelope_wrapper.
  unfold Gen.bind at 1, Gen.rebind_iter. cbn [Gen.src Gen.out]. rewrite Hiter.
  unfold Gen.bind. rewrite (@passes_runs cycle fuel Hrate). cbn [app].
  destruct (passes_done attack decay sustain sustain_level release cycle fuel
              (1 / self_samplerate) fuel); cbn [andb];
    [| now rewrite app_nil_r].
  destruct stop_at_end; cbn [negb].
  - unfold Gen.ret. now rewrite app_nil_r.
  - now rewrite silence_zeros.
Qed.
End EnvelopeFacts.

(** C2.  The envelope over a source that always has a next value, at a
    sample rate that is not zero.  A segment whose duration is zero is
    skipped: it leaves the generator as it was (the sustain segment where
    the pass has got to after attack and decay), and in a pass it has no
    gains.  Every segment, every pass, the outer loop and the wrapper pull
    the source once for each value they yield, each value being the pulled
    one times the gain of the turn, and end by leaving their loop or by
    being asked for no more: they do not raise, so nothing is divided by
    zero.  The gains of a pass are those of its attack, decay, sustain and
    release segment in this order, each segment taking [time] from the one
    before it; after the passes the wrapper stops or yields zeros without
    pulling. *)
Theorem envelope_segments
    (self_samplerate attack decay sustain sustain_level release : float)
    (stop_at_end cycle : bool) (s : stream float) :
  truthy self_samplerate = true ->
  (forall i : nat, exists v : float, s i = Val v) ->
  (forall (fuel : nat) (increment time : float) (st : Gen.state),
      (truthy attack = false ->
       attack_segment attack fuel increment time st = (Gen.Done time, st))
      /\ (truthy decay = false ->
          decay_segment attack decay sustain_level fuel increment time st
          = (Gen.Done time, st))
      /\ (truthy release = false ->
          release_segment attack decay sustain sustain_level release fuel increment time st
          = (Gen.Done time, st)))
  /\ (truthy sustain = false ->
      forall (fuel : nat) (increment : float) (st st' : Gen.state) (t' : float),
        (time <- attack_segment attack fuel increment 0 ;;
         decay_segment attack decay sustain_level fuel increment time)%gen st
        = (Gen.Done t', st') ->
        sustain_segment attack decay sustain sustain_level fuel increment t' st'
        = (Gen.Done t', st'))
  /\ (forall (fuel : nat) (increment : float) (g1 g2 g3 g4 : list float),
        pass_segments attack decay sustain sustain_level release fuel increment
        = (g1, g2, g3, g4) ->
        (truthy attack = false -> g1 = [])
        /\ (truthy decay = false -> g2 = [])
        /\ (truthy sustain = false -> g3 = [])
        /\ (truthy release = false -> g4 = []))
  /\ (forall (fuel : nat) (increment time : float),
        runs_as s (attack_segment attack fuel increment time)
          (match attack_end attack fuel increment time with
           | Some t' => Gen.Done t'
           | None => Gen.Starved
           end)
          (attack_gains attack fuel increment time)
        /\ runs_as s (decay_segment attack decay sustain_level fuel increment time)
             (match decay_end attack decay sustain_level fuel increment time with
              | Some t' => Gen.Done t'
              | None => Gen.Starved
              end)
             (decay_gains attack decay sustain_level fuel increment time)
        /\ runs_as s (sustain_segment attack decay sustain sustain_level fuel increment time)
             (match sustain_end attack decay sustain fuel increment time with
              | Some t' => Gen.Done t'
              | None => Gen.Starved
              end)
             (sustain_gains attack decay sustain sustain_level fuel increment time)
        /\ runs_as s
             (release_segment attack decay sustain sustain_level release fuel increment time)
             (match release_end attack decay sustain sustain_level release
                      fuel increment time with
              | Some t' => Gen.Done t'
              | None => Gen.Starved
              end)
             (release_gains attack decay sustain sustain_level release fuel increment time))
  /\ (forall fuel : nat,
        runs_as s
          (adsr_pass self_samplerate attack decay sustain sustain_level release fuel)
          (if pass_done attack decay sustain sustain_level release fuel
                (1 / self_samplerate)
           then Gen.Done tt else Gen.Starved)
          (pass_gains attack decay sustain sustain_level release fuel
             (1 / self_samplerate)))
  /\ (forall fuel n : nat,
        runs_as s
          (passes self_samplerate attack decay sustain sustain_level release cycle fuel n)
          (if passes_done attack decay sustain sustain_level release cycle fuel
                (1 / self_samplerate) n
           then Gen.Done tt else Gen.Starved)
          (passes_gains attack decay sustain sustain_level release cycle fuel
             (1 / self_samplerate) n))
  /\ (forall (oscillator : pyobj) (pos fuel : nat),
        py_iter oscillator = Iter s pos ->
        Gen.run (envelope_wrapper self_samplerate attack decay sustain sustain_level
                   release stop_at_end cycle fuel) oscillator
        = (if passes_done attack decay sustain sustain_level release cycle fuel
                (1 / self_samplerate) fuel && stop_at_end
           then Gen.Done tt else Gen.Starved,
           {| Gen.src :=
                Iter s (pos + length (passes_gains attack decay sustain sustain_level
                                        release cycle fuel (1 / self_samplerate) fuel));
              Gen.out :=
                scaled s pos (passes_gains attack decay sustain sustain_level release
                                cycle fuel (1 / self_samplerate) fuel)
                ++ (if passes_done attack decay sustain sustain_level release cycle fuel
                         (1 / self_samplerate) fuel && negb stop_at_end
                    then repeat 0 fuel else []) |})).
Proof.
  intros Hrate Htotal. split; [| split; [| split; [| split; [| split; [| split]]]]].
  - intros fuel increment time st. split; [| split].
    + now apply attack_skipped.
    + now apply decay_skipped.
    + now apply release_skipped.
  - intros Hs fuel increment st st' t' H. eapply sustain_skipped; eassumption.
  - intros fuel increment g1 g2 g3 g4. apply pass_segments_skipped.
  - intros fuel increment time. split; [| split; [| split]].
    + now apply attack_runs.
    + now apply decay_runs.
    + now apply sustain_runs.
    + now apply release_runs.
  - intros fuel. now apply adsr_pass_runs.
  - intros fuel n. now apply passes_runs.
  - intros oscillator pos fuel Hiter. now apply envelope_wrapper_runs.
Qed.

(** The envelope at 4 Hz with an attack, a sustain and a release of half a
    second each, a sustain level of 0.5 and no decay, on the constant
    source 1 and observed with fuel 3: both hypotheses hold; the pass has
    the gains 0 and 0.5 of the attack, none of the decay, 0.5 twice of the
    sustain and 0.5 and 0.25 of the release; and the wrapper pulls six
    values, yields them times these gains, and goes on with zeros. *)
Lemma envelope_segments_witness :
  truthy 4 = true
  /\ (forall i : nat, exists v : float, repeat_forever 1 i = Val v)
  /\ pass_segments 0.5 0 0.5 0.5 0.5 3 (1 / 4) = ([0; 0.5], [], [0.5; 0.5], [0.5; 0.25])
  /\ adsr_pass 4 0.5 0 0.5 0.5 0.5 3 {| Gen.src := Iter (repeat_forever 1) 0; Gen.out := [] |}
     = (Gen.Done tt,
        {| Gen.src := Iter (repeat_forever 1) 6;
           Gen.out := [0; 0.5; 0.5; 0.5; 0.5; 0.25] |})
  /\ Gen.run (envelope_wrapper 4 0.5 0 0.5 0.5 0.5 false false 3)
       (Iter (repeat_forever 1) 0)
     = (Gen.Starved,
        {| Gen.src := Iter (repeat_forever 1) 6;
           Gen.out := [0; 0.5; 0.5; 0.5; 0.5; 0.25; 0; 0; 0] |}).
Proof.
  assert (H1 : truthy 4 = true) by (vm_compute; reflexivity).
  assert (H2 : forall i : nat, exists v : float, repeat_forever 1 i = Val v)
    by (intros i; eexists; reflexivity).
  destruct (@envelope_segments 4 0.5 0 0.5 0.5 0.5 false false (repeat_forever 1) H1 H2)
    as [_ [_ [_ [_ [Hpass [_ Hwrapper]]]]]].
  split; [exact H1 |]. split; [exact H2 |].
  split; [vm_compute; reflexivity |]. split.
  - rewrite (Hpass 3%nat 0%nat []). vm_compute. reflexivity.
  - rewrite (Hwrapper (Iter (repeat_forever 1) 0) 0%nat 3%nat eq_refl).
    vm_compute. reflexivity.
Defined.

(** The whole envelope on that input, observed with fuel 3: the attack
    rises from 0, the sustain holds 0.5 for two samples, the release falls
    from 0.5 to 0.25, and silence follows. *)
Example envelope_run :
  exists wrapper : nat -> Gen.gen unit,
    envelope 4 0.5 0 0.5 0.5 0.5 false false = Ok wrapper
    /\ (attack_gains 0.5 3 0.25 0,
        sustain_gains 0.5 0 0.5 0.5 3 0.25 0.5,
        release_gains 0.5 0 0.5 0.5 0.5 3 0.25 1)
       = ([0; 0.5], [0.5; 0.5], [0.5; 0.25])
    /\ exists src : pyobj,
         Gen.run (wrapper 3%nat) (Osc (Linear 44100 1 0 (-1) 1 4))
         = (Gen.Starved,
            {| Gen.src := src; Gen.out := [0; 0.5; 0.5; 0.5; 0.5; 0.25; 0; 0; 0] |}).
Proof.
  eexists. split; [vm_compute; reflexivity |].
  split; [vm_compute; reflexivity |].
  eexists. vm_compute. reflexivity.
Qed.

(** An envelope whose four durations are all zero yields nothing in a pass;
    when it also cycles, the outer loop never yields: with any fuel it runs
    out of fuel before a first value. *)
Example envelope_all_zero :
  Gen.run (envelope_wrapper 4 0 0 0 0.5 0 false true 5) (Osc (Linear 44100 1 0 (-1) 1 4))
  = (Gen.Starved,
     {| Gen.src := Iter (generator (Linear 44100 1 0 (-1) 1 4)) 0; Gen.out := [] |}).
Proof. vm_compute. reflexivity. Qed.

(** * Further properties

    What the code shows beyond the statements above: the rendering loop and
    the checks of the facade, the unbounded streams, the filters, and what
    makes an oscillator stop. *)

(** ** The order of floats *)

(** Comparing the other way round gives the opposite answer. *)
Lemma SFcompare_antisym (x y : spec_float) :
  SFcompare y x = option_map CompOpp (SFcompare x y).
Proof.
  destruct x as [sx | sx | | sx mx ex], y as [sy | sy | | sy my ey]; cbn;
    try reflexivity; try (destruct sx; reflexivity); try (destruct sy; reflexivity);
    try (destruct sx, sy; reflexivity).
  destruct sx, sy; cbn; try reflexivity; f_equal;
    rewrite (Z.compare_antisym ex ey); destruct (ex ?= ey)%Z; cbn; try reflexivity.
  - f_equal. exact (eq_sym (Pos.compare_cont_antisym mx my Eq)).
  - exact (eq_sym (Pos.compare_cont_antisym mx my Eq)).
Qed.

(** [<] on floats is asymmetric and irreflexive, NaNs included. *)
Lemma ltb_asym (x y : float) : (x <? y) = true -> (y <? x) = false.
Proof.
  rewrite !ltb_spec. unfold SFltb. rewrite (SFcompare_antisym (Prim2SF x) (Prim2SF y)).
  destruct (SFcompare (Prim2SF x) (Prim2SF y)) as [[] |]; cbn; congruence.
Qed.

Lemma ltb_irrefl (x : float) : (x <? x) = false.
Proof.
  destruct (x <? x) eqn:E; [| reflexivity]. now rewrite (ltb_asym E) in E.
Qed.

(** ** Rendering *)

(** X1.  A buffer that [__render_sample] returns carries the facade's sample
    rate and width and one channel, and holds [int(duration*samplerate)]
    frames, frame [i] being [int()] of the [i]-th value of the oscillator. *)
Theorem render_sample_buffer (self : WaveSynth.t) (duration : float)
    (wave : OscillatorBase) (smp : Sample) :
  WaveSynth.__render_sample self duration wave = Ok smp ->
  sample_rate smp = WaveSynth.samplerate self
  /\ sample_width smp = WaveSynth.samplewidth self
  /\ nchannels smp = 1%Z
  /\ exists n : Z,
       py_int (duration * WaveSynth.samplerate self) = Ok n
       /\ length (sample_frames smp) = Z.to_nat n
       /\ forall i : nat, (i < Z.to_nat n)%nat ->
            exists v : float,
              generator wave i = Val v /\ py_int v = Ok (nth i (sample_frames smp) 0%Z).
Proof.
  intros H. destruct (render_sample_ok _ _ _ H) as [n Hn].
  unfold WaveSynth.__render_sample in H. bind_inv H. injection H as <-.
  cbn [sample_rate sample_width nchannels]. repeat split. now exists n.
Qed.

Lemma render_sample_buffer_witness :
  let self := {| WaveSynth.samplerate := 44100; WaveSynth.samplewidth := 2 |} in
  let smp := {| sample_frames := [0; 1]%Z; sample_rate := 44100;
                sample_width := 2; nchannels := 1 |} in
  sample_rate smp = WaveSynth.samplerate self
  /\ sample_width smp = WaveSynth.samplewidth self
  /\ nchannels smp = 1%Z
  /\ exists n : Z,
       py_int (0.00005 * WaveSynth.samplerate self) = Ok n
       /\ length (sample_frames smp) = Z.to_nat n
       /\ forall i : nat, (i < Z.to_nat n)%nat ->
            exists v : float,
              generator (Linear 44100 0 1 (-1) 1 44100) i = Val v
              /\ py_int v = Ok (nth i (sample_frames smp) 0%Z).
Proof.
  apply (@render_sample_buffer
           {| WaveSynth.samplerate := 44100; WaveSynth.samplewidth := 2 |} 0.00005
           (Linear 44100 0 1 (-1) 1 44100)).
  vm_compute. reflexivity.
Defined.

(** X2.  A duration of no sample or a negative one renders to an empty
    buffer, and the oscillator is not pulled: it may be one that would
    raise. *)
Theorem render_sample_no_frames (self : WaveSynth.t) (duration : float)
    (wave : OscillatorBase) (n : Z) :
  py_int (duration * WaveSynth.samplerate self) = Ok n ->
  (n <= 0)%Z ->
  WaveSynth.__render_sample self duration wave
  = Ok {| sample_frames := []; sample_rate := WaveSynth.samplerate self;
          sample_width := WaveSynth.samplewidth self; nchannels := 1 |}.
Proof.
  intros Hn Hle. unfold WaveSynth.__render_sample. rewrite Hn. cbn [Py.bind].
  replace (Z.to_nat n) with O by lia. reflexivity.
Qed.

Lemma render_sample_no_frames_witness :
  let self := {| WaveSynth.samplerate := 44100; WaveSynth.samplewidth := 2 |} in
  WaveSynth.__render_sample self (-1) (FastSine 44100 sin_poly 0 1 0 0 44100)
  = Ok {| sample_frames := []; sample_rate := 44100; sample_width := 2; nchannels := 1 |}
  /\ generator (FastSine 44100 sin_poly 0 1 0 0 44100) O = Fail ZeroDivisionError.
Proof.
  split.
  - apply (@render_sample_no_frames
             {| WaveSynth.samplerate := 44100; WaveSynth.samplewidth := 2 |} (-1)
             (FastSine 44100 sin_poly 0 1 0 0 44100) (-44100)%Z).
    + vm_compute. reflexivity.
    + lia.
  - vm_compute. reflexivity.
Defined.

(** ** The facade: validation and the unbounded streams *)

Lemma check_and_get_scale_invalid (self : WaveSynth.t) (freq amplitude bias : float) :
  (freq <=? WaveSynth.samplerate self / 2) && (0 <=? amplitude) && (amplitude <=? 1)
  && (-1 <=? bias) && (bias <=? 1) = false ->
  WaveSynth.__check_and_get_scale self freq amplitude bias = Raise AssertionError.
Proof.
  unfold WaveSynth.__check_and_get_scale.
  destruct (freq <=? WaveSynth.samplerate self / 2); [| reflexivity].
  destruct (0 <=? amplitude); [| reflexivity].
  destruct (amplitude <=? 1); [| reflexivity].
  destruct (-1 <=? bias); [| reflexivity].
  destruct (bias <=? 1); [discriminate | reflexivity].
Qed.

(** X3.  The render operations that take a frequency raise
    [AssertionError], without building or pulling an oscillator, when the
    frequency is above half the sample rate, the amplitude outside [0, 1]
    or the bias outside [-1, 1], a NaN among them included. *)
Theorem render_rejects_invalid_parameters
    (norm_samplerate : float) (sin : float -> float) (self : WaveSynth.t)
    (frequency duration amplitude phase bias pulsewidth : float) (num_harmonics : Z)
    (only_even only_odd : bool) (fm_lfo pwm_lfo : option (stream float)) :
  (frequency <=? WaveSynth.samplerate self / 2) && (0 <=? amplitude) && (amplitude <=? 1)
  && (-1 <=? bias) && (bias <=? 1) = false ->
  WaveSynth.sine norm_samplerate sin self frequency duration amplitude phase bias fm_lfo
    = Raise AssertionError
  /\ WaveSynth.square norm_samplerate self frequency duration amplitude phase bias fm_lfo
     = Raise AssertionError
  /\ WaveSynth.square_h norm_samplerate sin self frequency duration num_harmonics amplitude
       phase bias fm_lfo
     = Raise AssertionError
  /\ WaveSynth.triangle norm_samplerate self frequency duration amplitude phase bias fm_lfo
     = Raise AssertionError
  /\ WaveSynth.sawtooth norm_samplerate self frequency duration amplitude phase bias fm_lfo
     = Raise AssertionError
  /\ WaveSynth.sawtooth_h norm_samplerate sin self frequency duration num_harmonics
       amplitude phase bias fm_lfo
     = Raise AssertionError
  /\ WaveSynth.pulse norm_samplerate self frequency duration amplitude phase bias
       pulsewidth fm_lfo pwm_lfo
     = Raise AssertionError
  /\ WaveSynth.harmonics norm_samplerate sin self frequency duration num_harmonics
       amplitude phase bias only_even only_odd fm_lfo
     = Raise AssertionError.
Proof.
  intros H. apply check_and_get_scale_invalid in H.
  unfold WaveSynth.sine, WaveSynth.__sine, WaveSynth.square, WaveSynth.__square,
    WaveSynth.square_h, WaveSynth.__square_h, WaveSynth.triangle, WaveSynth.__triangle,
    WaveSynth.sawtooth, WaveSynth.__sawtooth, WaveSynth.sawtooth_h,
    WaveSynth.__sawtooth_h, WaveSynth.pulse, WaveSynth.__pulse, WaveSynth.harmonics,
    WaveSynth.__harmonics.
  rewrite H. repeat split; try reflexivity.
  unfold assert. destruct ((0 <=? pulsewidth) && (pulsewidth <=? 1)); reflexivity.
Qed.

Lemma render_rejects_invalid_parameters_witness :
  let self := {| WaveSynth.samplerate := 44100; WaveSynth.samplewidth := 2 |} in
  WaveSynth.sine 44100 sin_poly self 30000 1 0.5 0 0 None = Raise AssertionError
  /\ WaveSynth.square 44100 self 30000 1 0.5 0 0 None = Raise AssertionError
  /\ WaveSynth.square_h 44100 sin_poly self 30000 1 16 0.5 0 0 None = Raise AssertionError
  /\ WaveSynth.triangle 44100 self 30000 1 0.5 0 0 None = Raise AssertionError
  /\ WaveSynth.sawtooth 44100 self 30000 1 0.5 0 0 None = Raise AssertionError
  /\ WaveSynth.sawtooth_h 44100 sin_poly self 30000 1 16 0.5 0 0 None
     = Raise AssertionError
  /\ WaveSynth.pulse 44100 self 30000 1 0.5 0 0 0.1 None None = Raise AssertionError
  /\ WaveSynth.harmonics 44100 sin_poly self 30000 1 16 0.5 0 0 false false None
     = Raise AssertionError.
Proof.
  apply (@render_rejects_invalid_parameters 44100 sin_poly
           {| WaveSynth.samplerate := 44100; WaveSynth.samplewidth := 2 |}
           30000 1 0.5 0 0 0.1 16 false false None None).
  vm_compute. reflexivity.
Defined.

(** A generator is finished after a first turn that does not yield. *)
Lemma finished_after_first (A : Type) (s : stream A) (k : nat) :
  (forall a : A, s O <> Val a) -> finished s (S k) = true.
Proof.
  intros H. induction k as [| k IH].
  - cbn. destruct (s O) as [a | |]; [now destruct (H a) | reflexivity | reflexivity].
  - cbn [finished] in *. now rewrite IH.
Qed.

Lemma gen_ints_fails (wave : result OscillatorBase) :
  raises_at_once (WaveSynth.gen_ints wave)
    (match wave with Ok _ => TypeError | Raise e => e end).
Proof.
  unfold raises_at_once, WaveSynth.gen_ints, until_finished. split.
  - destruct wave; reflexivity.
  - intros k. rewrite finished_after_first; [reflexivity |].
    intros a. destruct wave; discriminate.
Qed.

(** X4.  None of the unbounded sample streams of the facade ever yields a
    sample.  Each applies [next()] to the oscillator object instead of an
    iterator over it: the first [next()] on the stream raises [TypeError]
    when the oscillator can be built, and otherwise what building the
    oscillator raises; the generator is then finished, and every later
    [next()] raises [StopIteration].  [linear_gen] never yields a value
    either. *)
Theorem unbounded_streams_never_yield
    (norm_samplerate : float) (sin : float -> float) (random : nat -> float)
    (self : WaveSynth.t)
    (frequency duration amplitude phase bias pulsewidth start_amp finish_amp : float)
    (num_harmonics : Z) (only_even only_odd : bool)
    (fm_lfo pwm_lfo : option (stream float)) :
  raises_at_once
    (WaveSynth.sine_gen norm_samplerate sin self frequency amplitude phase bias fm_lfo)
    (match WaveSynth.__sine norm_samplerate sin self frequency amplitude phase
             bias fm_lfo with Ok _ => TypeError | Raise e => e end)
  /\ raises_at_once
       (WaveSynth.square_gen norm_samplerate self frequency amplitude phase bias fm_lfo)
       (match WaveSynth.__square norm_samplerate self frequency amplitude phase
                bias fm_lfo with Ok _ => TypeError | Raise e => e end)
  /\ raises_at_once
       (WaveSynth.square_h_gen norm_samplerate sin self frequency num_harmonics amplitude
          phase bias fm_lfo)
       (match WaveSynth.__square_h norm_samplerate sin self frequency num_harmonics
                amplitude phase bias fm_lfo
        with Ok _ => TypeError | Raise e => e end)
  /\ raises_at_once
       (WaveSynth.triangle_gen norm_samplerate self frequency amplitude phase bias fm_lfo)
       (match WaveSynth.__triangle norm_samplerate self frequency amplitude phase
                bias fm_lfo with Ok _ => TypeError | Raise e => e end)
  /\ raises_at_once
       (WaveSynth.sawtooth_gen norm_samplerate self frequency amplitude phase bias fm_lfo)
       (match WaveSynth.__sawtooth norm_samplerate self frequency amplitude phase
                bias fm_lfo with Ok _ => TypeError | Raise e => e end)
  /\ raises_at_once
       (WaveSynth.sawtooth_h_gen norm_samplerate sin self frequency num_harmonics amplitude
          phase bias fm_lfo)
       (match WaveSynth.__sawtooth_h norm_samplerate sin self frequency
                num_harmonics amplitude phase bias fm_lfo
        with Ok _ => TypeError | Raise e => e end)
  /\ raises_at_once
       (WaveSynth.pulse_gen norm_samplerate self frequency amplitude phase bias pulsewidth
          fm_lfo pwm_lfo)
       (match WaveSynth.__pulse norm_samplerate self frequency amplitude phase bias
                pulsewidth fm_lfo pwm_lfo
        with Ok _ => TypeError | Raise e => e end)
  /\ raises_at_once
       (WaveSynth.harmonics_gen norm_samplerate sin self frequency num_harmonics amplitude
          phase bias only_even only_odd fm_lfo)
       (match WaveSynth.__harmonics norm_samplerate sin self frequency num_harmonics
                amplitude phase bias only_even only_odd fm_lfo
        with Ok _ => TypeError | Raise e => e end)
  /\ raises_at_once
       (WaveSynth.white_noise_gen norm_samplerate random self amplitude bias)
       (match WaveSynth.__white_noise norm_samplerate random self amplitude bias
        with Ok _ => TypeError | Raise e => e end)
  /\ forall (k : nat) (i : Z),
       WaveSynth.linear_gen norm_samplerate self duration start_amp finish_amp k <> Val i.
Proof.
  repeat (split; [apply gen_ints_fails |]).
  intros k i. unfold WaveSynth.linear_gen.
  destruct (WaveSynth.__linear norm_samplerate self duration start_amp finish_amp)
    as [wave |]; cbn [Py.bind]; [| discriminate].
  destruct (py_int (duration * WaveSynth.samplerate self)) as [n |];
    cbn [Py.bind]; [| discriminate].
  destruct (Z.of_nat k <? n)%Z; cbn; discriminate.
Qed.

(** A sine stream at 440 Hz raises [TypeError] at the first [next()] and
    [StopIteration] at the second; rendering two samples of the same wave
    works. *)
Example sine_gen_type_error :
  let self := {| WaveSynth.samplerate := 44100; WaveSynth.samplewidth := 2 |} in
  map (WaveSynth.sine_gen 44100 sin_poly self 440 0.5 0 0 None) [0; 1]%nat
  = [Fail TypeError; Stop]
  /\ exists smp : Sample,
       WaveSynth.sine 44100 sin_poly self 440 0.00005 0.5 0 0 None = Ok smp
       /\ length (sample_frames smp) = 2%nat.
Proof.
  split; [vm_compute; reflexivity |].
  eexists. split; [vm_compute; reflexivity | reflexivity].
Qed.

(** ** [delay], observed value by value *)

Lemma stream_values_nth (s : stream float) (pos n i : nat) :
  (i < n)%nat ->
  nth_error (stream_values s pos n) i
  = Some (match s (pos + i)%nat with Val v => v | _ => 0 end).
Proof.
  intros Hi. unfold stream_values.
  rewrite nth_error_map, nth_error_seq.
  destruct (Nat.ltb_spec i n) as [_ | Hge]; [reflexivity | lia].
Qed.

(** X5.  The values of an oscillator delayed by a time that is not
    negative: the first [int(samplerate*seconds)] are 0.0, and the one at
    place [k] after them is the oscillator's own value at place [k]. *)
Theorem delay_value_at (self : OscillatorBase) (seconds : float) (n : Z)
    (fuel k : nat) :
  (seconds <? 0) = false ->
  py_int (samplerate self * seconds) = Ok n ->
  (forall i : nat, (i < fuel)%nat -> exists v : float, generator self i = Val v) ->
  (k < fuel)%nat ->
  (forall j : nat, (j < Z.to_nat n)%nat ->
     nth_error (Gen.out (snd (delay self seconds fuel))) j = Some 0)
  /\ exists v : float,
       generator self k = Val v
       /\ nth_error (Gen.out (snd (delay self seconds fuel))) (Z.to_nat n + k) = Some v.
Proof.
  intros Hs Hn Hvals Hk. rewrite (@delay_nonnegative self seconds n fuel Hs Hn Hvals).
  cbn [snd Gen.out]. split.
  - intros j Hj. rewrite nth_error_app1 by now rewrite repeat_length.
    now apply nth_error_repeat.
  - destruct (Hvals k Hk) as [v Hv]. exists v. split; [exact Hv |].
    rewrite nth_error_app2 by (rewrite repeat_length; lia).
    rewrite repeat_length. replace (Z.to_nat n + k - Z.to_nat n)%nat with k by lia.
    rewrite stream_values_nth by exact Hk. cbn [Nat.add]. now rewrite Hv.
Qed.

Lemma delay_value_at_witness :
  let ramp := Linear 44100 0 0.125 (-1) 1 8 in
  (forall j : nat, (j < Z.to_nat 4)%nat ->
     nth_error (Gen.out (snd (delay ramp 0.5 6%nat))) j = Some 0)
  /\ exists v : float,
       generator ramp 2%nat = Val v
       /\ nth_error (Gen.out (snd (delay ramp 0.5 6%nat))) (Z.to_nat 4 + 2) = Some v.
Proof.
  apply (@delay_value_at (Linear 44100 0 0.125 (-1) 1 8) 0.5 4%Z 6%nat 2%nat).
  - vm_compute. reflexivity.
  - vm_compute. reflexivity.
  - intros i Hi.
    do 6 (destruct i as [| i]; [eexists; vm_compute; reflexivity |]). lia.
  - lia.
Defined.

(** X6.  A delay by a negative time of at least one sample never yields:
    whatever the oscillator, the first [next()] raises [TypeError]. *)
Theorem delay_negative_never_yields (self : OscillatorBase) (seconds : float) (n : Z)
    (fuel : nat) :
  (seconds <? 0) = true ->
  py_int (- samplerate self * seconds) = Ok n ->
  (0 < n)%Z ->
  fst (delay self seconds fuel) = Gen.Throw TypeError
  /\ Gen.out (snd (delay self seconds fuel)) = [].
Proof.
  intros Hs Hn Hlt. now rewrite (@delay_negative_type_error self seconds n fuel Hs Hn Hlt).
Qed.

Lemma delay_negative_never_yields_witness :
  let osc := FastSquare 44100 440 1 0 0 44100 in
  fst (delay osc (-0.5) 10%nat) = Gen.Throw TypeError
  /\ Gen.out (snd (delay osc (-0.5) 10%nat)) = [].
Proof.
  apply (@delay_negative_never_yields (FastSquare 44100 440 1 0 0 44100) (-0.5)
           22050%Z 10%nat).
  - vm_compute. reflexivity.
  - vm_compute. reflexivity.
  - lia.
Defined.

(** ** Clamping: [clip] and [Linear] *)

Lemma clip_value_bounds (minimum maximum v : float) :
  (maximum <? minimum) = false ->
  (clip_value minimum maximum v <? minimum) = false
  /\ (maximum <? clip_value minimum maximum v) = false.
Proof.
  intros H. unfold clip_value, py_max, py_min.
  destruct (maximum <? v) eqn:E1.
  - destruct (maximum <? minimum) eqn:E2; [discriminate |].
    split; [exact E2 | apply ltb_irrefl].
  - destruct (v <? minimum) eqn:E2; split; trivial. apply ltb_irrefl.
Qed.

Lemma for_each_val (f : float -> float) (self : OscillatorBase) (k : nat) (c : float) :
  for_each f (Osc self) k = Val c ->
  exists v : float, generator self k = Val v /\ c = f v.
Proof.
  unfold for_each, stream_of. cbn [py_iter Nat.add].
  destruct (generator self k) as [v | |]; try discriminate.
  intros H. injection H as <-. now exists v.
Qed.

(** X7.  With both bounds given and the minimum not above the maximum,
    no value of the clipped oscillator is below the minimum or above the
    maximum, and clipping such a value again changes nothing. *)
Theorem clip_within_bounds (norm_samplerate : float) (self osc : OscillatorBase)
    (minimum maximum : float) (k : nat) (c : float) :
  (maximum <? minimum) = false ->
  clip norm_samplerate self (Some minimum) (Some maximum) = Ok osc ->
  generator osc k = Val c ->
  (c <? minimum) = false
  /\ (maximum <? c) = false
  /\ clip_value minimum maximum c = c.
Proof.
  intros Hmm Hosc Hc. cbn in Hosc. injection Hosc as <-.
  cbn [generator FilteredOscillator] in Hc.
  apply for_each_val in Hc. destruct Hc as [v [_ ->]].
  destruct (clip_value_bounds v Hmm) as [Hlo Hhi].
  repeat split; trivial. now apply clip_value_within.
Qed.

Lemma clip_within_bounds_witness :
  exists c : float,
    generator (FilteredOscillator 44100 (Linear 44100 (-3) 0 (-1) 1 44100)
                 (for_each (clip_value (-0.5) 0.5))) O = Val c
    /\ (c <? -0.5) = false
    /\ (0.5 <? c) = false
    /\ clip_value (-0.5) 0.5 c = c.
Proof.
  exists (-0.5). split; [vm_compute; reflexivity |].
  apply (@clip_within_bounds 44100 (Linear 44100 (-3) 0 (-1) 1 44100)
           (FilteredOscillator 44100 (Linear 44100 (-3) 0 (-1) 1 44100)
              (for_each (clip_value (-0.5) 0.5)))
           (-0.5) 0.5 O (-0.5)).
  - vm_compute. reflexivity.
  - reflexivity.
  - vm_compute. reflexivity.
Defined.

(** The turn of [Linear]'s loop. *)
Lemma Linear_locals (norm_samplerate startlevel increment min_value max_value rate : float)
    (k : nat) :
  exists value : float,
    locals_at (Ok startlevel)
      (fun value : float =>
         Ok (value,
             if truthy increment
             then py_min max_value (py_max min_value (value + increment))
             else value))
      k = Ok value
    /\ generator (Linear norm_samplerate startlevel increment min_value max_value rate) k
       = Val value.
Proof.
  cbn [generator Linear]. unfold generator_loop.
  induction k as [| k [value [IH _]]].
  - exists startlevel. split; reflexivity.
  - rewrite locals_at_S, IH. cbn [Py.bind snd]. eexists. split; reflexivity.
Qed.

(** With a zero increment the value is never updated. *)
Lemma Linear_flat
    (norm_samplerate startlevel increment min_value max_value rate : float) (k : nat) :
  truthy increment = false ->
  generator (Linear norm_samplerate startlevel increment min_value max_value rate) k
  = Val startlevel.
Proof.
  intros Hinc. cbn [generator Linear]. unfold generator_loop.
  assert (H : locals_at (Ok startlevel)
                (fun value : float =>
                   Ok (value,
                       if truthy increment
                       then py_min max_value (py_max min_value (value + increment))
                       else value))
                k = Ok startlevel).
  { induction k as [| k IH]; [reflexivity |].
    rewrite locals_at_S, IH. cbn [Py.bind snd]. now rewrite Hinc. }
  rewrite H. reflexivity.
Qed.

(** X8.  A [Linear] oscillator with a zero increment yields its start level
    for ever, whatever the bounds are. *)
Theorem Linear_constant
    (norm_samplerate startlevel increment min_value max_value rate : float) (k : nat) :
  truthy increment = false ->
  generator (Linear norm_samplerate startlevel increment min_value max_value rate) k
  = Val startlevel.
Proof. apply Linear_flat. Qed.

Lemma Linear_constant_witness :
  generator (Linear 44100 5 0 (-1) 1 44100) 1000%nat = Val 5.
Proof.
  apply (@Linear_constant 44100 5 0 (-1) 1 44100 1000%nat). vm_compute. reflexivity.
Defined.

(** An updated value has gone through [min] and [max]. *)
Lemma Linear_clamped
    (norm_samplerate startlevel increment min_value max_value rate : float)
    (k : nat) (v : float) :
  truthy increment = true ->
  (max_value <? min_value) = false ->
  generator (Linear norm_samplerate startlevel increment min_value max_value rate) (S k)
  = Val v ->
  (v <? min_value) = false /\ (max_value <? v) = false.
Proof.
  intros Hinc Hmm Hv.
  destruct (Linear_locals norm_samplerate startlevel increment min_value max_value rate
              (S k)) as [value [Hl Hg]].
  rewrite Hg in Hv. injection Hv as <-.
  rewrite locals_at_S in Hl.
  destruct (Linear_locals norm_samplerate startlevel increment min_value max_value rate k)
    as [prev [Hp _]].
  rewrite Hp in Hl. cbn [Py.bind snd] in Hl. rewrite Hinc in Hl. injection Hl as <-.
  unfold py_min, py_max.
  destruct (min_value <? prev + increment) eqn:E1.
  - destruct (prev + increment <? max_value) eqn:E2.
    + split; now apply ltb_asym.
    + split; [exact Hmm | apply ltb_irrefl].
  - destruct (min_value <? max_value) eqn:E2.
    + split; [apply ltb_irrefl | now apply ltb_asym].
    + split; [exact Hmm | apply ltb_irrefl].
Qed.

(** X9.  With an increment that is not zero and a minimum not above the
    maximum, every value of a [Linear] oscillator after the first lies
    between the bounds; the first is the start level as given. *)
Theorem Linear_bounded
    (norm_samplerate startlevel increment min_value max_value rate : float)
    (k : nat) (v : float) :
  truthy increment = true ->
  (max_value <? min_value) = false ->
  generator (Linear norm_samplerate startlevel increment min_value max_value rate) (S k)
  = Val v ->
  (v <? min_value) = false /\ (max_value <? v) = false.
Proof. apply Linear_clamped. Qed.

Lemma Linear_bounded_witness :
  (0x1p+0 <? -0x1p+0) = false
  /\ generator (Linear 44100 0 0.75 (-1) 1 44100) 2%nat = Val 1
  /\ (1 <? -1) = false /\ (1 <? 1) = false.
Proof.
  assert (H : generator (Linear 44100 0 0.75 (-1) 1 44100) 2%nat = Val 1)
    by (vm_compute; reflexivity).
  split; [vm_compute; reflexivity |]. split; [exact H |].
  apply (@Linear_bounded 44100 0 0.75 (-1) 1 44100 1%nat 1).
  - vm_compute. reflexivity.
  - vm_compute. reflexivity.
  - exact H.
Defined.

(** ** Waves of two levels *)

Lemma pulse_sample_levels (amplitude bias x pw : float) :
  pulse_sample amplitude bias x pw = amplitude + bias
  \/ pulse_sample amplitude bias x pw = - amplitude + bias.
Proof. unfold pulse_sample. destruct (mod1 x <? pw); auto. Qed.

(** X10.  Every value of a [Square] oscillator, with or without an FM
    source, of a [Pulse] oscillator and of a [FastPulse] oscillator,
    whatever drives the frequency and the duty factor, is one of the two
    levels [amplitude + bias] and [-amplitude + bias]. *)
Theorem square_pulse_two_levels
    (norm_samplerate frequency amplitude phase bias pulsewidth : float)
    (fm_lfo pwm_lfo : option (stream float)) (rate : float) (k : nat) (v : float) :
  generator (Square norm_samplerate frequency amplitude phase bias fm_lfo rate) k = Val v
  \/ (exists osc : OscillatorBase,
        Pulse norm_samplerate frequency amplitude phase bias pulsewidth fm_lfo pwm_lfo rate
        = Ok osc
        /\ generator osc k = Val v)
  \/ (exists osc : OscillatorBase,
        FastPulse norm_samplerate frequency amplitude phase bias pulsewidth pwm_lfo rate
        = Ok osc
        /\ generator osc k = Val v) ->
  v = amplitude + bias \/ v = - amplitude + bias.
Proof.
  intros [H | [[osc [Hosc H]] | [osc [Hosc H]]]].
  - cbn [generator Square] in H. apply generator_loop_val in H.
    destruct H as [[l increment] [l' [_ Hturn]]].
    bind_inv Hturn. injection Hturn as <- _.
    match goal with
    | E : square_level _ _ = Ok _ |- _ =>
        destruct (square_level_cases _ _ E) as [-> | ->]; auto
    end.
  - destruct (Pulse_threshold _ _ _ _ _ _ _ _ _ _ Hosc H) as [pw [x [_ ->]]].
    apply pulse_sample_levels.
  - destruct pwm_lfo as [pwm |].
    + destruct (FastPulse_pwm_threshold _ _ _ _ _ _ _ _ _ Hosc H) as [pw [x [_ ->]]].
      apply pulse_sample_levels.
    + destruct (FastPulse_fixed_threshold _ _ _ _ _ _ _ _ Hosc H) as [x ->].
      apply pulse_sample_levels.
Qed.

Lemma square_pulse_two_levels_witness :
  -0.25 = 0.5 + 0.25 \/ -0.25 = - 0.5 + 0.25.
Proof.
  apply (@square_pulse_two_levels 44100 1 0.5 0 0.25 0.5
           (Some (repeat_forever 0.5)) None 4 2%nat (-0.25)).
  left. vm_compute. reflexivity.
Defined.

(** ** A frequency of zero *)

Lemma generator_loop_init_raises (L : Type) (init : result L)
    (turn : L -> result (float * L)) (e : exn) (k : nat) :
  init = Raise e -> generator_loop init turn k = Fail e.
Proof.
  intros H. unfold generator_loop.
  assert (Hl : locals_at init turn k = Raise e).
  { induction k as [| k IH]; [exact H |]. now rewrite locals_at_S, IH. }
  now rewrite Hl.
Qed.

Lemma generator_loop_turn_raises (L : Type) (init : result L)
    (turn : L -> result (float * L)) (e : exn) (k : nat) :
  (forall l : L, turn l = Raise e) ->
  (forall e' : exn, init = Raise e' -> e' = e) ->
  generator_loop init turn k = Fail e.
Proof.
  intros Hturn Hinit. unfold generator_loop.
  assert (Hl : (l <- locals_at init turn k ;; turn l)%py = Raise e).
  { induction k as [| k IH].
    - cbn [locals_at]. destruct init as [l | e'] eqn:Ei; cbn [Py.bind].
      + apply Hturn.
      + now rewrite (Hinit e' eq_refl).
    - rewrite locals_at_S. destruct (locals_at init turn k) as [l |]; cbn [Py.bind] in *.
      + now rewrite Hturn in *.
      + exact IH. }
  now rewrite Hl.
Qed.

Lemma truediv_zero (x y : float) : truthy y = false -> truediv x y = Raise ZeroDivisionError.
Proof.
  unfold truthy, truediv. intros H. apply negb_false_iff in H. now rewrite H.
Qed.

Lemma truediv_raises (x y : float) (e : exn) :
  truediv x y = Raise e -> e = ZeroDivisionError.
Proof. unfold truediv. destruct (y =? 0); [intros H; now injection H | discriminate]. Qed.

Section ZeroFrequency.
Variable norm_samplerate : float.
Variable sin : float -> float.
Variable frequency : float.
Hypothesis frequency_zero : truthy frequency = false.

Lemma fast_init_zero (phase rate : float) :
  fast_init frequency phase rate = Raise ZeroDivisionError.
Proof. unfold fast_init. now rewrite truediv_zero. Qed.

Lemma fast_zero_frequency (amplitude phase bias pulsewidth rate : float)
    (pwm_lfo : option (stream float)) (k : nat) :
  generator (FastSine norm_samplerate sin frequency amplitude phase bias rate) k
    = Fail ZeroDivisionError
  /\ generator (FastTriangle norm_samplerate frequency amplitude phase bias rate) k
     = Fail ZeroDivisionError
  /\ generator (FastSquare norm_samplerate frequency amplitude phase bias rate) k
     = Fail ZeroDivisionError
  /\ generator (FastSawtooth norm_samplerate frequency amplitude phase bias rate) k
     = Fail ZeroDivisionError
  /\ (forall osc : OscillatorBase,
        FastPulse norm_samplerate frequency amplitude phase bias pulsewidth pwm_lfo rate
        = Ok osc ->
        generator osc k = Fail ZeroDivisionError).
Proof.
  repeat split.
  - cbn [generator FastSine]. apply generator_loop_init_raises.
    now rewrite truediv_zero.
  - cbn [generator FastTriangle]. apply generator_loop_init_raises, fast_init_zero.
  - cbn [generator FastSquare]. apply generator_loop_init_raises, fast_init_zero.
  - cbn [generator FastSawtooth]. apply generator_loop_init_raises, fast_init_zero.
  - intros osc. unfold FastPulse. destruct (assert _); cbn [Py.bind]; [| discriminate].
    intros H. injection H as <-. cbn [generator].
    destruct pwm_lfo; apply generator_loop_init_raises; now rewrite fast_init_zero.
Qed.

Lemma Harmonics_generator_zero_frequency (num_harmonics : Z)
    (amplitude phase bias : float) (only_even only_odd : bool)
    (fm : stream float) (rate : float) (k : nat) :
  Harmonics_generator sin frequency num_harmonics amplitude phase bias only_even only_odd
    fm rate k
  = Fail ZeroDivisionError.
Proof.
  unfold Harmonics_generator. apply generator_loop_turn_raises.
  - intros [l increment]. unfold harmonic_limit. now rewrite truediv_zero.
  - intros e. destruct (truediv (2 * pi) rate) eqn:E; cbn [Py.bind]; [discriminate |].
    intros H. injection H as <-. now apply truediv_raises in E.
Qed.
End ZeroFrequency.



Lemma pull_ints_first_fails (wave : stream float) (e : exn) (n : nat) :
  wave O = Fail e -> (0 < n)%nat -> WaveSynth.pull_ints n wave O = Raise e.
Proof.
  intros Hw Hn. destruct n as [| n]; [lia |].
  cbn [WaveSynth.pull_ints]. unfold next_of. now rewrite Hw.
Qed.

Lemma render_first_fails (self : WaveSynth.t) (duration : float)
    (wave : OscillatorBase) (e : exn) (n : Z) :
  py_int (duration * WaveSynth.samplerate self) = Ok n ->
  (0 < n)%Z ->
  generator wave O = Fail e ->
  WaveSynth.__render_sample self duration wave = Raise e.
Proof.
  intros Hn Hpos Hw. unfold WaveSynth.__render_sample. rewrite Hn. cbn [Py.bind].
  rewrite (@pull_ints_first_fails (generator wave) e (Z.to_nat n) Hw); [reflexivity | lia].
Qed.

(** X12.  Rendering a wave of frequency zero fails: the facade accepts the
    frequency (it is not above half the sample rate), and when the sample
    is to hold a frame at all, [sine], [square], [triangle], [sawtooth]
    and [pulse] without an FM source, and [square_h], [sawtooth_h] and
    [harmonics] with or without one, raise [ZeroDivisionError]. *)
Theorem render_zero_frequency_raises
    (norm_samplerate : float) (sin : float -> float) (self : WaveSynth.t)
    (frequency duration amplitude phase bias pulsewidth : float) (num_harmonics : Z)
    (only_even only_odd : bool) (fm_lfo pwm_lfo : option (stream float))
    (scale n : Z) :
  truthy frequency = false ->
  WaveSynth.__check_and_get_scale self frequency amplitude bias = Ok scale ->
  py_int (duration * WaveSynth.samplerate self) = Ok n ->
  (0 < n)%Z ->
  WaveSynth.sine norm_samplerate sin self frequency duration amplitude phase bias None
    = Raise ZeroDivisionError
  /\ WaveSynth.square norm_samplerate self frequency duration amplitude phase bias None
     = Raise ZeroDivisionError
  /\ WaveSynth.triangle norm_samplerate self frequency duration amplitude phase bias None
     = Raise ZeroDivisionError
  /\ WaveSynth.sawtooth norm_samplerate self frequency duration amplitude phase bias None
     = Raise ZeroDivisionError
  /\ ((0 <=? pulsewidth) && (pulsewidth <=? 1) = true ->
      WaveSynth.pulse norm_samplerate self frequency duration amplitude phase bias
        pulsewidth None pwm_lfo
      = Raise ZeroDivisionError)
  /\ WaveSynth.square_h norm_samplerate sin self frequency duration num_harmonics
       amplitude phase bias fm_lfo
     = Raise ZeroDivisionError
  /\ WaveSynth.sawtooth_h norm_samplerate sin self frequency duration num_harmonics
       amplitude phase bias fm_lfo
     = Raise ZeroDivisionError
  /\ WaveSynth.harmonics norm_samplerate sin self frequency duration num_harmonics
       amplitude phase bias only_even only_odd fm_lfo
     = Raise ZeroDivisionError.
Proof.
  intros Hz Hsc Hn Hpos.
  assert (Hfast := fun a b pw pwm =>
            @fast_zero_frequency norm_samplerate sin frequency Hz a phase b pw
              (WaveSynth.samplerate self) pwm O).
  assert (Hh := fun a ph b e o fm =>
            @Harmonics_generator_zero_frequency sin frequency Hz num_harmonics a ph b e o fm
              (base_samplerate norm_samplerate (WaveSynth.samplerate self)) O).
  unfold WaveSynth.sine, WaveSynth.square, WaveSynth.triangle, WaveSynth.sawtooth,
    WaveSynth.pulse, WaveSynth.square_h, WaveSynth.sawtooth_h, WaveSynth.harmonics,
    WaveSynth.__sine, WaveSynth.__square, WaveSynth.__triangle, WaveSynth.__sawtooth,
    WaveSynth.__pulse, WaveSynth.__square_h, WaveSynth.__sawtooth_h,
    WaveSynth.__harmonics.
  rewrite Hsc. cbn [Py.bind].
  repeat split.
  - eapply render_first_fails; [exact Hn | exact Hpos |].
    exact (proj1 (Hfast _ _ 0 None)).
  - eapply render_first_fails; [exact Hn | exact Hpos |].
    exact (proj1 (proj2 (proj2 (Hfast _ _ 0 None)))).
  - eapply render_first_fails; [exact Hn | exact Hpos |].
    exact (proj1 (proj2 (Hfast _ _ 0 None))).
  - eapply render_first_fails; [exact Hn | exact Hpos |].
    exact (proj1 (proj2 (proj2 (proj2 (Hfast _ _ 0 None))))).
  - intros Hpw. rewrite Hpw. cbn [Py.bind assert].
    destruct (FastPulse norm_samplerate frequency (amplitude * of_Z scale) phase
                (bias * of_Z scale) pulsewidth pwm_lfo (WaveSynth.samplerate self))
      as [osc |] eqn:Eo.
    + cbn [Py.bind]. eapply render_first_fails; [exact Hn | exact Hpos |].
      exact (proj2 (proj2 (proj2 (proj2 (Hfast _ _ _ _)))) osc Eo).
    + unfold FastPulse in Eo. rewrite Hpw in Eo. discriminate.
  - eapply render_first_fails; [exact Hn | exact Hpos |].
    unfold SquareH. cbn [generator Harmonics]. apply Hh.
  - eapply render_first_fails; [exact Hn | exact Hpos |].
    cbn [generator SawtoothH]. now rewrite Hh.
  - eapply render_first_fails; [exact Hn | exact Hpos |].
    cbn [generator Harmonics]. apply Hh.
Qed.

Lemma render_zero_frequency_raises_witness :
  WaveSynth.square 44100 {| WaveSynth.samplerate := 8; WaveSynth.samplewidth := 2 |}
    0 0.5 0.75 0 0 None
  = Raise ZeroDivisionError.
Proof.
  destruct (@render_zero_frequency_raises 44100 sin_poly
              {| WaveSynth.samplerate := 8; WaveSynth.samplewidth := 2 |}
              0 0.5 0.75 0 0 0.5 3 false false None None 32767 4)
    as [_ [H _]].
  - vm_compute. reflexivity.
  - vm_compute. reflexivity.
  - vm_compute. reflexivity.
  - lia.
  - exact H.
Defined.

(** ** Harmonics with nothing to sum *)

Lemma py_range_empty (start stop step : Z) :
  (stop <= start)%Z -> py_range start stop step = [].
Proof.
  intros H. unfold py_range.
  destruct (Z.to_nat (stop - start)) as [| m]; cbn [range_from]; [reflexivity |].
  destruct (start <? stop)%Z eqn:E; [apply Z.ltb_lt in E; lia | reflexivity].
Qed.

Lemma harmonic_sum_empty (sin : float -> float) (only_odd : bool) (n : Z) (q : float) :
  (n <= 0)%Z -> harmonic_sum sin false only_odd n q = 0.
Proof.
  intros H. unfold harmonic_sum.
  destruct only_odd; rewrite py_range_empty by lia; reflexivity.
Qed.

(** X13.  When the harmonic limit is zero or less, because no harmonics
    were asked for or because the frequency is above half the sample rate,
    the default and the odd-only mode of the harmonics oscillator sum
    nothing: every value of [Harmonics] and [SquareH] is
    [0.0*amplitude + bias], and every value of [SawtoothH] is that value
    reflected around the bias. *)
Theorem harmonics_nothing_to_sum
    (norm_samplerate : float) (sin : float -> float)
    (frequency amplitude phase bias : float) (num_harmonics : Z)
    (fm_lfo : option (stream float)) (rate : float) (n : Z) :
  harmonic_limit num_harmonics (base_samplerate norm_samplerate rate) frequency = Ok n ->
  (n <= 0)%Z ->
  forall (k : nat) (v : float),
    (forall only_odd : bool,
        generator (Harmonics norm_samplerate sin frequency num_harmonics amplitude phase
                     bias false only_odd fm_lfo rate) k = Val v ->
        v = 0 * amplitude + bias)
    /\ (generator (SquareH norm_samplerate sin frequency num_harmonics amplitude phase
                     bias fm_lfo rate) k = Val v ->
        v = 0 * amplitude + bias)
    /\ (generator (SawtoothH norm_samplerate sin frequency num_harmonics amplitude phase
                     bias fm_lfo rate) k = Val v ->
        v = bias * 2 - (0 * amplitude + bias)).
Proof.
  intros Hn Hle k v.
  assert (H : forall (ph : float) (only_odd : bool) (w : float),
             generator (Harmonics norm_samplerate sin frequency num_harmonics amplitude ph
                          bias false only_odd fm_lfo rate) k = Val w ->
             w = 0 * amplitude + bias).
  { intros ph only_odd w Hw.
    destruct (Harmonics_turn _ _ _ _ _ _ _ _ _ _ _ _ Hw) as [n' [q [Hn' ->]]].
    rewrite Hn in Hn'. injection Hn' as <-. now rewrite harmonic_sum_empty. }
  split; [| split].
  - intros only_odd. apply H.
  - unfold SquareH. apply H.
  - cbn [generator SawtoothH]. intros Hv.
    specialize (H (phase + 0.5) false). cbn [generator Harmonics] in H.
    destruct (Harmonics_generator sin frequency num_harmonics amplitude (phase + 0.5) bias
                false false (fm_source fm_lfo) (base_samplerate norm_samplerate rate) k)
      as [y | |]; try discriminate.
    injection Hv as <-. now rewrite (H y eq_refl).
Qed.

Lemma harmonics_nothing_to_sum_witness :
  harmonic_limit 10 (base_samplerate 44100 44100) 30000 = Ok 0%Z
  /\ generator (SquareH 44100 sin_poly 30000 10 0.5 0 0.25 None 44100) 0%nat = Val 0.25
  /\ 0.25 = 0 * 0.5 + 0.25.
Proof.
  assert (Hn : harmonic_limit 10 (base_samplerate 44100 44100) 30000 = Ok 0%Z)
    by (vm_compute; reflexivity).
  assert (Hv : generator (SquareH 44100 sin_poly 30000 10 0.5 0 0.25 None 44100) 0%nat
               = Val 0.25) by (vm_compute; reflexivity).
  split; [exact Hn |]. split; [exact Hv |].
  destruct (@harmonics_nothing_to_sum 44100 sin_poly 30000 0.5 0 0.25 10 None 44100 0%Z
              Hn ltac:(lia) 0%nat 0.25) as [_ [H _]].
  exact (H Hv).
Defined.

(** ** The filter [abs] *)

Lemma abs_nonnegative (x : float) : (abs x <? 0) = false.
Proof.
  rewrite ltb_spec, abs_spec. change (Prim2SF 0) with (S754_zero false).
  destruct (Prim2SF x) as [s | s | | s m e]; reflexivity.
Qed.

Lemma abs_abs (x : float) : abs (abs x) = abs x.
Proof.
  apply Prim2SF_inj. rewrite !abs_spec.
  destruct (Prim2SF x) as [s | s | | s m e]; reflexivity.
Qed.

(** X14.  The values of [osc.abs()] are the absolute values of the values
    of [osc], place by place; none of them is below zero, and applying
    [abs()] a second time changes nothing. *)
Theorem abs_values (norm_samplerate : float) (self : OscillatorBase) (k : nat) (c : float) :
  generator (abs_ norm_samplerate self) k = Val c ->
  (exists v : float, generator self k = Val v /\ c = abs v)
  /\ (c <? 0) = false
  /\ generator (abs_ norm_samplerate (abs_ norm_samplerate self)) k = Val c.
Proof.
  intros H. cbn [generator abs_ FilteredOscillator] in *.
  assert (Hc := H). apply for_each_val in H. destruct H as [v [Hv ->]].
  split; [now exists v |]. split; [apply abs_nonnegative |].
  unfold for_each at 1, stream_of. cbn [py_iter generator FilteredOscillator Nat.add].
  change (generator (abs_ norm_samplerate self) k) with (for_each abs (Osc self) k).
  rewrite Hc. now rewrite abs_abs.
Qed.

Lemma abs_values_witness :
  (exists v : float, generator (Linear 44100 (-3) 1 (-1) 1 4) 0%nat = Val v /\ 3 = abs v)
  /\ (3 <? 0) = false
  /\ generator (abs_ 44100 (abs_ 44100 (Linear 44100 (-3) 1 (-1) 1 4))) 0%nat = Val 3.
Proof.
  apply (@abs_values 44100 (Linear 44100 (-3) 1 (-1) 1 4) 0%nat 3).
  vm_compute. reflexivity.
Defined.

(** ** [mix] and [modulate_amp] *)

Lemma after_nexts_Iter (s : stream float) (pos k : nat) :
  after_nexts (Iter s pos) k = Iter s (pos + k).
Proof.
  induction k as [| k IH]; cbn [after_nexts].
  - now rewrite Nat.add_0_r.
  - rewrite IH. cbn [py_next snd]. now rewrite Nat.add_succ_r.
Qed.

Lemma after_nexts_Osc (o : OscillatorBase) (k : nat) : after_nexts (Osc o) k = Osc o.
Proof. induction k as [| k IH]; cbn [after_nexts]; [| rewrite IH]; reflexivity. Qed.

(** A generator is not finished as long as its turns yield. *)
Lemma finished_false (A : Type) (s : stream A) (k : nat) :
  (forall j : nat, (j < k)%nat -> exists a : A, s j = Val a) -> finished s k = false.
Proof.
  induction k as [| k IH]; intros H; [reflexivity |].
  cbn [finished]. rewrite IH by (intros j Hj; apply H; lia).
  destruct (H k (Nat.lt_succ_diag_r k)) as [a Ha]. now rewrite Ha.
Qed.

(** X16.  [mix] and [modulate_amp] pair the values of the oscillator with
    the values [next()] takes from the second object, starting where that
    iterator stands: as long as both have values, value [k] is the sum (the
    product) of value [k] of the oscillator and the [k]-th further value of
    the iterator.  Handed an oscillator in place of an iterator, they never
    yield: the first [next()] raises [TypeError], once the first oscillator
    has yielded its first value, and the generator is finished. *)
Theorem mix_pairs_values (self : OscillatorBase) (s : stream float) (pos : nat)
    (other : OscillatorBase) (k : nat) (v w : float) :
  (forall j : nat, (j < k)%nat ->
     exists a b : float, generator self j = Val a /\ s (pos + j)%nat = Val b) ->
  generator self k = Val v ->
  s (pos + k)%nat = Val w ->
  mix self (Iter s pos) k = Val (v + w)
  /\ modulate_amp self (Iter s pos) k = Val (v * w)
  /\ raises_at_once (mix self (Osc other)) TypeError
  /\ raises_at_once (modulate_amp self (Osc other)) TypeError.
Proof.
  intros Hbefore Hv Hw.
  assert (Hpair : forall op : float -> float -> float,
             combine_with op self (Iter s pos) k = Val (op v w)).
  { intros op. unfold combine_with, until_finished. rewrite finished_false.
    - rewrite Hv, after_nexts_Iter. cbn [py_next fst]. unfold next_of. now rewrite Hw.
    - intros j Hj. destruct (Hbefore j Hj) as [a [b [Ha Hb]]].
      exists (op a b). rewrite Ha, after_nexts_Iter. cbn [py_next fst].
      unfold next_of. now rewrite Hb. }
  assert (Hfirst : exists v0 : float, generator self O = Val v0).
  { destruct k as [| k]; [now exists v |].
    destruct (Hbefore O (Nat.lt_0_succ k)) as [a [_ [Ha _]]]. now exists a. }
  destruct Hfirst as [v0 Hv0].
  assert (Hosc : forall op : float -> float -> float,
             raises_at_once (combine_with op self (Osc other)) TypeError).
  { intros op. unfold raises_at_once, combine_with, until_finished. split.
    - cbn [finished after_nexts]. now rewrite Hv0.
    - intros i. rewrite finished_after_first; [reflexivity |].
      intros a. cbn [after_nexts]. now rewrite Hv0. }
  split; [apply Hpair |]. split; [apply Hpair |]. split; apply Hosc.
Qed.

Lemma mix_pairs_values_witness :
  mix (Linear 44100 0 0.5 (-1) 1 4) (Iter (repeat_forever 0.25) 0) 1%nat
  = Val (0.5 + 0.25)
  /\ modulate_amp (Linear 44100 0 0.5 (-1) 1 4) (Iter (repeat_forever 0.25) 0) 1%nat
     = Val (0.5 * 0.25)
  /\ raises_at_once (mix (Linear 44100 0 0.5 (-1) 1 4) (Osc (Linear 44100 0 0 (-1) 1 4)))
       TypeError
  /\ raises_at_once
       (modulate_amp (Linear 44100 0 0.5 (-1) 1 4) (Osc (Linear 44100 0 0 (-1) 1 4)))
       TypeError.
Proof.
  apply (@mix_pairs_values (Linear 44100 0 0.5 (-1) 1 4) (repeat_forever 0.25) 0%nat
           (Linear 44100 0 0 (-1) 1 4) 1%nat 0.5 0.25).
  - intros j Hj. replace j with O by lia. exists 0, 0.25. split; vm_compute; reflexivity.
  - vm_compute. reflexivity.
  - reflexivity.
Defined.

(** ** The synthesizer object *)

(** X17.  Only the sample widths 2 and 4 make a synthesizer, anything else
    raises [ValueError]; the scale its waves are quantized with is then
    [2^15 - 1] or [2^31 - 1], for parameters the facade accepts. *)
Theorem synth_width_and_scale (samplerate : float) (samplewidth : Z) :
  (samplewidth <> 2%Z -> samplewidth <> 4%Z ->
   WaveSynth.__init__ samplerate samplewidth = Raise ValueError)
  /\ forall self : WaveSynth.t,
       WaveSynth.__init__ samplerate samplewidth = Ok self ->
       WaveSynth.samplerate self = samplerate
       /\ (samplewidth = 2%Z \/ samplewidth = 4%Z)
       /\ forall (freq amplitude bias : float) (scale : Z),
            WaveSynth.__check_and_get_scale self freq amplitude bias = Ok scale ->
            (samplewidth = 2%Z /\ scale = 32767%Z)
            \/ (samplewidth = 4%Z /\ scale = 2147483647%Z).
Proof.
  unfold WaveSynth.__init__. split.
  - intros H2 H4. apply Z.eqb_neq in H2, H4. now rewrite H2, H4.
  - intros self.
    destruct (samplewidth =? 2)%Z eqn:E2; [apply Z.eqb_eq in E2 |];
      [| destruct (samplewidth =? 4)%Z eqn:E4; [apply Z.eqb_eq in E4 |]];
      cbn [orb]; try discriminate; intros H; injection H as <-;
      (split; [reflexivity |]); (split; [auto |]);
      intros freq amplitude bias scale Hsc;
      unfold WaveSynth.__check_and_get_scale in Hsc; bind_inv Hsc;
      injection Hsc as <-; cbn [WaveSynth.samplewidth]; subst samplewidth; auto.
Qed.

(** ** An echo that cannot decay *)

(** A float that is [<= 0] is not a NaN, is not above 0 and is below 1. *)
Lemma leb_zero_nonpos (x : float) :
  (x <=? 0) = true -> is_nan x = false /\ (0 <? x) = false /\ (x <? 1) = true.
Proof.
  unfold is_nan. rewrite leb_spec, !ltb_spec, eqb_spec.
  change (Prim2SF 0) with (S754_zero false).
  change (Prim2SF 1) with (S754_finite false 4503599627370496 (-52)).
  unfold SFleb, SFltb, SFeqb.
  destruct (Prim2SF x) as [s | s | | s m e]; cbn [SFcompare]; try discriminate.
  - intros _. repeat split.
  - destruct s; [| discriminate]. intros _. repeat split.
  - destruct s; [| discriminate]. intros _.
    rewrite Z.compare_refl, Pos.compare_cont_refl. repeat split.
Qed.

(** X18.  An echo cannot be built with a decay of zero or less: the
    constructor takes the logarithm to that base, and [math.log] raises
    [ValueError]. *)
Theorem echo_nonpositive_decay_raises
    (ln : float -> float) (norm_samplerate : float) (oscillator : OscillatorBase)
    (after : float) (amount : Z) (delay decay : float) :
  (decay <=? 0) = true ->
  EchoingOscillator_init ln norm_samplerate oscillator after amount delay decay
  = Raise ValueError.
Proof.
  intros H. destruct (@leb_zero_nonpos decay H) as [Hnan [Hpos Hlt]].
  unfold EchoingOscillator_init, audible_amount, math_log. rewrite Hlt.
  unfold m_log at 2. rewrite Hnan, Hpos.
  unfold m_log.
  replace (is_nan 0.000001) with false by (vm_compute; reflexivity).
  replace (0 <? 0.000001) with true by (vm_compute; reflexivity).
  reflexivity.
Qed.

Lemma echo_nonpositive_decay_raises_witness :
  EchoingOscillator_init ln_at_echo 44100 (Linear 44100 0 0 (-1) 1 44100) 0 5 0.1 0
  = Raise ValueError.
Proof.
  apply (@echo_nonpositive_decay_raises ln_at_echo 44100 (Linear 44100 0 0 (-1) 1 44100)
           0 5%Z 0.1 0).
  vm_compute. reflexivity.
Defined.

(** ** The envelope: no durations, and what follows the release *)

Section EnvelopeZero.
Variables self_samplerate attack decay sustain sustain_level release : float.
Hypothesis rate_truthy : truthy self_samplerate = true.
Hypothesis attack_zero : truthy attack = false.
Hypothesis decay_zero : truthy decay = false.
Hypothesis sustain_zero : truthy sustain = false.
Hypothesis release_zero : truthy release = false.

Lemma adsr_pass_zero (fuel : nat) (st : Gen.state) :
  adsr_pass self_samplerate attack decay sustain sustain_level release fuel st
  = (Gen.Done tt, st).
Proof.
  unfold adsr_pass. rewrite (@truediv_truthy 1 self_samplerate rate_truthy).
  unfold Gen.bind at 1, Gen.lift.
  unfold Gen.bind at 1. rewrite (@attack_skipped attack fuel _ 0 st attack_zero).
  unfold Gen.bind at 1.
  rewrite (@decay_skipped attack decay sustain_level fuel _ 0 st decay_zero).
  unfold Gen.bind at 1. unfold sustain_segment. rewrite hold_while_skip.
  - unfold Gen.bind.
    rewrite (@release_skipped attack decay sustain sustain_level release fuel _ 0 st
               release_zero).
    reflexivity.
  - unfold end_time_sustain, end_time_decay.
    rewrite (@ltb_add_falsy _ _ _ sustain_zero), (@ltb_add_falsy _ _ _ decay_zero).
    now apply ltb_zero_falsy.
Qed.

Lemma passes_zero_cycle (fuel n : nat) (st : Gen.state) :
  passes self_samplerate attack decay sustain sustain_level release true fuel n st
  = (Gen.Starved, st).
Proof.
  induction n as [| n IH]; cbn [passes]; [reflexivity |].
  unfold Gen.bind. now rewrite adsr_pass_zero.
Qed.

Lemma passes_zero_once (fuel n : nat) (st : Gen.state) :
  passes self_samplerate attack decay sustain sustain_level release false fuel (S n) st
  = (Gen.Done tt, st).
Proof. cbn [passes]. unfold Gen.bind. now rewrite adsr_pass_zero. Qed.
End EnvelopeZero.

(** X19.  An envelope whose four durations are all zero never pulls its
    source.  When it cycles, its generator never yields and never ends,
    however long it runs; when it does not, it ends at once with
    [stop_at_end], and yields nothing but [0.0] without it. *)
Theorem envelope_zero_durations
    (self_samplerate attack decay sustain sustain_level release : float)
    (stop_at_end : bool) (oscillator : pyobj) (fuel : nat) :
  truthy self_samplerate = true ->
  truthy attack = false ->
  truthy decay = false ->
  truthy sustain = false ->
  truthy release = false ->
  Gen.run (envelope_wrapper self_samplerate attack decay sustain sustain_level release
             stop_at_end true fuel) oscillator
    = (Gen.Starved, {| Gen.src := py_iter oscillator; Gen.out := [] |})
  /\ Gen.run (envelope_wrapper self_samplerate attack decay sustain sustain_level release
                true false (S fuel)) oscillator
     = (Gen.Done tt, {| Gen.src := py_iter oscillator; Gen.out := [] |})
  /\ Gen.run (envelope_wrapper self_samplerate attack decay sustain sustain_level release
                false false (S fuel)) oscillator
     = (Gen.Starved, {| Gen.src := py_iter oscillator; Gen.out := repeat 0 (S fuel) |}).
Proof.
  intros Hr Ha Hd Hs Hrel.
  unfold Gen.run, envelope_wrapper, Gen.rebind_iter. split; [| split].
  - unfold Gen.bind at 1. cbn [Gen.src Gen.out]. unfold Gen.bind.
    now rewrite passes_zero_cycle.
  - unfold Gen.bind at 1. cbn [Gen.src Gen.out]. unfold Gen.bind.
    now rewrite passes_zero_once.
  - unfold Gen.bind at 1. cbn [Gen.src Gen.out]. unfold Gen.bind.
    rewrite passes_zero_once by assumption. now rewrite silence_zeros.
Qed.

Lemma envelope_zero_durations_witness :
  Gen.run (envelope_wrapper 4 0 0 0 0.5 0 false true 7) (Osc (Linear 44100 1 0 (-1) 1 4))
  = (Gen.Starved,
     {| Gen.src := py_iter (Osc (Linear 44100 1 0 (-1) 1 4)); Gen.out := [] |}).
Proof.
  assert (Hr : truthy 4 = true) by (vm_compute; reflexivity).
  assert (Hz : truthy 0 = false) by (vm_compute; reflexivity).
  exact (proj1 (@envelope_zero_durations 4 0 0 0 0.5 0 false
                  (Osc (Linear 44100 1 0 (-1) 1 4)) 7%nat Hr Hz Hz Hz Hz)).
Defined.

(** X20.  What follows the release.  Once the one pass of an envelope that
    does not cycle is over, the generator ends there when [stop_at_end] is
    set; otherwise it goes on for ever with [0.0], and does not pull its
    source again. *)
Theorem envelope_after_release
    (self_samplerate attack decay sustain sustain_level release : float)
    (stop_at_end : bool) (oscillator : pyobj) (fuel : nat) (st : Gen.state) :
  passes self_samplerate attack decay sustain sustain_level release false fuel fuel
    {| Gen.src := py_iter oscillator; Gen.out := [] |}
  = (Gen.Done tt, st) ->
  Gen.run (envelope_wrapper self_samplerate attack decay sustain sustain_level release
             stop_at_end false fuel) oscillator
  = if stop_at_end then (Gen.Done tt, st)
    else (Gen.Starved,
          {| Gen.src := Gen.src st; Gen.out := Gen.out st ++ repeat 0 fuel |}).
Proof.
  intros H. unfold Gen.run, envelope_wrapper, Gen.rebind_iter.
  unfold Gen.bind at 1. cbn [Gen.src Gen.out]. unfold Gen.bind. rewrite H.
  destruct stop_at_end; [reflexivity | apply silence_zeros].
Qed.

Lemma envelope_after_release_witness :
  Gen.run (envelope_wrapper 4 0.5 0 0.5 0.5 0.5 false false 3) (Iter (repeat_forever 1) 0)
  = (Gen.Starved,
     {| Gen.src := Iter (repeat_forever 1) 6;
        Gen.out := [0; 0.5; 0.5; 0.5; 0.5; 0.25] ++ repeat 0 3 |}).
Proof.
  apply (@envelope_after_release 4 0.5 0 0.5 0.5 0.5 false (Iter (repeat_forever 1) 0) 3%nat
           {| Gen.src := Iter (repeat_forever 1) 6;
              Gen.out := [0; 0.5; 0.5; 0.5; 0.5; 0.25] |}).
  vm_compute. reflexivity.
Defined.

(** ** Oscillators and their FM source *)

Section LoopFollows.
Variable L : Type.
Variable init : result L.
Variable turn : L -> result (float * L).
(** The place in the sources a turn pulls from, and what it needs there. *)
Variable pos : L -> nat.
Variable P : nat -> Prop.
Hypothesis init_pos : forall l : L, init = Ok l -> pos l = O.
Hypothesis turn_needs :
  forall (l l' : L) (v : float), turn l = Ok (v, l') -> P (pos l) /\ pos l' = S (pos l).

Lemma locals_at_pos (k : nat) (l : L) :
  locals_at init turn k = Ok l -> pos l = k /\ forall j : nat, (j < k)%nat -> P j.
Proof.
  revert l. induction k as [| k IH]; intros l H.
  - split; [now apply init_pos | intros j Hj; lia].
  - rewrite locals_at_S in H.
    destruct (locals_at init turn k) as [l0 |]; cbn [Py.bind] in H; [| discriminate].
    destruct (turn l0) as [[v l1] |] eqn:Et; cbn [Py.bind snd] in H; [| discriminate].
    injection H as <-. destruct (IH l0 eq_refl) as [Hp Hlt].
    destruct (turn_needs Et) as [HP Hpos]. rewrite Hp in HP, Hpos.
    split; [exact Hpos |]. intros j Hj.
    destruct (Nat.eq_dec j k) as [-> | Hne]; [exact HP | apply Hlt; lia].
Qed.

Lemma loop_val_needs (k : nat) (v : float) :
  generator_loop init turn k = Val v -> forall j : nat, (j <= k)%nat -> P j.
Proof.
  intros H. apply generator_loop_val in H. destruct H as [l [l' [Hl Ht]]].
  destruct (@locals_at_pos _ _ Hl) as [Hp Hlt]. destruct (turn_needs Ht) as [HP _].
  rewrite Hp in HP. intros j Hj.
  destruct (Nat.eq_dec j k) as [-> | Hne]; [exact HP | apply Hlt; lia].
Qed.

Hypothesis init_ok : exists l : L, init = Ok l.
Hypothesis turn_total :
  forall l : L, P (pos l) -> exists (v : float) (l' : L), turn l = Ok (v, l').

Lemma loop_val_total (k : nat) :
  (forall j : nat, (j <= k)%nat -> P j) -> exists v : float, generator_loop init turn k = Val v.
Proof.
  intros HP.
  assert (Hl : forall i : nat, (i <= k)%nat -> exists l : L, locals_at init turn i = Ok l).
  { induction i as [| i IH]; intros Hi; [exact init_ok |].
    destruct (IH ltac:(lia)) as [l0 Hl0].
    destruct (@locals_at_pos _ _ Hl0) as [Hp _].
    destruct (@turn_total l0) as [v [l1 Ht]]; [rewrite Hp; apply HP; lia |].
    exists l1. now rewrite locals_at_S, Hl0; cbn [Py.bind]; rewrite Ht. }
  destruct (Hl k (le_n k)) as [l Hk]. destruct (@locals_at_pos _ _ Hk) as [Hp _].
  destruct (@turn_total l) as [v [l1 Ht]]; [rewrite Hp; apply HP; lia |].
  exists v. unfold generator_loop. rewrite Hk. cbn [Py.bind]. now rewrite Ht.
Qed.
End LoopFollows.

Lemma fm_turn_ok (frequency : float) (fm : stream float) (l : fm_locals)
    (freq pc : float) :
  fm_turn frequency fm l = Ok (freq, pc) -> exists d : float, fm (fm_pos l) = Val d.
Proof.
  unfold fm_turn, next_of. destruct (fm (fm_pos l)) as [d | |]; try discriminate.
  intros _. now exists d.
Qed.

Lemma fm_turn_total (frequency : float) (fm : stream float) (l : fm_locals) (d : float) :
  fm (fm_pos l) = Val d -> exists freq pc : float, fm_turn frequency fm l = Ok (freq, pc).
Proof.
  intros H. unfold fm_turn, next_of. rewrite H. cbn [Py.bind]. now eexists _, _.
Qed.

Section FollowSource.
Variable norm_samplerate : float.
Variable sin : float -> float.
Variables frequency amplitude phase bias : float.
Variable fm_lfo : option (stream float).
Variable rate : float.

Local Abbreviation fm := (fm_source fm_lfo).
Local Abbreviation has_fm k := (forall j : nat, (j <= k)%nat -> exists d : float, fm j = Val d).
Local Abbreviation place := (fun p : fm_locals * float => fm_pos (fst p)).

(** What is left to show of a turn that starts with the three FM lines. *)
Ltac fm_needs :=
  intros [l increment] [l' increment'] w Ht; bind_inv Ht;
  injection Ht as _ <- _;
  match goal with
  | E : fm_turn _ _ _ = Ok _ |- _ => split; [exact (fm_turn_ok _ _ _ E) | reflexivity]
  end.

Ltac fm_init :=
  intros [l increment] Hi; bind_inv Hi; injection Hi as <- _; reflexivity.

Lemma Sine_needs (k : nat) (v : float) :
  generator (Sine norm_samplerate sin frequency amplitude phase bias fm_lfo rate) k = Val v ->
  has_fm k.
Proof.
  cbn [generator Sine].
  apply (@loop_val_needs _ _ _ place (fun j => exists d : float, fm j = Val d));
    [fm_init | fm_needs].
Qed.

Lemma Triangle_needs (k : nat) (v : float) :
  generator (Triangle norm_samplerate frequency amplitude phase bias fm_lfo rate) k = Val v ->
  has_fm k.
Proof.
  cbn [generator Triangle].
  apply (@loop_val_needs _ _ _ place (fun j => exists d : float, fm j = Val d));
    [fm_init | fm_needs].
Qed.

Lemma Square_needs (k : nat) (v : float) :
  generator (Square norm_samplerate frequency amplitude phase bias fm_lfo rate) k = Val v ->
  has_fm k.
Proof.
  cbn [generator Square].
  apply (@loop_val_needs _ _ _ place (fun j => exists d : float, fm j = Val d));
    [fm_init | fm_needs].
Qed.

Lemma Sawtooth_needs (k : nat) (v : float) :
  generator (Sawtooth norm_samplerate frequency amplitude phase bias fm_lfo rate) k = Val v ->
  has_fm k.
Proof.
  cbn [generator Sawtooth].
  apply (@loop_val_needs _ _ _ place (fun j => exists d : float, fm j = Val d));
    [fm_init | fm_needs].
Qed.

Lemma Harmonics_needs (num_harmonics : Z) (only_even only_odd : bool) (k : nat) (v : float) :
  generator (Harmonics norm_samplerate sin frequency num_harmonics amplitude phase bias
               only_even only_odd fm_lfo rate) k = Val v ->
  has_fm k.
Proof.
  cbn [generator Harmonics]. unfold Harmonics_generator.
  apply (@loop_val_needs _ _ _ place (fun j => exists d : float, fm j = Val d));
    [fm_init | fm_needs].
Qed.

Hypothesis rate_truthy : truthy (base_samplerate norm_samplerate rate) = true.

Lemma Triangle_total (k : nat) :
  has_fm k ->
  exists v : float,
    generator (Triangle norm_samplerate frequency amplitude phase bias fm_lfo rate) k = Val v.
Proof.
  cbn [generator Triangle].
  apply (@loop_val_total _ _ _ place (fun j => exists d : float, fm j = Val d));
    [fm_init | fm_needs | |].
  - rewrite (@truediv_truthy _ _ rate_truthy). cbn [Py.bind]. now eexists.
  - intros [l increment] [d Hd]. cbn [fst] in Hd.
    destruct (fm_turn_total frequency fm l Hd) as [freq [pc E]].
    rewrite E. cbn [Py.bind]. now eexists _, _.
Qed.

Lemma Pulse_follows (pulsewidth : float) (pwm_lfo : option (stream float))
    (osc : OscillatorBase) (k : nat) :
  Pulse norm_samplerate frequency amplitude phase bias pulsewidth fm_lfo pwm_lfo rate
  = Ok osc ->
  (exists v : float, generator osc k = Val v)
  <-> (forall j : nat, (j <= k)%nat ->
         (exists d : float, fm j = Val d)
         /\ exists pw : float, pwm_source pwm_lfo pulsewidth j = Val pw).
Proof.
  unfold Pulse. destruct (assert _); cbn [Py.bind]; [| discriminate].
  intros H. injection H as <-. cbn [generator].
  assert (Hinit : forall p : fm_locals * float,
             (increment <- truediv 1 (base_samplerate norm_samplerate rate) ;;
              Ok ({| phase_correction := phase; freq_previous := frequency;
                     t := 0; fm_pos := O |}, increment))%py = Ok p ->
             place p = O) by fm_init.
  assert (Hneeds : forall (p p' : fm_locals * float) (v : float),
             (let '(l, increment) := p in
              pw <- next_of (pwm_source pwm_lfo pulsewidth) (fm_pos l) ;;
              let pw := clamp_pw pw in
              '(freq, pc) <- fm_turn frequency fm l ;;
              let tt := t l * freq + pc in
              Ok (pulse_sample amplitude bias tt pw,
                  (fm_advance l freq pc increment, increment)))%py = Ok (v, p') ->
             ((exists d : float, fm (place p) = Val d)
              /\ exists pw : float, pwm_source pwm_lfo pulsewidth (place p) = Val pw)
             /\ place p' = S (place p)).
  { intros [l increment] [l' increment'] v Ht. bind_inv Ht. injection Ht as _ <- _.
    split; [| reflexivity]. split.
    - match goal with E : fm_turn _ _ _ = Ok _ |- _ => exact (fm_turn_ok _ _ _ E) end.
    - match goal with
      | E : next_of _ _ = Ok _ |- _ =>
          unfold next_of in E; cbn [fst];
          destruct (pwm_source pwm_lfo pulsewidth (fm_pos l)) as [pw | |];
          try discriminate; now exists pw
      end. }
  split.
  - intros [v Hv]. revert Hv.
    apply (@loop_val_needs _ _ _ place
             (fun j => (exists d : float, fm j = Val d)
                       /\ exists pw : float, pwm_source pwm_lfo pulsewidth j = Val pw)
             Hinit Hneeds).
  - apply (@loop_val_total _ _ _ place
             (fun j => (exists d : float, fm j = Val d)
                       /\ exists pw : float, pwm_source pwm_lfo pulsewidth j = Val pw)
             Hinit Hneeds).
    + rewrite (@truediv_truthy _ _ rate_truthy). cbn [Py.bind]. now eexists.
    + intros [l increment] [[d Hd] [pw Hpw]]. cbn [fst] in Hd, Hpw.
      unfold next_of. rewrite Hpw. cbn [Py.bind].
      destruct (fm_turn_total frequency fm l Hd) as [freq [pc E]].
      rewrite E. cbn [Py.bind]. now eexists _, _.
Qed.
End FollowSource.

(** X21.  An FM-capable oscillator pulls one value from its FM source in
    every turn.  With a sample rate that is not zero, [Triangle] has a
    value at place [k] exactly when the FM source has values at the places
    up to [k], and [Pulse] exactly when the FM source and the source of the
    duty factor both have: nothing else can stop them.  For [Sine],
    [Harmonics], [Square] and [Sawtooth] the values of the FM source are
    needed as well, but the functions they call have arguments they
    reject.  With no FM source given, the source is an endless 0.0. *)
Theorem fm_oscillators_follow_source
    (norm_samplerate : float) (sin : float -> float)
    (frequency amplitude phase bias pulsewidth : float) (num_harmonics : Z)
    (only_even only_odd : bool) (fm_lfo pwm_lfo : option (stream float))
    (rate : float) (k : nat) :
  truthy (base_samplerate norm_samplerate rate) = true ->
  let has_fm :=
    forall j : nat, (j <= k)%nat -> exists d : float, fm_source fm_lfo j = Val d in
  ((exists v : float,
       generator (Triangle norm_samplerate frequency amplitude phase bias fm_lfo rate) k
       = Val v)
   <-> has_fm)
  /\ (forall osc : OscillatorBase,
        Pulse norm_samplerate frequency amplitude phase bias pulsewidth fm_lfo pwm_lfo rate
        = Ok osc ->
        (exists v : float, generator osc k = Val v)
        <-> (forall j : nat, (j <= k)%nat ->
               (exists d : float, fm_source fm_lfo j = Val d)
               /\ exists pw : float, pwm_source pwm_lfo pulsewidth j = Val pw))
  /\ ((exists v : float,
          generator (Sine norm_samplerate sin frequency amplitude phase bias fm_lfo rate) k
          = Val v)
      -> has_fm)
  /\ ((exists v : float,
          generator (Harmonics norm_samplerate sin frequency num_harmonics amplitude phase
                       bias only_even only_odd fm_lfo rate) k
          = Val v)
      -> has_fm)
  /\ ((exists v : float,
          generator (Square norm_samplerate frequency amplitude phase bias fm_lfo rate) k
          = Val v)
      -> has_fm)
  /\ ((exists v : float,
          generator (Sawtooth norm_samplerate frequency amplitude phase bias fm_lfo rate) k
          = Val v)
      -> has_fm)
  /\ (fm_lfo = None -> has_fm).
Proof.
  intros Hr has_fm. unfold has_fm. clear has_fm.
  split; [| split; [| split; [| split; [| split; [| split]]]]].
  - split.
    + intros [v Hv]. eapply Triangle_needs; exact Hv.
    + now apply Triangle_total.
  - intros osc Hosc.
    exact (@Pulse_follows norm_samplerate frequency amplitude phase bias fm_lfo rate
             Hr pulsewidth pwm_lfo osc k Hosc).
  - intros [v Hv]. eapply Sine_needs; exact Hv.
  - intros [v Hv]. eapply Harmonics_needs; exact Hv.
  - intros [v Hv]. eapply Square_needs; exact Hv.
  - intros [v Hv]. eapply Sawtooth_needs; exact Hv.
  - intros -> j _. now exists 0.
Qed.

Lemma fm_oscillators_follow_source_witness :
  exists v : float, generator (Triangle 44100 440 1 0 0 None 8) 5%nat = Val v.
Proof.
  assert (Hr : truthy (base_samplerate 44100 8) = true) by (vm_compute; reflexivity).
  destruct (@fm_oscillators_follow_source 44100 sin_poly 440 1 0 0 0.5 3 false false
              None None 8 5%nat Hr) as [[_ Htriangle] [_ [_ [_ [_ [_ Hnone]]]]]].
  apply Htriangle, Hnone. reflexivity.
Defined.

(** A square wave can stop where no source does: at an infinite frequency
    its phase is a NaN, and [int()] raises. *)
Example square_infinite_frequency :
  generator (Square 44100 infinity 1 0 0 None 8) 0%nat = Fail ValueError.
Proof. vm_compute. reflexivity. Qed.

(** ** Oscillators without sources *)

Lemma loop_always (L : Type) (init : result L) (turn : L -> result (float * L)) :
  (exists l : L, init = Ok l) ->
  (forall l : L, exists (v : float) (l' : L), turn l = Ok (v, l')) ->
  forall k : nat, exists v : float, generator_loop init turn k = Val v.
Proof.
  intros Hinit Hturn k.
  assert (Hl : exists l : L, locals_at init turn k = Ok l).
  { induction k as [| k [l IH]]; [exact Hinit |].
    destruct (Hturn l) as [v [l' Ht]]. exists l'.
    rewrite locals_at_S, IH. cbn [Py.bind]. now rewrite Ht. }
  destruct Hl as [l Hl]. destruct (Hturn l) as [v [l' Ht]].
  exists v. unfold generator_loop. rewrite Hl. cbn [Py.bind]. now rewrite Ht.
Qed.

Lemma truthy_or_not (x : float) : truthy x = true \/ truthy x = false.
Proof. destruct (truthy x); auto. Qed.

(** X22.  The oscillators without an FM source.  With a sample rate that
    is not zero, [FastTriangle] has a value at every place exactly when the
    frequency is not zero, and [FastPulse] exactly when the frequency is
    not zero and its source of duty factors has values.  [FastSine] needs
    the frequency and [samplerate/frequency] not to be zero.  [WhiteNoise]
    and [Linear] have a value at every place. *)
Theorem sourceless_oscillators_yield
    (norm_samplerate : float) (sin : float -> float) (random : nat -> float)
    (frequency amplitude phase bias pulsewidth rate : float)
    (startlevel increment min_value max_value : float)
    (pwm_lfo : option (stream float)) (k : nat) :
  truthy (base_samplerate norm_samplerate rate) = true ->
  ((exists v : float,
       generator (FastTriangle norm_samplerate frequency amplitude phase bias rate) k = Val v)
   <-> truthy frequency = true)
  /\ ((exists v : float,
          generator (FastSine norm_samplerate sin frequency amplitude phase bias rate) k
          = Val v)
      -> truthy frequency = true
         /\ truthy (base_samplerate norm_samplerate rate / frequency) = true)
  /\ (forall osc : OscillatorBase,
        FastPulse norm_samplerate frequency amplitude phase bias pulsewidth pwm_lfo rate
        = Ok osc ->
        (exists v : float, generator osc k = Val v)
        <-> truthy frequency = true
            /\ forall j : nat, (j <= k)%nat ->
                 exists pw : float, pwm_source pwm_lfo pulsewidth j = Val pw)
  /\ (exists v : float,
         generator (WhiteNoise norm_samplerate random amplitude bias rate) k = Val v)
  /\ (exists v : float,
         generator (Linear norm_samplerate startlevel increment min_value max_value rate) k
         = Val v).
Proof.
  intros Hr.
  assert (Hzero := fun Hz : truthy frequency = false =>
            @fast_zero_frequency norm_samplerate sin frequency Hz amplitude phase bias
              pulsewidth rate pwm_lfo k).
  assert (Hinit : truthy frequency = true ->
                  fast_init frequency phase (base_samplerate norm_samplerate rate)
                  = Ok (phase / frequency, 1 / base_samplerate norm_samplerate rate)).
  { intros Hf. unfold fast_init.
    now rewrite (@truediv_truthy _ _ Hf), (@truediv_truthy _ _ Hr). }
  split; [| split; [| split; [| split]]].
  - split.
    + intros [v Hv]. destruct (truthy_or_not frequency) as [Hf | Hf]; [exact Hf |].
      destruct (Hzero Hf) as [_ [H _]]. rewrite H in Hv. discriminate.
    + intros Hf. cbn [generator FastTriangle]. apply loop_always.
      * rewrite (Hinit Hf). now eexists.
      * intros [t increment']. now eexists _, _.
  - intros [v Hv]. destruct (truthy_or_not frequency) as [Hf | Hf].
    + split; [exact Hf |].
      destruct (truthy_or_not (base_samplerate norm_samplerate rate / frequency))
        as [Hq | Hq]; [exact Hq |].
      cbn [generator FastSine] in Hv.
      rewrite (@generator_loop_init_raises _ _ _ ZeroDivisionError) in Hv;
        [discriminate |].
      rewrite (@truediv_truthy _ _ Hf). cbn [Py.bind]. now rewrite truediv_zero.
    + destruct (Hzero Hf) as [H _]. rewrite H in Hv. discriminate.
  - intros osc Hosc. split.
    + intros [v Hv]. destruct (truthy_or_not frequency) as [Hf | Hf].
      * split; [exact Hf |]. revert Hv.
        unfold FastPulse in Hosc. destruct (assert _); cbn [Py.bind] in Hosc;
          [| discriminate].
        injection Hosc as <-. cbn [generator]. destruct pwm_lfo as [pwm |].
        -- apply (@loop_val_needs _ _ _ (fun p : float * float * nat => snd p)
                    (fun j => exists pw : float, pwm j = Val pw)).
           ++ intros [[t i] j] Hi. bind_inv Hi. now injection Hi as _ _ <-.
           ++ intros [[t i] j] [[t' i'] j'] w Ht. bind_inv Ht.
              injection Ht as _ _ _ <-. split; [| reflexivity].
              cbn [snd]. unfold next_of in E. destruct (pwm j) as [pw | |];
                try discriminate. now exists pw.
        -- intros _ j _. now exists pulsewidth.
      * destruct (Hzero Hf) as [_ [_ [_ [_ H]]]]. rewrite (H osc Hosc) in Hv.
        discriminate.
    + intros [Hf Hpw].
      unfold FastPulse in Hosc. destruct (assert _); cbn [Py.bind] in Hosc;
        [| discriminate].
      injection Hosc as <-. cbn [generator]. destruct pwm_lfo as [pwm |].
      * revert Hpw.
        apply (@loop_val_total _ _ _ (fun p : float * float * nat => snd p)
                 (fun j => exists pw : float, pwm j = Val pw)).
        -- intros [[t i] j] Hi. bind_inv Hi. now injection Hi as _ _ <-.
        -- intros [[t i] j] [[t' i'] j'] w Ht. bind_inv Ht.
           injection Ht as _ _ _ <-. split; [| reflexivity].
           cbn [snd]. unfold next_of in E. destruct (pwm j) as [pw | |];
             try discriminate. now exists pw.
        -- rewrite (Hinit Hf). cbn [Py.bind]. now eexists.
        -- intros [[t i] j] [pw Hj]. cbn [snd] in Hj. unfold next_of. rewrite Hj.
           cbn [Py.bind]. now eexists _, _.
      * apply loop_always.
        -- rewrite (Hinit Hf). now eexists.
        -- intros [t i]. now eexists _, _.
  - cbn [generator WhiteNoise]. apply loop_always; [now eexists |].
    intros j. now eexists _, _.
  - destruct (Linear_locals norm_samplerate startlevel increment min_value max_value rate k)
      as [value [_ H]]. now exists value.
Qed.

Lemma sourceless_oscillators_yield_witness :
  exists v : float, generator (FastTriangle 44100 440 1 0 0 8) 3%nat = Val v.
Proof.
  assert (Hr : truthy (base_samplerate 44100 8) = true) by (vm_compute; reflexivity).
  destruct (@sourceless_oscillators_yield 44100 sin_poly (fun _ => 0.5) 440 1 0 0 0.5 8
              0 0 (-1) 1 None 3%nat Hr) as [[_ H] _].
  apply H. vm_compute. reflexivity.
Defined.

(** ** The ramp of [linear] *)






